(** * AtomSim: bonding, molecule identification and energy model

    A shallow embedding of the chemistry core of AtomSim:

    - [Engine]            src/app/simulation/autonomous-chemistry.engine.ts
                          (class AutonomousChemistryEngine);
    - [Simulation]        src/app/simulation/simulation.component.ts
                          (class SimulationComponent, the component with the
                          heat pulse and the reaction orchestrator);
    - [ModesSimulation]   the second SimulationComponent of the repository, the
                          one driven by simulation modes (its text follows the
                          recipes in molecular-recipes.interface.ts).

    Conventions of the embedding.

    - A JavaScript number that carries a quantity (energy, electronegativity,
      radius) is a rational [Q], and no quantity of the core is NaN.  The two
      activation energies, whose value decides a comparison with the system
      energy, are computed as the code computes them, in IEEE-754 binary64:
      every operand is read as the double nearest to it and every operation
      rounds to nearest, ties to even ([JS.double]).  Counters, atom ids and
      proton numbers are [nat].
    - Atoms are objects shared by [this.atoms], by bonds and by molecules; the
      state keeps one store of atom objects and everything else refers to atoms
      by id.
    - The physics and rendering collaborators (cannon-es, three.js) are outside
      the core: positions enter through a [World] record of observations
      (distances, kinetic energies) and calls that only move or draw bodies are
      left out.  [console.log] is left out.
    - [setTimeout] and [requestAnimationFrame] continuations are separate
      functions of the model, applied when the continuation fires. *)

From Stdlib Require Import ZArith QArith Qminmax Qabs Qround Lia Lqa.
From Stdlib Require Import List String Ascii Bool.
From Stdlib Require Import Decimal DecimalNat DecimalString.
From Stdlib Require Import Permutation Sorted.
Import ListNotations.

Open Scope string_scope.
Open Scope Q_scope.

(** ** JavaScript helpers *)

Module JS.

(** [String(n)] for a non-negative integer: its decimal digits. *)
Definition toString (n : nat) : string :=
  NilZero.string_of_uint (Nat.to_uint n).

(** [parts.join(sep)] *)
Definition join (sep : string) (parts : list string) : string :=
  String.concat sep parts.

(** [Array.prototype.sort(compareFn)] is stable; [cmp x y] is the sign test
    [compareFn(x, y) <= 0], that is: [x] may stay in front of [y]. *)
Section Sort.
Context {A : Type} (cmp : A -> A -> bool).

Fixpoint insert (x : A) (l : list A) : list A :=
  match l with
  | [] => [x]
  | y :: l' => if cmp x y then x :: y :: l' else y :: insert x l'
  end.

Definition sortBy (l : list A) : list A := fold_right insert [] l.
End Sort.

(** [Array.prototype.sort()] with no comparator: the elements are converted to
    strings and ordered by code units. *)
Definition sortDefault (l : list nat) : list nat :=
  sortBy (fun x y => String.leb (toString x) (toString y)) l.

(** The comparator [(a, b) => a - b] on non-negative integers. *)
Definition sortNumeric (l : list nat) : list nat :=
  sortBy Nat.leb l.

(** [s.toLowerCase()] on ASCII text. *)
Definition lowerChar (c : ascii) : ascii :=
  let n := nat_of_ascii c in
  if (65 <=? n)%nat && (n <=? 90)%nat then ascii_of_nat (n + 32) else c.

Fixpoint toLowerCase (s : string) : string :=
  match s with
  | EmptyString => EmptyString
  | String c s' => String (lowerChar c) (toLowerCase s')
  end.

(** [s.includes(t)] *)
Fixpoint includes (t s : string) : bool :=
  if String.prefix t s then true
  else match s with
       | EmptyString => false
       | String _ s' => includes t s'
       end.

(** No character of [s] is the separator of ids. *)
Fixpoint noDash (s : string) : bool :=
  match s with
  | EmptyString => true
  | String c s' => negb (Ascii.eqb c "-") && noDash s'
  end.

(** *** Binary64 arithmetic

    A finite double is a rational.  [double q] is the double nearest to [q],
    ties to even: [binade q] is the [e] with 2^e <= |q| < 2^(e+1), the spacing
    of the doubles around [q] is 2^(e-52) (2^-1074 for subnormals), and [q]
    is rounded to a multiple of it.  No quantity of the core comes near
    2^1024, where a double overflows to [Infinity]. *)
Definition binade (q : Q) : Z :=
  let e := (Z.log2 (Z.abs (Qnum q)) - Z.log2 (Zpos (Qden q)))%Z in
  if Qle_bool (Qpower 2 e) (Qabs q) then e else (e - 1)%Z.

Definition roundHalfEven (q : Q) : Z :=
  let f := Qfloor q in
  match Qcompare (q - inject_Z f) (1 # 2) with
  | Lt => f
  | Eq => if Z.even f then f else (f + 1)%Z
  | Gt => (f + 1)%Z
  end.

Definition double (q : Q) : Q :=
  if Qeq_bool q 0 then 0
  else
    let ulp := Qpower 2 (Z.max (binade q - 52) (-1074)) in
    let m := roundHalfEven (Qabs q / ulp) in
    Qred ((if Qle_bool 0 q then inject_Z m else inject_Z (- m)) * ulp).

(** [x + y], [x - y], [x * y], [x / y], [Math.abs(x)] and [Math.max(x, y)]
    on doubles. *)
Definition add (x y : Q) : Q := double (double x + double y).
Definition sub (x y : Q) : Q := double (double x - double y).
Definition mul (x y : Q) : Q := double (double x * double y).
Definition div (x y : Q) : Q := double (double x / double y).
Definition abs (x : Q) : Q := Qabs (double x).
Definition max (x y : Q) : Q := Qmax (double x) (double y).

(** A number that may be [Infinity]. *)
Inductive num : Type :=
| Finite (q : Q)
| Infinity.

(** [x >= y] for a finite [x]. *)
Definition geb (x : Q) (y : num) : bool :=
  match y with
  | Finite q => Qle_bool q x
  | Infinity => false
  end.

(** A call either returns or throws [TypeError]; a throw keeps the state
    reached by the mutations done so far. *)
Inductive outcome (A : Type) : Type :=
| Returns (a : A)
| Throws (a : A).
Arguments Returns {A} a.
Arguments Throws {A} a.

(** The state a call leaves behind, however it ends. *)
Definition stateOf {A : Type} (o : outcome A) : A :=
  match o with
  | Returns a => a
  | Throws a => a
  end.

(** One call after another; a throw ends the sequence. *)
Definition andThen {A : Type} (o : outcome A) (k : A -> outcome A) : outcome A :=
  match o with
  | Returns a => k a
  | Throws a => Throws a
  end.

End JS.

(** ** Atoms *)

Module Atom.
(** [interface Atom]: the fields the core reads and writes.  The visuals and
    the physical body belong to the collaborators. *)
Record t : Type := mk {
  id : nat;
  protons : nat;
  neutrons : nat;
  electronsCount : nat;
  isMoleculeMember : bool
}.

Definition setMember (m : bool) (a : t) : t :=
  mk (id a) (protons a) (neutrons a) (electronsCount a) m.
End Atom.

(** ** The chemistry engine *)

Module Engine.

Record ChemicalElement : Type := mkElement {
  atomicNumber : nat;
  symbol : string;
  name : string;
  valenceElectrons : nat;
  maxBonds : nat;
  electronegativity : Q;
  atomicRadius : Q;
  ionizationEnergy : Q;
  electronAffinity : Q;
  preferredOxidationStates : list Z
}.

Definition CHEMICAL_ELEMENTS : list (nat * ChemicalElement) :=
  let e := mkElement in
  [ (1%nat,  e 1%nat  "H"  "Hydrogen"   1%nat 1%nat 2.20 0.37 13.6 0.75 [-1; 1]%Z);
    (2%nat,  e 2%nat  "He" "Helium"     2%nat 0%nat 0.0  0.32 24.6 0.0  [0]%Z);
    (3%nat,  e 3%nat  "Li" "Lithium"    1%nat 1%nat 0.98 1.52 5.4  0.62 [1]%Z);
    (4%nat,  e 4%nat  "Be" "Beryllium"  2%nat 2%nat 1.57 1.12 9.3  0.0  [2]%Z);
    (5%nat,  e 5%nat  "B"  "Boron"      3%nat 3%nat 2.04 0.88 8.3  0.28 [3]%Z);
    (6%nat,  e 6%nat  "C"  "Carbon"     4%nat 4%nat 2.55 0.77 11.3 1.26
               [-4; -3; -2; -1; 0; 1; 2; 3; 4]%Z);
    (7%nat,  e 7%nat  "N"  "Nitrogen"   5%nat 3%nat 3.04 0.75 14.5 0.07
               [-3; -2; -1; 0; 1; 2; 3; 4; 5]%Z);
    (8%nat,  e 8%nat  "O"  "Oxygen"     6%nat 2%nat 3.44 0.73 13.6 1.46
               [-2; -1; 0; 1; 2]%Z);
    (9%nat,  e 9%nat  "F"  "Fluorine"   7%nat 1%nat 3.98 0.71 17.4 3.40 [-1]%Z);
    (10%nat, e 10%nat "Ne" "Neon"       8%nat 0%nat 0.0  0.69 21.6 0.0  [0]%Z);
    (11%nat, e 11%nat "Na" "Sodium"     1%nat 1%nat 0.93 1.86 5.1  0.55 [1]%Z);
    (12%nat, e 12%nat "Mg" "Magnesium"  2%nat 2%nat 1.31 1.60 7.6  0.0  [2]%Z);
    (13%nat, e 13%nat "Al" "Aluminum"   3%nat 3%nat 1.61 1.43 6.0  0.43 [3]%Z);
    (14%nat, e 14%nat "Si" "Silicon"    4%nat 4%nat 1.90 1.18 8.2  1.39
               [-4; 2; 4]%Z);
    (15%nat, e 15%nat "P"  "Phosphorus" 5%nat 5%nat 2.19 1.10 10.5 0.75
               [-3; 3; 5]%Z);
    (16%nat, e 16%nat "S"  "Sulfur"     6%nat 6%nat 2.58 1.04 10.4 2.08
               [-2; 2; 4; 6]%Z);
    (17%nat, e 17%nat "Cl" "Chlorine"   7%nat 7%nat 3.16 0.99 13.0 3.61
               [-1; 1; 3; 5; 7]%Z);
    (18%nat, e 18%nat "Ar" "Argon"      8%nat 0%nat 0.0  0.97 15.8 0.0  [0]%Z) ].

(** [CHEMICAL_ELEMENTS.get(protons)] *)
Fixpoint lookup {V : Type} (k : nat) (m : list (nat * V)) : option V :=
  match m with
  | [] => None
  | (k', v) :: m' => if Nat.eqb k k' then Some v else lookup k m'
  end.

Definition get (protons : nat) : option ChemicalElement :=
  lookup protons CHEMICAL_ELEMENTS.

(** [getCurrentBondCount]: the body is the source's placeholder. *)
Definition getCurrentBondCount (atom : Atom.t) : nat := 0%nat.

Definition calculateActivationEnergy (atomA atomB : Atom.t) : JS.num :=
  match get (Atom.protons atomA), get (Atom.protons atomB) with
  | Some elementA, Some elementB =>
      let electronegativityDiff :=
        JS.abs (JS.sub (electronegativity elementA) (electronegativity elementB)) in
      let avgIonizationEnergy :=
        JS.div (JS.add (ionizationEnergy elementA) (ionizationEnergy elementB)) 2 in
      let activationEnergy :=
        JS.mul (JS.mul avgIonizationEnergy
                  (JS.sub 1 (JS.div electronegativityDiff 4))) 0.1 in
      JS.Finite (JS.max activationEnergy 1)
  | _, _ => JS.Infinity
  end.

Definition canFormBond (atomA atomB : Atom.t) (systemEnergy : Q) : bool :=
  match get (Atom.protons atomA), get (Atom.protons atomB) with
  | Some elementA, Some elementB =>
      if (maxBonds elementA =? 0)%nat || (maxBonds elementB =? 0)%nat then false
      else
        let bondsA := getCurrentBondCount atomA in
        let bondsB := getCurrentBondCount atomB in
        if (maxBonds elementA <=? bondsA)%nat || (maxBonds elementB <=? bondsB)%nat
        then false
        else JS.geb systemEnergy (calculateActivationEnergy atomA atomB)
  | _, _ => false
  end.

(** [atoms.reduce((best, current) => ...)] with no initial value: the first
    atom starts as [best]; [None] is the TypeError of an empty array. *)
Definition betterCentral (best current : Atom.t) : Atom.t :=
  match get (Atom.protons current), get (Atom.protons best) with
  | Some currentElement, Some bestElement =>
      let currentScore :=
        inject_Z (Z.of_nat (maxBonds currentElement))
        - electronegativity currentElement in
      let bestScore :=
        inject_Z (Z.of_nat (maxBonds bestElement))
        - electronegativity bestElement in
      if Qle_bool currentScore bestScore then best else current
  | _, _ => best
  end.

Definition findOptimalCentralAtom (atoms : list Atom.t) : option Atom.t :=
  match atoms with
  | [] => None
  | first :: rest => Some (fold_left betterCentral rest first)
  end.

Inductive BondType : Type := covalent | ionic | metallic | hydrogen.

Module BondingPair.
Record t : Type := mk {
  atomA : Atom.t;
  atomB : Atom.t;
  bondOrder : nat;
  bondType : BondType;
  bondEnergy : Q;
  bondLength : Q;
  polarity : Q
}.
End BondingPair.

Definition calculateBondOrder (elementA elementB : ChemicalElement) : nat :=
  let availableElectronsA :=
    Nat.min (valenceElectrons elementA) (maxBonds elementA) in
  let availableElectronsB :=
    Nat.min (valenceElectrons elementB) (maxBonds elementB) in
  Nat.min (Nat.min availableElectronsA availableElectronsB) 3.

Definition calculateBondEnergy (elementA elementB : ChemicalElement)
    (bondOrder : nat) (bondType : BondType) : Q :=
  let baseEnergy := (electronegativity elementA + electronegativity elementB) * 50 in
  let orderMultiplier := inject_Z (Z.of_nat bondOrder) * 1.5 in
  let typeMultiplier :=
    match bondType with ionic => 1.5 | hydrogen => 0.3 | _ => 1.0 end in
  baseEnergy * orderMultiplier * typeMultiplier.

Definition calculateBondLength (atomA atomB : Atom.t) : Q :=
  match get (Atom.protons atomA), get (Atom.protons atomB) with
  | Some elementA, Some elementB =>
      (atomicRadius elementA + atomicRadius elementB) * 1.2
  | _, _ => 2.0
  end.

Definition isNOF (protons : nat) : bool :=
  existsb (Nat.eqb protons) [7; 8; 9]%nat.

Definition calculateBondProperties (atomA atomB : Atom.t)
    : option BondingPair.t :=
  match get (Atom.protons atomA), get (Atom.protons atomB) with
  | Some elementA, Some elementB =>
      let electronegativityDiff :=
        Qabs (electronegativity elementA - electronegativity elementB) in
      let bondType0 :=
        if Qle_bool electronegativityDiff 1.7 then covalent else ionic in
      let bondType :=
        if ((Atom.protons atomA =? 1)%nat && isNOF (Atom.protons atomB))
           || ((Atom.protons atomB =? 1)%nat && isNOF (Atom.protons atomA))
        then hydrogen else bondType0 in
      let bondOrder := calculateBondOrder elementA elementB in
      let bondEnergy := calculateBondEnergy elementA elementB bondOrder bondType in
      let bondLength := calculateBondLength atomA atomB in
      Some (BondingPair.mk atomA atomB bondOrder bondType bondEnergy bondLength
              electronegativityDiff)
  | _, _ => None
  end.

(** The double loop [for i ... for j = i + 1 ...] over an array. *)
Fixpoint pairs {A : Type} (l : list A) : list (A * A) :=
  match l with
  | [] => []
  | x :: l' => map (fun y => (x, y)) l' ++ pairs l'
  end.

(** [atomBondCounts.get(id) || 0] and [atomBondCounts.set(id, n)] *)
Definition countOf (k : nat) (m : list (nat * nat)) : nat :=
  match lookup k m with Some n => n | None => 0%nat end.

Fixpoint setCount (k n : nat) (m : list (nat * nat)) : list (nat * nat) :=
  match m with
  | [] => [(k, n)]
  | (k', v) :: m' =>
      if Nat.eqb k k' then (k', n) :: m' else (k', v) :: setCount k n m'
  end.

(** The greedy selection of [calculateOptimalBondingStructure]: bonds in order
    of decreasing energy, each kept when both ends have a free site. *)
Fixpoint selectBonds (possible : list BondingPair.t)
    (atomBondCounts : list (nat * nat)) : list BondingPair.t :=
  match possible with
  | [] => []
  | bond :: rest =>
      let a := BondingPair.atomA bond in
      let b := BondingPair.atomB bond in
      match get (Atom.protons a), get (Atom.protons b) with
      | Some elementA, Some elementB =>
          let currentBondsA := countOf (Atom.id a) atomBondCounts in
          let currentBondsB := countOf (Atom.id b) atomBondCounts in
          if (currentBondsA <? maxBonds elementA)%nat
             && (currentBondsB <? maxBonds elementB)%nat
          then
            let counts1 :=
              setCount (Atom.id a) (currentBondsA + BondingPair.bondOrder bond)
                atomBondCounts in
            let counts2 :=
              setCount (Atom.id b) (currentBondsB + BondingPair.bondOrder bond)
                counts1 in
            bond :: selectBonds rest counts2
          else selectBonds rest atomBondCounts
      | _, _ => selectBonds rest atomBondCounts
      end
  end.

Definition possibleBonds (atoms : list Atom.t) : list BondingPair.t :=
  flat_map (fun p => match calculateBondProperties (fst p) (snd p) with
                     | Some bondPair => [bondPair]
                     | None => []
                     end) (pairs atoms).

Definition sortByBondEnergy (l : list BondingPair.t) : list BondingPair.t :=
  JS.sortBy (fun a b => Qle_bool (BondingPair.bondEnergy b) (BondingPair.bondEnergy a)) l.

Definition calculateMolecularStability (atoms : list Atom.t)
    (bonds : list BondingPair.t) : Q :=
  fold_left (fun sum bond => sum + BondingPair.bondEnergy bond) bonds 0
  / inject_Z (Z.of_nat (List.length atoms)).

(** [determineGeometry]; [None] is the TypeError of [findOptimalCentralAtom] on
    an empty array. *)
Definition determineGeometry (atoms : list Atom.t) (bonds : list BondingPair.t)
    (centralAtom : option Atom.t) : option string :=
  if (List.length atoms =? 1)%nat then Some "atomic"
  else if (List.length atoms =? 2)%nat then Some "linear"
  else
    match (match centralAtom with
           | Some c => Some c
           | None => findOptimalCentralAtom atoms
           end) with
    | None => None
    | Some centralAtom =>
        let centralBonds :=
          filter (fun b =>
                    (Atom.id (BondingPair.atomA b) =? Atom.id centralAtom)%nat
                    || (Atom.id (BondingPair.atomB b) =? Atom.id centralAtom)%nat)
                 bonds in
        let bondCount := inject_Z (Z.of_nat (List.length centralBonds)) in
        match get (Atom.protons centralAtom) with
        | None => Some "unknown"
        | Some element =>
            let lonePairs :=
              Qmax 0 ((inject_Z (Z.of_nat (valenceElectrons element))
                       - bondCount * 2) / 2) in
            let totalElectronPairs := bondCount + lonePairs in
            let eqn (x : Q) (n : Q) := Qeq_bool x n in
            Some (
              if eqn totalElectronPairs 2 then "linear"
              else if eqn totalElectronPairs 3 then
                (if eqn lonePairs 0 then "trigonal_planar" else "bent")
              else if eqn totalElectronPairs 4 then
                (if eqn lonePairs 0 then "tetrahedral"
                 else if eqn lonePairs 1 then "trigonal_pyramidal"
                 else if eqn lonePairs 2 then "bent"
                 else "complex")
              else if eqn totalElectronPairs 5 then
                (if eqn lonePairs 0 then "trigonal_bipyramidal"
                 else if eqn lonePairs 1 then "seesaw"
                 else if eqn lonePairs 2 then "T_shaped"
                 else if eqn lonePairs 3 then "linear"
                 else "complex")
              else if eqn totalElectronPairs 6 then
                (if eqn lonePairs 0 then "octahedral"
                 else if eqn lonePairs 1 then "square_pyramidal"
                 else if eqn lonePairs 2 then "square_planar"
                 else "complex")
              else "complex")
        end
    end.

Module BondingStructure.
Record t : Type := mk {
  bonds : list BondingPair.t;
  centralAtom : option Atom.t;
  geometry : option string;
  stability : Q
}.
End BondingStructure.

Definition calculateOptimalBondingStructure (atoms : list Atom.t)
    : BondingStructure.t :=
  if (List.length atoms <? 2)%nat then
    BondingStructure.mk [] None (Some "atomic") 0
  else
    let centralAtom := findOptimalCentralAtom atoms in
    let sorted := sortByBondEnergy (possibleBonds atoms) in
    let atomBondCounts :=
      fold_left (fun m atom => setCount (Atom.id atom) 0 m) atoms [] in
    let bonds := selectBonds sorted atomBondCounts in
    BondingStructure.mk bonds centralAtom
      (determineGeometry atoms bonds centralAtom)
      (calculateMolecularStability atoms bonds).

(** [composition.set(protons, (composition.get(protons) || 0) + 1)] on a Map,
    whose entries keep the order of first insertion. *)
Definition bump (protons : nat) (composition : list (nat * nat))
    : list (nat * nat) :=
  setCount protons (countOf protons composition + 1) composition.

Definition compositionOf (atoms : list Atom.t) : list (nat * nat) :=
  fold_left (fun m atom => bump (Atom.protons atom) m) atoms [].

Definition prefixes : list string :=
  [""; "mono"; "di"; "tri"; "tetra"; "penta"; "hexa"; "hepta"; "octa"; "nona";
   "deca"].

Definition subscriptDigit (d : nat) : string :=
  nth d ["₀"; "₁"; "₂"; "₃"; "₄"; "₅"; "₆"; "₇"; "₈"; "₉"] "".

Fixpoint digitsOf (u : Decimal.uint) : list nat :=
  match u with
  | Nil => []
  | D0 u' => 0%nat :: digitsOf u'
  | D1 u' => 1%nat :: digitsOf u'
  | D2 u' => 2%nat :: digitsOf u'
  | D3 u' => 3%nat :: digitsOf u'
  | D4 u' => 4%nat :: digitsOf u'
  | D5 u' => 5%nat :: digitsOf u'
  | D6 u' => 6%nat :: digitsOf u'
  | D7 u' => 7%nat :: digitsOf u'
  | D8 u' => 8%nat :: digitsOf u'
  | D9 u' => 9%nat :: digitsOf u'
  end.

(** [count.toString().split('').map(d => '₀₁₂₃₄₅₆₇₈₉'[parseInt(d)]).join('')] *)
Definition subscriptOf (count : nat) : string :=
  JS.join "" (map subscriptDigit (digitsOf (Nat.to_uint count))).

Definition generateSystematicName (atoms : list Atom.t) : string :=
  let composition := compositionOf atoms in
  let found :=
    flat_map (fun entry => match get (fst entry) with
                           | Some element => [(element, snd entry)]
                           | None => []
                           end) composition in
  let sortedElements :=
    JS.sortBy (fun a b => Qle_bool (electronegativity (fst a))
                                   (electronegativity (fst b))) found in
  let parts :=
    map (fun item =>
           let count := snd item in
           let prefix :=
             if (1 <? count)%nat then
               match nth_error prefixes count with
               | Some p => p
               | None => JS.toString count ++ "-"
               end
             else "" in
           prefix ++ JS.toLowerCase (name (fst item))) sortedElements in
  let formulaParts :=
    map (fun item =>
           let count := snd item in
           let subscript := if (1 <? count)%nat then subscriptOf count else "" in
           symbol (fst item) ++ subscript) sortedElements in
  JS.join " " parts ++ " (" ++ JS.join "" formulaParts ++ ")".

(** [calculateMolecularPositions], reduced to the ids that receive a position:
    the coordinates belong to the renderer.  [None] is the TypeError of
    [findOptimalCentralAtom] on an empty array. *)
Definition positionedIds (atoms : list Atom.t) (geometry : string)
    : option (list nat) :=
  match atoms with
  | [a] => Some [Atom.id a]
  | [a; b] => Some [Atom.id a; Atom.id b]
  | _ =>
      match findOptimalCentralAtom atoms with
      | None => None
      | Some centralAtom =>
          let otherAtoms :=
            filter (fun a => negb (Atom.id a =? Atom.id centralAtom)%nat) atoms in
          let placed :=
            if String.eqb geometry "tetrahedral"
               || String.eqb geometry "trigonal_pyramidal"
            then firstn 4 otherAtoms
            else otherAtoms in
          Some (Atom.id centralAtom :: map Atom.id placed)
      end
  end.

(** The VSEPR table as the specification gives it: a row per number of
    electron pairs, and in a row the shape for each number of lone pairs
    ([None]: any number).  No row, or no entry in the row: [complex]. *)
Definition vseprTable : list (Q * list (option Q * string)) :=
  [ (2, [(None, "linear")]);
    (3, [(Some 0, "trigonal_planar"); (None, "bent")]);
    (4, [(Some 0, "tetrahedral"); (Some 1, "trigonal_pyramidal");
         (Some 2, "bent")]);
    (5, [(Some 0, "trigonal_bipyramidal"); (Some 1, "seesaw");
         (Some 2, "T_shaped"); (Some 3, "linear")]);
    (6, [(Some 0, "octahedral"); (Some 1, "square_pyramidal");
         (Some 2, "square_planar")]) ].

Fixpoint vseprRow (lonePairs : Q) (row : list (option Q * string)) : string :=
  match row with
  | [] => "complex"
  | (None, shape) :: _ => shape
  | (Some n, shape) :: row' =>
      if Qeq_bool lonePairs n then shape else vseprRow lonePairs row'
  end.

Fixpoint vseprFind (totalPairs : Q) (table : list (Q * list (option Q * string)))
    : option (list (option Q * string)) :=
  match table with
  | [] => None
  | (n, row) :: table' =>
      if Qeq_bool totalPairs n then Some row else vseprFind totalPairs table'
  end.

Definition vseprLookup (totalPairs lonePairs : Q) : string :=
  match vseprFind totalPairs vseprTable with
  | Some row => vseprRow lonePairs row
  | None => "complex"
  end.

(** The activation energy of the specification in exact arithmetic: the
    average ionization energy times (1 - |electronegativity difference| / 4)
    times 0.1, floored at 1. *)
Definition activationEnergyOf (elementA elementB : ChemicalElement) : Q :=
  Qmax ((ionizationEnergy elementA + ionizationEnergy elementB) / 2
        * (1 - Qabs (electronegativity elementA - electronegativity elementB) / 4)
        * 0.1) 1.

(** The same expression as [calculateActivationEnergy] evaluates it for two
    elements of the catalog, in doubles. *)
Definition doubleActivationEnergyOf (elementA elementB : ChemicalElement) : Q :=
  JS.max
    (JS.mul
       (JS.mul
          (JS.div (JS.add (ionizationEnergy elementA) (ionizationEnergy elementB)) 2)
          (JS.sub 1
             (JS.div
                (JS.abs (JS.sub (electronegativity elementA)
                           (electronegativity elementB))) 4)))
       0.1)
    1.

(** [bondsAtCenter] and [lonePairs] of the specification. *)
Definition bondsAtCenter (bonds : list BondingPair.t) (centralAtom : Atom.t) : Q :=
  inject_Z (Z.of_nat (List.length
    (filter (fun b => (Atom.id (BondingPair.atomA b) =? Atom.id centralAtom)%nat
                      || (Atom.id (BondingPair.atomB b) =? Atom.id centralAtom)%nat)
       bonds))).

Definition lonePairsOf (element : ChemicalElement) (bondsAtCenter : Q) : Q :=
  Qmax 0 ((inject_Z (Z.of_nat (valenceElectrons element)) - bondsAtCenter * 2) / 2).

(** The score [findOptimalCentralAtom] compares:
    [element.maxBonds - element.electronegativity]. *)
Definition centralScore (element : ChemicalElement) : Q :=
  inject_Z (Z.of_nat (maxBonds element)) - electronegativity element.


(** Whether two different elements of the catalog that can bond share an
    electronegativity; the noble gases, which cannot, all have 0.0. *)
Definition sharesElectronegativity
    (x y : nat * ChemicalElement) : bool :=
  negb (maxBonds (snd x) =? 0)%nat && negb (maxBonds (snd y) =? 0)%nat
  && Qeq_bool (electronegativity (snd x)) (electronegativity (snd y))
  && negb (fst x =? fst y)%nat.

(** The strings [determineGeometry] returns. *)
Definition GEOMETRY_TAGS : list string :=
  ["atomic"; "linear"; "unknown"; "trigonal_planar"; "bent"; "tetrahedral";
   "trigonal_pyramidal"; "trigonal_bipyramidal"; "seesaw"; "T_shaped";
   "octahedral"; "square_pyramidal"; "square_planar"; "complex"].

End Engine.

(** ** Bonds, molecules and the connectivity traversal

    These are written the same way in both simulation components. *)

Module Bond.
(** [interface Bond]; [atomA] and [atomB] refer to the atom objects by id. *)
Record t : Type := mk { id : string; atomA : nat; atomB : nat }.
End Bond.

Module Molecule.
(** [interface Molecule]; [atoms] refers to the atom objects by id. *)
Record t : Type := mk { id : string; name : string; atoms : list nat }.
End Molecule.

Module Shared.

(** [table[key] || fallback]; no entry of the tables it is used on is zero or
    empty. *)
Definition orElse {V : Type} (table : list (nat * V)) (key : nat) (fallback : V) : V :=
  match Engine.lookup key table with Some v => v | None => fallback end.

Definition lt (x y : Q) : bool := negb (Qle_bool y x).

Definition has (x : nat) (set : list nat) : bool := existsb (Nat.eqb x) set.

(** *** The store of atom objects *)

Definition getAtom (store : list Atom.t) (i : nat) : option Atom.t :=
  find (fun a => Atom.id a =? i)%nat store.

Definition isMember (store : list Atom.t) (i : nat) : bool :=
  match getAtom store i with
  | Some a => Atom.isMoleculeMember a
  | None => false
  end.

Definition protonsOf (store : list Atom.t) (i : nat) : nat :=
  match getAtom store i with
  | Some a => Atom.protons a
  | None => 0%nat
  end.

(** [atom.isMoleculeMember = m] on the shared object. *)
Definition setMember (i : nat) (m : bool) (store : list Atom.t) : list Atom.t :=
  map (fun a => if (Atom.id a =? i)%nat then Atom.setMember m a else a) store.

Definition resolve (store : list Atom.t) (ids : list nat) : list Atom.t :=
  flat_map (fun i => match getAtom store i with Some a => [a] | None => [] end) ids.

(** *** Bond records *)

(** [`${atomA.id}-${atomB.id}`] *)
Definition bondIdOf (a b : nat) : string :=
  JS.toString a ++ "-" ++ JS.toString b.

(** [this.bonds.some(bond => bond.id === bondId1 || bond.id === bondId2)] *)
Definition isPairRecord (atomA atomB : nat) (bond : Bond.t) : bool :=
  String.eqb (Bond.id bond) (bondIdOf atomA atomB)
  || String.eqb (Bond.id bond) (bondIdOf atomB atomA).

Definition bondExists (bonds : list Bond.t) (atomA atomB : nat) : bool :=
  existsb (isPairRecord atomA atomB) bonds.

(** [this.bonds.filter(b => b.id !== bondToDelete.id)] *)
Definition removeBond (bondId : string) (bonds : list Bond.t) : list Bond.t :=
  filter (fun b => negb (String.eqb (Bond.id b) bondId)) bonds.

(** [this.bonds.filter(b => b.atomA.id === atom.id || b.atomB.id === atom.id)] *)
Definition connectedBonds (bonds : list Bond.t) (current : nat) : list Bond.t :=
  filter (fun b => (Bond.atomA b =? current)%nat || (Bond.atomB b =? current)%nat)
    bonds.

(** *** Connected components *)

Definition visitBond (store : list Atom.t) (current : nat)
    (acc : list nat * list nat) (bond : Bond.t) : list nat * list nat :=
  let '(checkedAtoms, toVisit) := acc in
  let neighbor :=
    if (Bond.atomA bond =? current)%nat then Bond.atomB bond else Bond.atomA bond in
  if negb (isMember store neighbor) && negb (has neighbor checkedAtoms)
  then (neighbor :: checkedAtoms, neighbor :: toVisit)
  else acc.

(** The [while (toVisit.length > 0)] loop; the head of [toVisit] is the top of
    the stack.  Every iteration pops one atom and an atom is pushed at most
    once, so [fuel] bounds the number of iterations. *)
Fixpoint traverse (fuel : nat) (store : list Atom.t) (bonds : list Bond.t)
    (toVisit checkedAtoms connectedComponent : list nat)
    : list nat * list nat :=
  match fuel with
  | O => (checkedAtoms, connectedComponent)
  | S fuel' =>
      match toVisit with
      | [] => (checkedAtoms, connectedComponent)
      | current :: rest =>
          let '(checkedAtoms', toVisit') :=
            fold_left (visitBond store current) (connectedBonds bonds current)
              (checkedAtoms, rest) in
          traverse fuel' store bonds toVisit' checkedAtoms'
            (connectedComponent ++ [current])
      end
  end.

Definition traverseFuel (bonds : list Bond.t) : nat :=
  S (S (2 * List.length bonds)).

(** The measure that bounds the loop: the atoms still on the stack plus the
    bond ends not yet checked. *)
Definition endpoints (bonds : list Bond.t) : list nat :=
  flat_map (fun b => [Bond.atomA b; Bond.atomB b]) bonds.

Definition unchecked (bonds : list Bond.t) (checkedAtoms : list nat) : nat :=
  List.length (filter (fun e => negb (has e checkedAtoms)) (endpoints bonds)).

(** [connectedComponent.map(a => a.id).sort().join('-')] *)
Definition moleculeIdOf (connectedComponent : list nat) : string :=
  JS.join "-" (map JS.toString (JS.sortDefault connectedComponent)).

(** The [atoms.forEach] that builds a compound body: an atom without a
    position makes [relativePos.x] throw; the atoms before it are already
    members. *)
Fixpoint placeAtoms (positions : list nat) (ids : list nat) (store : list Atom.t)
    : JS.outcome (list Atom.t) :=
  match ids with
  | [] => JS.Returns store
  | a :: rest =>
      if has a positions then placeAtoms positions rest (setMember a true store)
      else JS.Throws store
  end.

(** [moleculeBonds.forEach(b => this.deleteBond(b, true))] for
    [moleculeBonds = this.bonds.filter(b => atoms.includes(b.atomA) &&
    atoms.includes(b.atomB))] *)
Definition removeInternalBonds (ids : list nat) (bonds : list Bond.t)
    : list Bond.t :=
  let moleculeBonds :=
    filter (fun b => has (Bond.atomA b) ids && has (Bond.atomB b) ids) bonds in
  fold_left (fun bs b => removeBond (Bond.id b) bs) moleculeBonds bonds.

(** The records of an unordered pair, and the invariant of the bond list: at
    most one record per unordered pair. *)
Definition pairRecords (bonds : list Bond.t) (atomA atomB : nat) : list Bond.t :=
  filter (isPairRecord atomA atomB) bonds.

Definition pairUnique (bonds : list Bond.t) : Prop :=
  forall atomA atomB, (List.length (pairRecords bonds atomA atomB) <= 1)%nat.

(** [l'] is [l] with some records deleted. *)
Definition shrinks (l l' : list Bond.t) : Prop :=
  exists f, l' = filter f l.

(** Maps keyed by strings. *)
Fixpoint lookupKey {V : Type} (k : string) (m : list (string * V)) : option V :=
  match m with
  | [] => None
  | (k', v) :: m' => if String.eqb k k' then Some v else lookupKey k m'
  end.

Fixpoint setKey {V : Type} (k : string) (v : V) (m : list (string * V))
    : list (string * V) :=
  match m with
  | [] => [(k, v)]
  | (k', v') :: m' =>
      if String.eqb k k' then (k', v) :: m' else (k', v') :: setKey k v m'
  end.

Definition deleteKey {V : Type} (k : string) (m : list (string * V))
    : list (string * V) :=
  filter (fun e => negb (String.eqb k (fst e))) m.

End Shared.

(** ** The simulation component (simulation.component.ts) *)

Module Simulation.

(** What the core reads from the physics collaborator during one call. *)
Record World : Type := mkWorld {
  (** [a.physicalBody.position.distanceTo(b.physicalBody.position)] *)
  distanceTo : nat -> nat -> Q;
  (** [0.5 * mass * (v.x*v.x + v.y*v.y + v.z*v.z)] of an atom's body *)
  atomKineticEnergy : nat -> Q;
  (** the same for the compound body of a molecule, by molecule id *)
  moleculeKineticEnergy : string -> Q
}.

Record State : Type := mkState {
  store : list Atom.t;               (* the atom objects *)
  atoms : list nat;                  (* this.atoms *)
  bonds : list Bond.t;
  molecules : list Molecule.t;
  moleculeNames : list string;
  discoveredMolecules : list string;
  nextId : nat;
  heatIntensity : Q;
  pulseEnergyBoost : Q;
  transientHeatEnergy : Q;
  reactionInProgress : bool;
  bondingCooldowns : list (string * Z);
  lastBondCheck : Z;
  bondingTransitions : list (string * (nat * nat))
}.

Definition initial : State :=
  mkState [] [] [] [] [] [] 0 5 3 0 false [] 0%Z [].

Definition set_store v s :=
  mkState v (atoms s) (bonds s) (molecules s) (moleculeNames s)
    (discoveredMolecules s) (nextId s) (heatIntensity s) (pulseEnergyBoost s)
    (transientHeatEnergy s) (reactionInProgress s) (bondingCooldowns s)
    (lastBondCheck s) (bondingTransitions s).
Definition set_atoms v s :=
  mkState (store s) v (bonds s) (molecules s) (moleculeNames s)
    (discoveredMolecules s) (nextId s) (heatIntensity s) (pulseEnergyBoost s)
    (transientHeatEnergy s) (reactionInProgress s) (bondingCooldowns s)
    (lastBondCheck s) (bondingTransitions s).
Definition set_bonds v s :=
  mkState (store s) (atoms s) v (molecules s) (moleculeNames s)
    (discoveredMolecules s) (nextId s) (heatIntensity s) (pulseEnergyBoost s)
    (transientHeatEnergy s) (reactionInProgress s) (bondingCooldowns s)
    (lastBondCheck s) (bondingTransitions s).
Definition set_molecules v s :=
  mkState (store s) (atoms s) (bonds s) v (moleculeNames s)
    (discoveredMolecules s) (nextId s) (heatIntensity s) (pulseEnergyBoost s)
    (transientHeatEnergy s) (reactionInProgress s) (bondingCooldowns s)
    (lastBondCheck s) (bondingTransitions s).
Definition set_moleculeNames v s :=
  mkState (store s) (atoms s) (bonds s) (molecules s) v
    (discoveredMolecules s) (nextId s) (heatIntensity s) (pulseEnergyBoost s)
    (transientHeatEnergy s) (reactionInProgress s) (bondingCooldowns s)
    (lastBondCheck s) (bondingTransitions s).
Definition set_discoveredMolecules v s :=
  mkState (store s) (atoms s) (bonds s) (molecules s) (moleculeNames s)
    v (nextId s) (heatIntensity s) (pulseEnergyBoost s)
    (transientHeatEnergy s) (reactionInProgress s) (bondingCooldowns s)
    (lastBondCheck s) (bondingTransitions s).
Definition set_nextId v s :=
  mkState (store s) (atoms s) (bonds s) (molecules s) (moleculeNames s)
    (discoveredMolecules s) v (heatIntensity s) (pulseEnergyBoost s)
    (transientHeatEnergy s) (reactionInProgress s) (bondingCooldowns s)
    (lastBondCheck s) (bondingTransitions s).
Definition set_heatIntensity v s :=
  mkState (store s) (atoms s) (bonds s) (molecules s) (moleculeNames s)
    (discoveredMolecules s) (nextId s) v (pulseEnergyBoost s)
    (transientHeatEnergy s) (reactionInProgress s) (bondingCooldowns s)
    (lastBondCheck s) (bondingTransitions s).
Definition set_transientHeatEnergy v s :=
  mkState (store s) (atoms s) (bonds s) (molecules s) (moleculeNames s)
    (discoveredMolecules s) (nextId s) (heatIntensity s) (pulseEnergyBoost s)
    v (reactionInProgress s) (bondingCooldowns s)
    (lastBondCheck s) (bondingTransitions s).
Definition set_reactionInProgress v s :=
  mkState (store s) (atoms s) (bonds s) (molecules s) (moleculeNames s)
    (discoveredMolecules s) (nextId s) (heatIntensity s) (pulseEnergyBoost s)
    (transientHeatEnergy s) v (bondingCooldowns s)
    (lastBondCheck s) (bondingTransitions s).
Definition set_bondingCooldowns v s :=
  mkState (store s) (atoms s) (bonds s) (molecules s) (moleculeNames s)
    (discoveredMolecules s) (nextId s) (heatIntensity s) (pulseEnergyBoost s)
    (transientHeatEnergy s) (reactionInProgress s) v
    (lastBondCheck s) (bondingTransitions s).
Definition set_lastBondCheck v s :=
  mkState (store s) (atoms s) (bonds s) (molecules s) (moleculeNames s)
    (discoveredMolecules s) (nextId s) (heatIntensity s) (pulseEnergyBoost s)
    (transientHeatEnergy s) (reactionInProgress s) (bondingCooldowns s)
    v (bondingTransitions s).
Definition set_bondingTransitions v s :=
  mkState (store s) (atoms s) (bonds s) (molecules s) (moleculeNames s)
    (discoveredMolecules s) (nextId s) (heatIntensity s) (pulseEnergyBoost s)
    (transientHeatEnergy s) (reactionInProgress s) (bondingCooldowns s)
    (lastBondCheck s) v.

(** *** The component's own chemistry tables *)

Definition valenceElectrons : list (nat * Q) :=
  [(1%nat, 1); (6%nat, 4); (7%nat, 5); (8%nat, 6); (9%nat, 7)].
Definition maxBonds : list (nat * nat) :=
  [(1, 1); (6, 4); (7, 3); (8, 2); (9, 1)]%nat.
Definition electronegativity : list (nat * Q) :=
  [(1%nat, 2.20); (6%nat, 2.55); (7%nat, 3.04); (8%nat, 3.44); (9%nat, 3.98)].
Definition atomicRadii : list (nat * Q) :=
  [(1%nat, 0.37); (6%nat, 0.77); (7%nat, 0.75); (8%nat, 0.73); (9%nat, 0.71)].

(** *** Atom objects *)

Definition getAtom (s : State) (i : nat) : option Atom.t :=
  Shared.getAtom (store s) i.
Definition isMember (s : State) (i : nat) : bool := Shared.isMember (store s) i.
Definition protonsOf (s : State) (i : nat) : nat := Shared.protonsOf (store s) i.
Definition setMember (i : nat) (m : bool) (s : State) : State :=
  set_store (Shared.setMember i m (store s)) s.
Definition resolve (s : State) (ids : list nat) : list Atom.t :=
  Shared.resolve (store s) ids.

(** [createAtom]: [buildAtom] takes [id: this.nextId++]. *)
Definition createAtom (protons neutrons electrons : nat) (s : State) : State :=
  let newAtom := Atom.mk (nextId s) protons neutrons electrons false in
  set_atoms (atoms s ++ [nextId s])
    (set_store (store s ++ [newAtom]) (set_nextId (S (nextId s)) s)).

(** Every atom object was numbered by [nextId++]. *)
Definition idsBelow (s : State) : Prop :=
  Forall (fun a => (Atom.id a < nextId s)%nat) (store s).

(** *** Energy *)

Definition free (s : State) : list nat :=
  filter (fun i => negb (isMember s i)) (atoms s).

Definition calculateSystemEnergy (w : World) (s : State) : Q :=
  let totalEnergy := transientHeatEnergy s in
  let totalEnergy :=
    fold_left (fun total i => total + atomKineticEnergy w i * 10) (free s)
      totalEnergy in
  fold_left (fun total m => total + moleculeKineticEnergy w (Molecule.id m) * 10)
    (molecules s) totalEnergy.

(** [getMinimumActivationEnergy], in doubles. *)
Definition getMinimumActivationEnergy (s : State) (atomA atomB : nat) : Q :=
  let electronegativityA := Shared.orElse electronegativity (protonsOf s atomA) 2.0 in
  let electronegativityB := Shared.orElse electronegativity (protonsOf s atomB) 2.0 in
  let electronegativityDiff :=
    JS.abs (JS.sub electronegativityA electronegativityB) in
  let baseEnergy := JS.max 2 (JS.sub 10 (JS.mul electronegativityDiff 2)) in
  let valenceA := Shared.orElse valenceElectrons (protonsOf s atomA) 4 in
  let valenceB := Shared.orElse valenceElectrons (protonsOf s atomB) 4 in
  let valenceBonus := JS.add (JS.sub 8 valenceA) (JS.sub 8 valenceB) in
  JS.max 1 (JS.sub baseEnergy (JS.mul valenceBonus 0.5)).

Definition canFormBondWithEnergy (s : State) (atomA atomB : nat)
    (systemEnergy : Q) : bool :=
  Qle_bool (getMinimumActivationEnergy s atomA atomB) systemEnergy.

(** [applyGlobalHeatPulse]: the velocity kicks go to the physics bodies. *)
Definition applyGlobalHeatPulse (s : State) : State :=
  let intensity := Qmax 0 (heatIntensity s) in
  set_transientHeatEnergy
    (Qmax (transientHeatEnergy s) (intensity * pulseEnergyBoost s)) s.

Definition consumeActivationEnergy (atomA atomB : nat) (s : State) : State :=
  let energyRequired := getMinimumActivationEnergy s atomA atomB in
  set_transientHeatEnergy (Qmax 0 (transientHeatEnergy s - energyRequired)) s.

(** The decay at the head of [animate]. *)
Definition decayTransientHeat (s : State) : State :=
  if Qle_bool (transientHeatEnergy s) 0 then s
  else
    let decayed := transientHeatEnergy s * 0.96 in
    set_transientHeatEnergy (if Qle_bool 0.01 decayed then decayed else 0) s.

(** [this.transientHeatEnergy = Math.max(0, this.transientHeatEnergy -
    energyConsumed)]: the deduction written out in [performCO2Formation],
    [performGenericMoleculeReaction], [addAtomToMolecule],
    [createOptimalMolecularStructure], [createTwoWaterMolecules] and
    [checkOtherMoleculeMoleculeReactions], each with its own amount. *)
Definition deductEnergy (energyConsumed : Q) (s : State) : State :=
  set_transientHeatEnergy (Qmax 0 (transientHeatEnergy s - energyConsumed)) s.

(** [this.transientHeatEnergy *= 0.7] of [attemptComplexReaction]. *)
Definition scaleEnergy (s : State) : State :=
  set_transientHeatEnergy (transientHeatEnergy s * 0.7) s.

(** The operations that write [transientHeatEnergy]. *)
Inductive EnergyOp : Type :=
| Pulse (heatIntensity : Q)          (* the slider value, then a heat pulse *)
| Decay                              (* one animation frame *)
| ConsumeActivation (atomA atomB : nat)
| Deduct (energyConsumed : Q)
| Scale.

Definition applyOp (op : EnergyOp) (s : State) : State :=
  match op with
  | Pulse h => applyGlobalHeatPulse (set_heatIntensity h s)
  | Decay => decayTransientHeat s
  | ConsumeActivation atomA atomB => consumeActivationEnergy atomA atomB s
  | Deduct energyConsumed => deductEnergy energyConsumed s
  | Scale => scaleEnergy s
  end.

(** The states after each operation of a sequence. *)
Fixpoint run (ops : list EnergyOp) (s : State) : list State :=
  match ops with
  | [] => []
  | op :: ops' => let s' := applyOp op s in s' :: run ops' s'
  end.

(** *** Bonds *)

Definition bondExists (s : State) (atomA atomB : nat) : bool :=
  Shared.bondExists (bonds s) atomA atomB.

(** *** Molecule identification *)

Definition createAdvancedMolecule (moleculeId name : string)
    (geometry : string) (ids : list nat) (s : State)
    : JS.outcome (State * option Molecule.t) :=
  match Engine.positionedIds (resolve s ids) geometry with
  | None => JS.Throws (s, None)
  | Some [] => JS.Returns (s, None)
  | Some positions =>
      match Shared.placeAtoms positions ids (store s) with
      | JS.Throws store1 => JS.Throws (set_store store1 s, None)
      | JS.Returns store1 =>
          let s1 := set_store store1 s in
          let s2 := set_bonds (Shared.removeInternalBonds ids (bonds s1)) s1 in
          JS.Returns (s2, Some (Molecule.mk moleculeId name ids))
      end
  end.

(** The body of [for (const atom of this.atoms)]. *)
Definition identifyAtom (acc : JS.outcome (State * list nat)) (atom : nat)
    : JS.outcome (State * list nat) :=
  match acc with
  | JS.Throws _ => acc
  | JS.Returns (s, checkedAtoms) =>
      if Shared.has atom checkedAtoms || isMember s atom then acc
      else
        let '(checkedAtoms, connectedComponent) :=
          Shared.traverse (Shared.traverseFuel (bonds s)) (store s) (bonds s)
            [atom] (atom :: checkedAtoms) [] in
        if (2 <=? List.length connectedComponent)%nat then
          let componentAtoms := resolve s connectedComponent in
          let bondingStructure :=
            Engine.calculateOptimalBondingStructure componentAtoms in
          let systematicName := Engine.generateSystematicName componentAtoms in
          match Engine.determineGeometry componentAtoms
                  (Engine.BondingStructure.bonds bondingStructure)
                  (Engine.BondingStructure.centralAtom bondingStructure) with
          | None => JS.Throws (s, checkedAtoms)
          | Some geometry =>
              let s :=
                if existsb (String.eqb systematicName) (discoveredMolecules s)
                then s
                else set_discoveredMolecules
                       (discoveredMolecules s ++ [systematicName]) s in
              let moleculeId := Shared.moleculeIdOf connectedComponent in
              if existsb (fun m => String.eqb (Molecule.id m) moleculeId)
                   (molecules s)
              then JS.Returns (s, checkedAtoms)
              else
                match createAdvancedMolecule moleculeId systematicName geometry
                        connectedComponent s with
                | JS.Throws (s', _) => JS.Throws (s', checkedAtoms)
                | JS.Returns (s', Some molecule) =>
                    JS.Returns (set_molecules (molecules s' ++ [molecule]) s',
                                checkedAtoms)
                | JS.Returns (s', None) => JS.Returns (s', checkedAtoms)
                end
          end
        else
          JS.Returns (fold_left (fun st a => setMember a false st)
                        connectedComponent s, checkedAtoms)
  end.

Definition identifyMolecules (s : State) : JS.outcome State :=
  match fold_left identifyAtom (atoms s) (JS.Returns (s, [])) with
  | JS.Throws (s', _) => JS.Throws s'
  | JS.Returns (s', _) =>
      JS.Returns (set_moleculeNames (map Molecule.name (molecules s')) s')
  end.

(** [createBond(atomA, atomB, suppressIdentify)] *)
Definition createBond (w : World) (atomA atomB : nat) (suppressIdentify : bool)
    (s : State) : JS.outcome State :=
  if bondExists s atomA atomB then JS.Returns s
  else if negb suppressIdentify
          && negb (canFormBondWithEnergy s atomA atomB (calculateSystemEnergy w s))
  then JS.Returns s
  else
    let bondId := Shared.bondIdOf atomA atomB in
    let s1 := set_bonds (bonds s ++ [Bond.mk bondId atomA atomB]) s in
    if suppressIdentify then JS.Returns s1 else identifyMolecules s1.

(** What identification makes of a connected component. *)
Definition identified (m : Molecule.t) : Prop :=
  (2 <= List.length (Molecule.atoms m))%nat
  /\ Molecule.id m = Shared.moleculeIdOf (Molecule.atoms m).

(** [deleteBond(bondToDelete, suppressIdentify)]: the record goes by its id. *)
Definition deleteBond (bondId : string) (suppressIdentify : bool) (s : State)
    : JS.outcome State :=
  let s1 := set_bonds (Shared.removeBond bondId (bonds s)) s in
  if suppressIdentify then JS.Returns s1 else identifyMolecules s1.

(** [bondsToRemove.forEach(b => this.deleteBond(b))] *)
Definition deleteBonds (bondsToRemove : list Bond.t) (s : State)
    : JS.outcome State :=
  fold_left (fun acc b => JS.andThen acc (deleteBond (Bond.id b) false))
    bondsToRemove (JS.Returns s).

(** [deleteAtom(atomToDelete)].  The atom object stays in the store; it leaves
    [this.atoms].  The selection shown in the panel is not part of the
    state. *)
Definition deleteAtom (atomToDelete : nat) (s : State) : JS.outcome State :=
  let afterMolecule :=
    match find (fun m => Shared.has atomToDelete (Molecule.atoms m)) (molecules s) with
    | Some moleculeContainingAtom =>
        let s1 :=
          set_molecules
            (filter (fun m => negb (String.eqb (Molecule.id m)
                                      (Molecule.id moleculeContainingAtom)))
               (molecules s)) s in
        let s2 :=
          fold_left (fun st a => setMember a false st)
            (Molecule.atoms moleculeContainingAtom) s1 in
        let bondsToRemove :=
          filter (fun b =>
                    Shared.has (Bond.atomA b) (Molecule.atoms moleculeContainingAtom)
                    && Shared.has (Bond.atomB b)
                         (Molecule.atoms moleculeContainingAtom))
            (bonds s2) in
        deleteBonds bondsToRemove s2
    | None => JS.Returns s
    end in
  JS.andThen afterMolecule (fun s3 =>
    let s4 :=
      set_atoms (filter (fun a => negb (a =? atomToDelete)%nat) (atoms s3)) s3 in
    let remainingBondsToRemove :=
      Shared.connectedBonds (bonds s4) atomToDelete in
    JS.andThen (deleteBonds remainingBondsToRemove s4) identifyMolecules).

(** [breakMolecule(molecule)]: [addTemporaryBondBlock] only logs, the new
    positions and velocities go to the physics bodies, and the check it
    schedules 100 ms later is a call of its own. *)
Definition breakMolecule (molecule : Molecule.t) (s : State) : State :=
  let s1 :=
    set_molecules
      (filter (fun m => negb (String.eqb (Molecule.id m) (Molecule.id molecule)))
         (molecules s)) s in
  let s2 :=
    fold_left (fun st a => setMember a false st) (Molecule.atoms molecule) s1 in
  set_moleculeNames (map Molecule.name (molecules s2)) s2.

(** *** The per-tick bond scan *)

Definition engineCanFormBond (s : State) (atomA atomB : nat) (systemEnergy : Q)
    : bool :=
  match getAtom s atomA, getAtom s atomB with
  | Some a, Some b => Engine.canFormBond a b systemEnergy
  | _, _ => false
  end.

Definition shouldFormBond (w : World) (s : State) (atomA atomB : nat)
    (systemEnergy : Q) : bool :=
  if negb (engineCanFormBond s atomA atomB systemEnergy) then false
  else
    let elementA := protonsOf s atomA in
    let elementB := protonsOf s atomB in
    let near atom :=
      Shared.lt (distanceTo w atom atomA) 5 || Shared.lt (distanceTo w atom atomB) 5 in
    let nearbyOxygen :=
      existsb (fun atom => (protonsOf s atom =? 8)%nat
                           && negb (isMember s atom) && near atom) (atoms s) in
    let nearbyOtherElement :=
      existsb (fun atom => negb (protonsOf s atom =? 8)%nat
                           && negb (isMember s atom) && near atom) (atoms s) in
    if (elementA =? 1)%nat && (elementB =? 1)%nat && nearbyOxygen then false
    else if (elementA =? 8)%nat && (elementB =? 8)%nat && nearbyOtherElement
    then false
    else true.

(** [initiateGradualBonding]: registers the transition; the engine then pulls
    the two bodies together for two seconds. *)
Definition initiateGradualBonding (atomA atomB : nat) (s : State) : State :=
  let bondId := Shared.bondIdOf atomA atomB in
  match Shared.lookupKey bondId (bondingTransitions s) with
  | Some _ => s
  | None =>
      set_bondingTransitions (Shared.setKey bondId (atomA, atomB) (bondingTransitions s)) s
  end.

(** The [onComplete] callback of [initiateGradualBonding], run by the engine's
    [createGradualBond] when its progress reaches 1. *)
Definition gradualBondCompleted (w : World) (atomA atomB : nat) (s : State)
    : JS.outcome State :=
  let bondId := Shared.bondIdOf atomA atomB in
  createBond w atomA atomB true
    (set_bondingTransitions (Shared.deleteKey bondId (bondingTransitions s)) s).

Definition cooldownKeyOf (atomA atomB : nat) : string :=
  JS.toString (Nat.min atomA atomB) ++ "-" ++ JS.toString (Nat.max atomA atomB).

(** The body of the double loop of [checkAndCreateBonds]. *)
Definition scanPair (w : World) (now : Z) (systemEnergy : Q) (s : State)
    (pair : nat * nat) : State :=
  let '(atomA, atomB) := pair in
  if isMember s atomA || isMember s atomB then s
  else if bondExists s atomA atomB then s
  else
    let cooldownKey := cooldownKeyOf atomA atomB in
    let lastAttempt :=
      match Shared.lookupKey cooldownKey (bondingCooldowns s) with
      | Some t => t
      | None => 0%Z
      end in
    if (now - lastAttempt <? 1000)%Z then s
    else
      let distance := distanceTo w atomA atomB in
      if Shared.lt distance 3.5 then
        if shouldFormBond w s atomA atomB systemEnergy then
          initiateGradualBonding atomA atomB
            (set_bondingCooldowns (Shared.setKey cooldownKey now (bondingCooldowns s)) s)
        else s
      else s.

Definition bondCheckInterval : Z := 100.

Definition checkAndCreateBonds (w : World) (now : Z) (s : State) : State :=
  if reactionInProgress s then s
  else if (now - lastBondCheck s <? bondCheckInterval)%Z then s
  else
    let s1 := set_lastBondCheck now s in
    let systemEnergy := calculateSystemEnergy w s1 in
    fold_left (scanPair w now systemEnergy) (Engine.pairs (atoms s1)) s1.

(** The state with other cooldowns, time of the last scan and pending
    transitions: the three fields the scan writes. *)
Definition withPending (cooldowns : list (string * Z)) (lastCheck : Z)
    (transitions : list (string * (nat * nat))) (s : State) : State :=
  mkState (store s) (atoms s) (bonds s) (molecules s) (moleculeNames s)
    (discoveredMolecules s) (nextId s) (heatIntensity s) (pulseEnergyBoost s)
    (transientHeatEnergy s) (reactionInProgress s) cooldowns lastCheck
    transitions.

(** What the scan asks of a pair before it starts a gradual bond. *)
Definition eligible (w : World) (s : State) (atomA atomB : nat)
    (systemEnergy : Q) : Prop :=
  isMember s atomA = false /\ isMember s atomB = false
  /\ bondExists s atomA atomB = false
  /\ distanceTo w atomA atomB < 3.5
  /\ shouldFormBond w s atomA atomB systemEnergy = true.

(** *** The table of known compositions *)

Module MoleculeInfo.
Record t : Type := mk { name : string; geometry : string; bondLength : Q }.
End MoleculeInfo.

Definition countProtons (protons : nat) (atoms : list Atom.t) : nat :=
  Engine.countOf protons (Engine.compositionOf atoms).

Definition elementSymbols : list (nat * string) :=
  [(1%nat, "H"); (6%nat, "C"); (7%nat, "N"); (8%nat, "O"); (9%nat, "F")].

Definition generateMolecularName (counts : list (nat * nat)) : string :=
  let sortedElements :=
    JS.sortBy (fun a b => Nat.leb (fst a) (fst b)) counts in
  let parts :=
    map (fun entry =>
           let symbol := Shared.orElse elementSymbols (fst entry)
                           ("E" ++ JS.toString (fst entry)) in
           if (snd entry =? 1)%nat then symbol
           else symbol ++ Engine.subscriptOf (snd entry)) sortedElements in
  "Unknown Compound (" ++ JS.join "" parts ++ ")".

Definition betterCentral (best current : Atom.t) : Atom.t :=
  let bestValence := Shared.orElse valenceElectrons (Atom.protons best) 0 in
  let currentValence := Shared.orElse valenceElectrons (Atom.protons current) 0 in
  let bestElectronegativity := Shared.orElse electronegativity (Atom.protons best) 0 in
  let currentElectronegativity :=
    Shared.orElse electronegativity (Atom.protons current) 0 in
  let bestScore := bestValence - bestElectronegativity in
  let currentScore := currentValence - currentElectronegativity in
  if Shared.lt bestScore currentScore then current else best.

Definition findBestCentralAtom (atoms : list Atom.t) : option Atom.t :=
  match atoms with
  | [] => None
  | first :: rest => Some (fold_left betterCentral rest first)
  end.

Definition inferGeometry (atoms : list Atom.t) : string :=
  let n := List.length atoms in
  let central :=
    match findBestCentralAtom atoms with
    | Some c => Atom.protons c
    | None => 0%nat
    end in
  if (n =? 2)%nat then "linear"
  else if (n =? 3)%nat && ((central =? 6)%nat || (central =? 7)%nat) then "linear"
  else if (n =? 3)%nat && (central =? 8)%nat then "bent"
  else if (n =? 4)%nat then "tetrahedral"
  else if (n =? 5)%nat then "trigonal_bipyramidal"
  else if (n =? 6)%nat then "octahedral"
  else "complex".

Definition calculateAverageBondLength (atoms : list Atom.t) : Q :=
  if (List.length atoms <? 2)%nat then 2.0
  else
    let lengths :=
      map (fun p => (Shared.orElse atomicRadii (Atom.protons (fst p)) 1.0
                     + Shared.orElse atomicRadii (Atom.protons (snd p)) 1.0) * 1.2)
        (Engine.pairs atoms) in
    match lengths with
    | [] => 2.0
    | _ => fold_left Qplus lengths 0 / inject_Z (Z.of_nat (List.length lengths))
    end.

(** [identifyMoleculeType]: the fixed table, then the generated name.  Nothing
    in simulation.component.ts calls it. *)
Definition identifyMoleculeType (atoms : list Atom.t) : MoleculeInfo.t :=
  let hCount := countProtons 1 atoms in
  let cCount := countProtons 6 atoms in
  let nCount := countProtons 7 atoms in
  let oCount := countProtons 8 atoms in
  let n := List.length atoms in
  if (oCount =? 1)%nat && (hCount =? 2)%nat && (n =? 3)%nat then
    MoleculeInfo.mk "Water (H₂O)" "bent" 2.0
  else if (cCount =? 1)%nat && (oCount =? 2)%nat && (n =? 3)%nat then
    MoleculeInfo.mk "Carbon Dioxide (CO₂)" "linear" 2.2
  else if (nCount =? 2)%nat && (oCount =? 1)%nat && (n =? 3)%nat then
    MoleculeInfo.mk "Nitrous Oxide (N₂O)" "linear" 1.8
  else if (nCount =? 2)%nat && (n =? 2)%nat then
    MoleculeInfo.mk "Nitrogen Gas (N₂)" "linear" 1.6
  else if (oCount =? 2)%nat && (n =? 2)%nat then
    MoleculeInfo.mk "Oxygen Gas (O₂)" "linear" 1.5
  else if (hCount =? 2)%nat && (n =? 2)%nat then
    MoleculeInfo.mk "Hydrogen Gas (H₂)" "linear" 1.2
  else
    MoleculeInfo.mk (generateMolecularName (Engine.compositionOf atoms))
      (inferGeometry atoms) (calculateAverageBondLength atoms).

(** *** Which groups of atoms may react *)

(** [followsValenceRules] *)
Definition followsValenceRules (atoms : list Atom.t) : bool :=
  let totalValenceElectrons :=
    fold_left (fun total atom =>
                 total + Shared.orElse valenceElectrons (Atom.protons atom) 4)
      atoms 0 in
  let expectedBonds := inject_Z (Qfloor (totalValenceElectrons / 2)) in
  let size := inject_Z (Z.of_nat (List.length atoms)) in
  let maxPossibleBonds := size * (size - 1) / 2 in
  Qle_bool expectedBonds maxPossibleBonds && (List.length atoms <=? 6)%nat.

(** [isChemicallyStable] *)
Definition isChemicallyStable (atoms : list Atom.t) : bool :=
  let h := countProtons 1 atoms in
  let c := countProtons 6 atoms in
  let n := countProtons 7 atoms in
  let o := countProtons 8 atoms in
  let f := countProtons 9 atoms in
  let size := List.length atoms in
  if (c =? 1)%nat && (o =? 2)%nat && (size =? 3)%nat then true
  else if (c =? 1)%nat && (h =? 4)%nat && (size =? 5)%nat then true
  else if (o =? 1)%nat && (h =? 2)%nat && (size =? 3)%nat then true
  else if (n =? 1)%nat && (h =? 3)%nat && (size =? 4)%nat then true
  else if (h =? 2)%nat && (size =? 2)%nat then true
  else if (o =? 2)%nat && (size =? 2)%nat then true
  else if (n =? 2)%nat && (size =? 2)%nat then true
  else if (c =? 1)%nat && (o =? 1)%nat && (size =? 2)%nat then true
  else if (n =? 1)%nat && (o =? 1)%nat && (size =? 2)%nat then true
  else if (h =? 1)%nat && (f =? 1)%nat && (size =? 2)%nat then true
  else if (2 <=? size)%nat && (size <=? 6)%nat then followsValenceRules atoms
  else false.

(** [canFormComplexMolecule(entities, systemEnergy)]; of the molecules of
    [entities] only their atoms are read. *)
Definition canFormComplexMolecule (entityAtoms : list Atom.t)
    (entityMolecules : list (list Atom.t)) (systemEnergy : Q) : bool :=
  let totalAtoms := (entityAtoms ++ List.concat entityMolecules)%list in
  isChemicallyStable totalAtoms
  && Shared.lt (inject_Z (Z.of_nat (List.length totalAtoms)) * 8) systemEnergy.

(** The pairs of elements, lighter first, that [isChemicallyStable] accepts
    as a group of two: H₂, O₂, N₂, CO, NO and HF. *)
Definition STABLE_PAIRS : list (nat * nat) :=
  [(1, 1); (8, 8); (7, 7); (6, 8); (7, 8); (1, 9)]%nat.

(** [getCurrentBondCount] as the spec means it: the bond records at an atom. *)
Definition bondCount (s : State) (atom : nat) : nat :=
  List.length (Shared.connectedBonds (bonds s) atom).

(** *** The reaction stages

    [attemptMolecularReactions] runs once per animation frame.  A
    [setTimeout(f, ms)] is modelled by returning the timer: a stage returns
    the state it leaves and the timers it set, in the order it set them, and
    [fire] is what a timer does when it goes off.  Timers that only switch a
    body back to [DYNAMIC] are left out, and so are [performCO2Formation],
    [performAtomMoleculeReaction], [performWaterFormation],
    [createTwoWaterMolecules], [attemptComplexMultiEntityReactions] and
    [attemptComplexReaction], which nothing calls. *)

Module Reaction.

(** What the stages read from the physics collaborator: the world of the
    atoms, and the distances to and between the compound bodies of the
    molecules (by molecule id). *)
Record Bodies : Type := mkBodies {
  world : World;
  (** [atom.physicalBody.position.distanceTo(molecule.physicalBody.position)] *)
  atomToMolecule : nat -> string -> Q;
  (** [h2.physicalBody.position.distanceTo(o2.physicalBody.position)] *)
  moleculeToMolecule : string -> string -> Q
}.

(** The continuations the stages hand to [setTimeout]. *)
Inductive Task : Type :=
| IdentifyMolecules
    (* () => this.identifyMolecules() *)
| IdentifyAndRelease
    (* this.identifyMolecules(); this.reactionInProgress = false *)
| CreateMolecularBonds (moleculeAtoms : list nat)
    (* the continuation of createMoleculeFromAtoms *)
| CreateOptimalStructure (atoms : list nat) (systemEnergy : Q)
    (* () => this.createOptimalMolecularStructure(allAtoms, systemEnergy) *)
| CreateOptimalBonds (atoms : list nat).
    (* the continuation of createOptimalMolecularStructure *)

(** A timer: its delay in milliseconds and its continuation. *)
Definition Timer : Type := (Z * Task)%type.

Definition Step : Type := JS.outcome (State * list Timer).

(** One call after another, the timers of both in order; a throw ends the
    sequence. *)
Definition thenStep (o : Step) (k : State -> Step) : Step :=
  match o with
  | JS.Returns (s, timers) =>
      match k s with
      | JS.Returns (s', timers') => JS.Returns (s', (timers ++ timers')%list)
      | JS.Throws (s', timers') => JS.Throws (s', (timers ++ timers')%list)
      end
  | JS.Throws r => JS.Throws r
  end.

Definition andAlso (r : State * list Timer) (k : State -> State * list Timer)
    : State * list Timer :=
  let '(s', timers') := k (fst r) in (s', (snd r ++ timers')%list).

(** A call that sets no timer. *)
Definition untimed (o : JS.outcome State) : Step :=
  match o with
  | JS.Returns s => JS.Returns (s, [])
  | JS.Throws s => JS.Throws (s, [])
  end.

(** [atoms.forEach(a => a.isMoleculeMember = m)] *)
Definition markAll (m : bool) (ids : list nat) (s : State) : State :=
  fold_left (fun st a => setMember a m st) ids s.

(** [this.molecules = this.molecules.filter(m => m.id !== molecule.id)] *)
Definition removeMolecule (molecule : Molecule.t) (s : State) : State :=
  set_molecules
    (filter (fun m => negb (String.eqb (Molecule.id m) (Molecule.id molecule)))
       (molecules s)) s.

Definition ofElement (s : State) (protons : nat) (ids : list nat) : list nat :=
  filter (fun a => (protonsOf s a =? protons)%nat) ids.

(** **** Three or more atoms: [createOptimalMolecularStructure] *)

(** The lock is taken first; [atoms[0].physicalBody] throws on an empty
    array.  The positions go to the physics bodies. *)
Definition createOptimalMolecularStructure (atoms : list nat) (systemEnergy : Q)
    (s : State) : Step :=
  let s1 := set_reactionInProgress true s in
  match atoms with
  | [] => JS.Throws (s1, [])
  | _ => JS.Returns (markAll false atoms s1, [(100%Z, CreateOptimalBonds atoms)])
  end.

(** Its continuation: a bond for every pair closer than 3.0, 8 units of
    energy for each, and the timer that identifies and releases the lock. *)
Definition createOptimalBonds (b : Bodies) (atoms : list nat) (s : State) : Step :=
  let closePairs :=
    filter (fun p => Shared.lt (distanceTo (world b) (fst p) (snd p)) 3.0)
      (Engine.pairs atoms) in
  let bonded :=
    fold_left (fun acc p =>
                 JS.andThen acc (createBond (world b) (fst p) (snd p) true))
      closePairs (JS.Returns s) in
  match bonded with
  | JS.Returns s1 =>
      let bondsCreated := inject_Z (Z.of_nat (List.length closePairs)) in
      let energyConsumed := bondsCreated * 8 in
      JS.Returns (deductEnergy energyConsumed s1, [(200%Z, IdentifyAndRelease)])
  | JS.Throws s1 => JS.Throws (s1, [])
  end.

(** **** [attemptMultiAtomCombinations] *)

(** What the loops over the free atoms end on. *)
Inductive Combination : Type :=
| TwoAtoms (atomA atomB : nat)
| ThreeAtoms (atomA atomB atomC : nat).

Section Search.
Variables (b : Bodies) (systemEnergy : Q) (s : State).

Definition pairReacts (atomA atomB : nat) : bool :=
  isChemicallyStable (resolve s [atomA; atomB])
  && Qle_bool (getMinimumActivationEnergy s atomA atomB) systemEnergy.

Definition thirdReacts (atomA atomB atomC : nat) : bool :=
  Shared.lt (distanceTo (world b) atomA atomC) 6
  && Shared.lt (distanceTo (world b) atomB atomC) 6
  && isChemicallyStable (resolve s [atomA; atomB; atomC])
  && Qle_bool 20 systemEnergy.

(** The loops over [j] and [k] for one [i]. *)
Fixpoint searchFrom (atomA : nat) (rest : list nat) : option Combination :=
  match rest with
  | [] => None
  | atomB :: after =>
      if Shared.lt (distanceTo (world b) atomA atomB) 6 then
        if pairReacts atomA atomB then Some (TwoAtoms atomA atomB)
        else
          match find (thirdReacts atomA atomB) after with
          | Some atomC => Some (ThreeAtoms atomA atomB atomC)
          | None => searchFrom atomA after
          end
      else searchFrom atomA after
  end.

(** The loop over [i]. *)
Fixpoint search (freeAtoms : list nat) : option Combination :=
  match freeAtoms with
  | [] => None
  | atomA :: rest =>
      match searchFrom atomA rest with
      | Some found => Some found
      | None => search rest
      end
  end.
End Search.

Definition attemptMultiAtomCombinations (b : Bodies) (systemEnergy : Q)
    (s : State) : Step :=
  let freeAtoms := free s in
  match search b systemEnergy s freeAtoms with
  | Some (TwoAtoms atomA atomB) =>
      match createBond (world b) atomA atomB true s with
      | JS.Returns s1 => JS.Returns (s1, [(100%Z, IdentifyMolecules)])
      | JS.Throws s1 => JS.Throws (s1, [])
      end
  | Some (ThreeAtoms atomA atomB atomC) =>
      createOptimalMolecularStructure [atomA; atomB; atomC] systemEnergy s
  | None => JS.Returns (s, [])
  end.

(** **** [attemptAtomMoleculeCombinations] *)

Definition calculateAtomMoleculeActivationEnergy (s : State) (atom : nat)
    (molecule : Molecule.t) : Q :=
  let baseEnergy := 10 in
  if (protonsOf s atom =? 6)%nat
     && JS.includes "Oxygen Gas" (Molecule.name molecule) then 15
  else if (protonsOf s atom =? 1)%nat
          && JS.includes "Oxygen" (Molecule.name molecule) then 8
  else baseEnergy + inject_Z (Z.of_nat (List.length (Molecule.atoms molecule))) * 3.

Definition canAtomJoinMolecule (s : State) (atom : nat) (molecule : Molecule.t)
    (systemEnergy : Q) : bool :=
  let combinedAtoms := resolve s (atom :: Molecule.atoms molecule) in
  if isChemicallyStable combinedAtoms then
    let requiredEnergy := calculateAtomMoleculeActivationEnergy s atom molecule in
    Qle_bool requiredEnergy systemEnergy
  else false.

(** The new position of the atom goes to its physics body. *)
Definition addAtomToMolecule (atom : nat) (molecule : Molecule.t)
    (systemEnergy : Q) (s : State) : State * list Timer :=
  let s1 := removeMolecule molecule s in
  let allAtoms := atom :: Molecule.atoms molecule in
  let s2 := markAll false allAtoms s1 in
  let energyConsumed := calculateAtomMoleculeActivationEnergy s2 atom molecule in
  (deductEnergy energyConsumed s2,
   [(50%Z, CreateOptimalStructure allAtoms systemEnergy)]).

Definition performGenericAtomMoleculeReaction (atom : nat) (molecule : Molecule.t)
    (systemEnergy : Q) (s : State) : State * list Timer :=
  addAtomToMolecule atom molecule systemEnergy (set_reactionInProgress true s).

Definition attemptAtomMoleculeCombinations (b : Bodies) (systemEnergy : Q)
    (s : State) : Step :=
  let proximityThreshold := 8 in
  let candidates :=
    flat_map (fun atom =>
                if isMember s atom then []
                else map (fun molecule => (atom, molecule)) (molecules s))
      (atoms s) in
  match find (fun c =>
                Shared.lt (atomToMolecule b (fst c) (Molecule.id (snd c)))
                  proximityThreshold
                && canAtomJoinMolecule s (fst c) (snd c) systemEnergy)
          candidates with
  | Some (atom, molecule) =>
      JS.Returns (performGenericAtomMoleculeReaction atom molecule systemEnergy s)
  | None => attemptMultiAtomCombinations b systemEnergy s
  end.

(** **** [attemptMoleculeMoleculeReactions] *)

(** [createMoleculeFromAtoms]: the positions go to the physics bodies; at
    every call [moleculeAtoms] holds two to five atoms. *)
Definition createMoleculeFromAtoms (moleculeAtoms : list nat) (s : State)
    : State * list Timer :=
  (markAll false moleculeAtoms s, [(50%Z, CreateMolecularBonds moleculeAtoms)]).

Definition formSpecificMolecule (atoms processedAtoms : list nat)
    (moleculeType : string) (s : State) : State * list Timer :=
  let availableAtoms :=
    filter (fun a => negb (Shared.has a processedAtoms)) atoms in
  if String.eqb moleculeType "H2O" then
    match ofElement s 8 availableAtoms, ofElement s 1 availableAtoms with
    | oxygen :: _, hydrogen0 :: hydrogen1 :: _ =>
        createMoleculeFromAtoms [oxygen; hydrogen0; hydrogen1] s
    | _, _ => (s, [])
    end
  else if String.eqb moleculeType "CH4" then
    match ofElement s 6 availableAtoms, ofElement s 1 availableAtoms with
    | carbon :: _, hydrogen0 :: hydrogen1 :: hydrogen2 :: hydrogen3 :: _ =>
        createMoleculeFromAtoms [carbon; hydrogen0; hydrogen1; hydrogen2; hydrogen3] s
    | _, _ => (s, [])
    end
  else if String.eqb moleculeType "NH3" then
    match ofElement s 7 availableAtoms, ofElement s 1 availableAtoms with
    | nitrogen :: _, hydrogen0 :: hydrogen1 :: hydrogen2 :: _ =>
        createMoleculeFromAtoms [nitrogen; hydrogen0; hydrogen1; hydrogen2] s
    | _, _ => (s, [])
    end
  else (s, []).

(** [elementGroups]: the atoms by proton number, the groups in the order in
    which their first atom comes. *)
Fixpoint addToGroup (protons atom : nat) (groups : list (nat * list nat))
    : list (nat * list nat) :=
  match groups with
  | [] => [(protons, [atom])]
  | (p, members) :: groups' =>
      if (p =? protons)%nat then (p, (members ++ [atom])%list) :: groups'
      else (p, members) :: addToGroup protons atom groups'
  end.

(** [while (atomsOfType.length >= 2)]: two atoms are shifted at a time. *)
Fixpoint shiftPairs (atomsOfType : list nat) : list (nat * nat) :=
  match atomsOfType with
  | atom1 :: atom2 :: rest => (atom1, atom2) :: shiftPairs rest
  | _ => []
  end.

Definition formDiatomicMolecules (atoms processedAtoms : list nat) (s : State)
    : State * list Timer :=
  let availableAtoms :=
    filter (fun a => negb (Shared.has a processedAtoms)) atoms in
  let elementGroups :=
    fold_left (fun groups atom => addToGroup (protonsOf s atom) atom groups)
      availableAtoms [] in
  fold_left (fun r p =>
               if negb (Shared.has (fst p) processedAtoms)
                  && negb (Shared.has (snd p) processedAtoms)
               then andAlso r (createMoleculeFromAtoms [fst p; snd p])
               else r)
    (flat_map (fun group => shiftPairs (snd group)) elementGroups) (s, []).

(** [formMoleculesFromAtoms].  [processedAtoms] is filled by the timers of
    [createMoleculeFromAtoms] only, 50 ms later and never read again: while
    the molecules are chosen it is empty. *)
Definition formMoleculesFromAtoms (atoms : list nat) (s : State)
    : State * list Timer :=
  let processedAtoms : list nat := [] in
  let h := countProtons 1 (resolve s atoms) in
  let o := countProtons 8 (resolve s atoms) in
  let unprocessed protons :=
    List.length
      (filter (fun a => (protonsOf s a =? protons)%nat
                        && negb (Shared.has a processedAtoms)) atoms) in
  let times (n : nat) (moleculeType : string) (r : State * list Timer) :=
    Nat.iter n (fun r' => andAlso r' (formSpecificMolecule atoms processedAtoms
                                        moleculeType)) r in
  let r1 :=
    if (2 <=? h)%nat && (1 <=? o)%nat
    then times (Nat.min (h / 2) o) "H2O" (s, []) else (s, []) in
  let remainingH := unprocessed 1%nat in
  let remainingC := unprocessed 6%nat in
  let r2 :=
    if (4 <=? remainingH)%nat && (1 <=? remainingC)%nat
    then times (Nat.min (remainingH / 4) remainingC) "CH4" r1 else r1 in
  let stillRemainingH := unprocessed 1%nat in
  let remainingN := unprocessed 7%nat in
  let r3 :=
    if (3 <=? stillRemainingH)%nat && (1 <=? remainingN)%nat
    then times (Nat.min (stillRemainingH / 3) remainingN) "NH3" r2 else r2 in
  let r4 := andAlso r3 (formDiatomicMolecules atoms processedAtoms) in
  (fst r4, (snd r4 ++ [(200%Z, IdentifyAndRelease)])%list).

Definition performGenericMoleculeReaction (reactants : list Molecule.t)
    (systemEnergy : Q) (s : State) : State * list Timer :=
  let s1 := set_reactionInProgress true s in
  let s2 := fold_left (fun st molecule => removeMolecule molecule st) reactants s1 in
  let allAtoms := flat_map Molecule.atoms reactants in
  let s3 := markAll false allAtoms s2 in
  let energyConsumed := Qmax 10 (systemEnergy * 0.7) in
  formMoleculesFromAtoms allAtoms (deductEnergy energyConsumed s3).

Definition checkOtherMoleculeMoleculeReactions (b : Bodies) (systemEnergy : Q)
    (s : State) : State * list Timer :=
  let proximityThreshold := 10 in
  let h2Molecules :=
    filter (fun m => JS.includes "Hydrogen Gas" (Molecule.name m)) (molecules s) in
  let nearbyH2 (atom : nat) :=
    filter (fun h2 => Shared.lt (atomToMolecule b atom (Molecule.id h2))
                        proximityThreshold) h2Molecules in
  let freeOf (protons : nat) :=
    filter (fun a => negb (isMember s a) && (protonsOf s a =? protons)%nat)
      (atoms s) in
  let methane :=
    if (1 <=? List.length (freeOf 6%nat))%nat
       && (2 <=? List.length h2Molecules)%nat && Qle_bool 15 systemEnergy
    then find (fun carbon => (2 <=? List.length (nearbyH2 carbon))%nat)
           (freeOf 6%nat)
    else None in
  match methane with
  | Some carbon =>
      let reactantMolecules := firstn 2 (nearbyH2 carbon) in
      let allAtoms := carbon :: flat_map Molecule.atoms reactantMolecules in
      let s1 :=
        fold_left (fun st h2 => removeMolecule h2 st) reactantMolecules s in
      let s2 := markAll false allAtoms s1 in
      let s3 := set_reactionInProgress true s2 in
      let energyConsumed := Qmax 15 (systemEnergy * 0.6) in
      formMoleculesFromAtoms allAtoms (deductEnergy energyConsumed s3)
  | None =>
      let ammonia :=
        if (1 <=? List.length (freeOf 7%nat))%nat
           && (3 <=? List.length h2Molecules)%nat && Qle_bool 18 systemEnergy
        then find (fun nitrogen => (3 <=? List.length (nearbyH2 nitrogen))%nat)
               (freeOf 7%nat)
        else None in
      match ammonia with
      | Some nitrogen =>
          let reactantMolecules := firstn 3 (nearbyH2 nitrogen) in
          let allAtoms := nitrogen :: flat_map Molecule.atoms reactantMolecules in
          let s1 :=
            fold_left (fun st h2 => removeMolecule h2 st) reactantMolecules s in
          let s2 := setMember nitrogen false s1 in
          let s3 := set_reactionInProgress true s2 in
          let energyConsumed := Qmax 18 (systemEnergy * 0.7) in
          formMoleculesFromAtoms allAtoms (deductEnergy energyConsumed s3)
      | None => (s, [])
      end
  end.

Definition attemptMoleculeMoleculeReactions (b : Bodies) (systemEnergy : Q)
    (s : State) : State * list Timer :=
  let proximityThreshold := 10 in
  let h2Molecules :=
    filter (fun m => JS.includes "Hydrogen Gas" (Molecule.name m)) (molecules s) in
  let o2Molecules :=
    filter (fun m => JS.includes "Oxygen Gas" (Molecule.name m)) (molecules s) in
  let nearbyH2 (o2 : Molecule.t) :=
    filter (fun h2 => Shared.lt (moleculeToMolecule b (Molecule.id h2)
                                   (Molecule.id o2)) proximityThreshold)
      h2Molecules in
  let water :=
    if (2 <=? List.length h2Molecules)%nat && (1 <=? List.length o2Molecules)%nat
    then find (fun o2 => (2 <=? List.length (nearbyH2 o2))%nat
                         && Qle_bool 12 systemEnergy) o2Molecules
    else None in
  match water with
  | Some o2 =>
      performGenericMoleculeReaction (firstn 2 (nearbyH2 o2) ++ [o2])%list
        systemEnergy s
  | None => checkOtherMoleculeMoleculeReactions b systemEnergy s
  end.

(** **** The attempt of a frame *)

Definition attemptComplexMolecularFormation (b : Bodies) (systemEnergy : Q)
    (s : State) : Step :=
  thenStep
    (thenStep (JS.Returns (attemptMoleculeMoleculeReactions b systemEnergy s))
       (fun s1 =>
          if negb (reactionInProgress s1)
          then attemptAtomMoleculeCombinations b systemEnergy s1
          else JS.Returns (s1, [])))
    (fun s2 =>
       if negb (reactionInProgress s2)
       then attemptMultiAtomCombinations b systemEnergy s2
       else JS.Returns (s2, [])).

Definition attemptMolecularReactions (b : Bodies) (s : State) : Step :=
  if reactionInProgress s then JS.Returns (s, [])
  else if Shared.lt 20 (transientHeatEnergy s) then
    let systemEnergy := calculateSystemEnergy (world b) s in
    attemptComplexMolecularFormation b systemEnergy s
  else JS.Returns (s, []).

(** **** The timers *)

(** [central = atoms.find(isCentral) || atoms[0]], bonded to every atom of
    another id. *)
Definition bondToCentral (w : World) (isCentral : nat -> bool)
    (atoms : list nat) (s : State) : JS.outcome State :=
  let central :=
    match find isCentral atoms with
    | Some a => Some a
    | None => hd_error atoms
    end in
  match central with
  | Some central =>
      let others := filter (fun a => negb (a =? central)%nat) atoms in
      fold_left (fun acc atom =>
                   JS.andThen acc (createBond w central atom true))
        others (JS.Returns s)
  | None => JS.Returns s
  end.

Definition createMolecularBonds (w : World) (atoms : list nat) (s : State)
    : JS.outcome State :=
  match atoms with
  | [atom0; atom1] => createBond w atom0 atom1 true s
  | [_; _; _] =>
      if (countProtons 6 (resolve s atoms) =? 1)%nat
         && (countProtons 8 (resolve s atoms) =? 2)%nat
      then
        match ofElement s 6 atoms, ofElement s 8 atoms with
        | carbon :: _, oxygen0 :: oxygen1 :: _ =>
            JS.andThen (createBond w carbon oxygen0 true s)
              (createBond w carbon oxygen1 true)
        | _, _ => JS.Throws s
        end
      else bondToCentral w (fun a => (protonsOf s a =? 8)%nat) atoms s
  | _ =>
      bondToCentral w
        (fun a => (protonsOf s a =? 6)%nat || (protonsOf s a =? 7)%nat) atoms s
  end.

(** What a timer does when it goes off. *)
Definition fire (b : Bodies) (task : Task) (s : State) : Step :=
  match task with
  | IdentifyMolecules => untimed (identifyMolecules s)
  | IdentifyAndRelease =>
      untimed (JS.andThen (identifyMolecules s)
                 (fun s1 => JS.Returns (set_reactionInProgress false s1)))
  | CreateMolecularBonds moleculeAtoms =>
      untimed (JS.andThen (createMolecularBonds (world b) moleculeAtoms s)
                 (fun s1 => JS.Returns (markAll true moleculeAtoms s1)))
  | CreateOptimalStructure atoms systemEnergy =>
      createOptimalMolecularStructure atoms systemEnergy s
  | CreateOptimalBonds atoms => createOptimalBonds b atoms s
  end.

End Reaction.

End Simulation.

(** ** The mode-driven simulation component

    The second [SimulationComponent]: the one that imports the tutorial panel,
    the energy display and the simulation modes.  Its energy display emits
    [addEnergy(amount)], which this component serves with [addSystemEnergy]. *)

Module ModesSimulation.

(** [SIMULATION_MODES[...].reactions] of simulation-config. *)
Module ReactionsConfig.
Record t : Type := mk { autoReactions : bool; energyDecayRate : Q }.
End ReactionsConfig.

Definition SIMULATION_MODES : list (string * ReactionsConfig.t) :=
  [ ("sandbox", ReactionsConfig.mk false 0.99);
    ("educational", ReactionsConfig.mk true 0.998);
    ("realistic", ReactionsConfig.mk true 0.96) ].

(** The texts of [showNotification], by the call that produces them. *)
Inductive Message : Type :=
| AlreadyBonded                   (* 'Estos átomos ya están enlazados' *)
| MaxBondsReached                 (* 'Uno de los átomos ya tiene el máximo de enlaces' *)
| BondCreated (atomA atomB : nat) (* `Enlace creado: ...` *)
| EnergyAdded (amount : Q)        (* `+${amount} energía añadida` *)
| EnergyReset                     (* 'Energía reiniciada' *)
| Discovered (name : string).     (* `¡Nueva molécula descubierta: ...` *)

Inductive Kind : Type := success | error | info | warning.

Record State : Type := mkState {
  store : list Atom.t;
  atoms : list nat;
  bonds : list Bond.t;
  molecules : list Molecule.t;
  moleculeNames : list string;
  discoveredMolecules : list string;
  nextId : nat;
  transientHeatEnergy : Q;
  currentSimulationMode : string;
  isPaused : bool;
  reactionInProgress : bool;
  bondingCooldowns : list (string * Z);
  lastBondCheck : Z;
  selectedAtomsForBonding : list nat;
  notification : option (Message * Kind)
}.

Definition initial : State :=
  mkState [] [] [] [] [] [] 0 0 "educational" false false [] 0%Z [] None.

Definition set_store v s :=
  mkState v (atoms s) (bonds s) (molecules s) (moleculeNames s)
    (discoveredMolecules s) (nextId s) (transientHeatEnergy s)
    (currentSimulationMode s) (isPaused s) (reactionInProgress s)
    (bondingCooldowns s) (lastBondCheck s) (selectedAtomsForBonding s)
    (notification s).
Definition set_atoms v s :=
  mkState (store s) v (bonds s) (molecules s) (moleculeNames s)
    (discoveredMolecules s) (nextId s) (transientHeatEnergy s)
    (currentSimulationMode s) (isPaused s) (reactionInProgress s)
    (bondingCooldowns s) (lastBondCheck s) (selectedAtomsForBonding s)
    (notification s).
Definition set_bonds v s :=
  mkState (store s) (atoms s) v (molecules s) (moleculeNames s)
    (discoveredMolecules s) (nextId s) (transientHeatEnergy s)
    (currentSimulationMode s) (isPaused s) (reactionInProgress s)
    (bondingCooldowns s) (lastBondCheck s) (selectedAtomsForBonding s)
    (notification s).
Definition set_molecules v s :=
  mkState (store s) (atoms s) (bonds s) v (moleculeNames s)
    (discoveredMolecules s) (nextId s) (transientHeatEnergy s)
    (currentSimulationMode s) (isPaused s) (reactionInProgress s)
    (bondingCooldowns s) (lastBondCheck s) (selectedAtomsForBonding s)
    (notification s).
Definition set_moleculeNames v s :=
  mkState (store s) (atoms s) (bonds s) (molecules s) v
    (discoveredMolecules s) (nextId s) (transientHeatEnergy s)
    (currentSimulationMode s) (isPaused s) (reactionInProgress s)
    (bondingCooldowns s) (lastBondCheck s) (selectedAtomsForBonding s)
    (notification s).
Definition set_discoveredMolecules v s :=
  mkState (store s) (atoms s) (bonds s) (molecules s) (moleculeNames s)
    v (nextId s) (transientHeatEnergy s)
    (currentSimulationMode s) (isPaused s) (reactionInProgress s)
    (bondingCooldowns s) (lastBondCheck s) (selectedAtomsForBonding s)
    (notification s).
Definition set_nextId v s :=
  mkState (store s) (atoms s) (bonds s) (molecules s) (moleculeNames s)
    (discoveredMolecules s) v (transientHeatEnergy s)
    (currentSimulationMode s) (isPaused s) (reactionInProgress s)
    (bondingCooldowns s) (lastBondCheck s) (selectedAtomsForBonding s)
    (notification s).
Definition set_transientHeatEnergy v s :=
  mkState (store s) (atoms s) (bonds s) (molecules s) (moleculeNames s)
    (discoveredMolecules s) (nextId s) v
    (currentSimulationMode s) (isPaused s) (reactionInProgress s)
    (bondingCooldowns s) (lastBondCheck s) (selectedAtomsForBonding s)
    (notification s).
Definition set_bondingCooldowns v s :=
  mkState (store s) (atoms s) (bonds s) (molecules s) (moleculeNames s)
    (discoveredMolecules s) (nextId s) (transientHeatEnergy s)
    (currentSimulationMode s) (isPaused s) (reactionInProgress s)
    v (lastBondCheck s) (selectedAtomsForBonding s)
    (notification s).
Definition set_lastBondCheck v s :=
  mkState (store s) (atoms s) (bonds s) (molecules s) (moleculeNames s)
    (discoveredMolecules s) (nextId s) (transientHeatEnergy s)
    (currentSimulationMode s) (isPaused s) (reactionInProgress s)
    (bondingCooldowns s) v (selectedAtomsForBonding s)
    (notification s).
Definition set_selectedAtomsForBonding v s :=
  mkState (store s) (atoms s) (bonds s) (molecules s) (moleculeNames s)
    (discoveredMolecules s) (nextId s) (transientHeatEnergy s)
    (currentSimulationMode s) (isPaused s) (reactionInProgress s)
    (bondingCooldowns s) (lastBondCheck s) v
    (notification s).

(** [showNotification(message, type)]; the timer that clears it after three
    seconds is not part of the call. *)
Definition showNotification (message : Message) (kind : Kind) (s : State) : State :=
  mkState (store s) (atoms s) (bonds s) (molecules s) (moleculeNames s)
    (discoveredMolecules s) (nextId s) (transientHeatEnergy s)
    (currentSimulationMode s) (isPaused s) (reactionInProgress s)
    (bondingCooldowns s) (lastBondCheck s) (selectedAtomsForBonding s)
    (Some (message, kind)).

Definition currentModeConfig (s : State) : ReactionsConfig.t :=
  match Shared.lookupKey (currentSimulationMode s) SIMULATION_MODES with
  | Some config => config
  | None => ReactionsConfig.mk true 0.998
  end.

Definition valenceElectrons : list (nat * Q) :=
  [(1%nat, 1); (6%nat, 4); (7%nat, 5); (8%nat, 6); (9%nat, 7)].
Definition maxBonds : list (nat * nat) :=
  [(1, 1); (6, 4); (7, 3); (8, 2); (9, 1)]%nat.
Definition electronegativity : list (nat * Q) :=
  [(1%nat, 2.20); (6%nat, 2.55); (7%nat, 3.04); (8%nat, 3.44); (9%nat, 3.98)].
Definition elementSymbols : list (nat * string) :=
  [(1, "H"); (2, "He"); (3, "Li"); (4, "Be"); (5, "B"); (6, "C"); (7, "N");
   (8, "O"); (9, "F"); (10, "Ne"); (11, "Na"); (12, "Mg"); (13, "Al");
   (14, "Si"); (15, "P"); (16, "S"); (17, "Cl"); (18, "Ar")]%nat.

Definition isMember (s : State) (i : nat) : bool := Shared.isMember (store s) i.
Definition protonsOf (s : State) (i : nat) : nat := Shared.protonsOf (store s) i.
Definition resolve (s : State) (ids : list nat) : list Atom.t :=
  Shared.resolve (store s) ids.

Definition createAtom (protons neutrons electrons : nat) (s : State) : State :=
  let newAtom := Atom.mk (nextId s) protons neutrons electrons false in
  set_atoms (atoms s ++ [nextId s])
    (set_store (store s ++ [newAtom]) (set_nextId (S (nextId s)) s)).

(** *** Energy *)

(** [addSystemEnergy(amount)]: the velocity kicks go to the physics bodies. *)
Definition addSystemEnergy (amount : Q) (s : State) : State :=
  showNotification (EnergyAdded amount) info
    (set_transientHeatEnergy (Qmin 100 (transientHeatEnergy s + amount)) s).

Definition resetSystemEnergy (s : State) : State :=
  showNotification EnergyReset info (set_transientHeatEnergy 0 s).

(** The decay in [animate], skipped while paused. *)
Definition decayTransientHeat (s : State) : State :=
  if isPaused s then s
  else
    let decayRate := ReactionsConfig.energyDecayRate (currentModeConfig s) in
    if Qle_bool (transientHeatEnergy s) 0 then s
    else
      let decayed := transientHeatEnergy s * decayRate in
      set_transientHeatEnergy (if Qle_bool 0.1 decayed then decayed else 0) s.

(** *** Molecule identification *)

Definition betterCentral (best current : Atom.t) : Atom.t :=
  let bestValence := Shared.orElse valenceElectrons (Atom.protons best) 0 in
  let currentValence := Shared.orElse valenceElectrons (Atom.protons current) 0 in
  let bestElectronegativity :=
    Shared.orElse electronegativity (Atom.protons best) 0 in
  let currentElectronegativity :=
    Shared.orElse electronegativity (Atom.protons current) 0 in
  let bestScore := bestValence - bestElectronegativity in
  let currentScore := currentValence - currentElectronegativity in
  if Shared.lt bestScore currentScore then current else best.

Definition findBestCentralAtom (atoms : list Atom.t) : option Atom.t :=
  match atoms with
  | [] => None
  | first :: rest => Some (fold_left betterCentral rest first)
  end.

Definition generateMolecularFormula (atoms : list Atom.t) : string :=
  let sortedElements :=
    JS.sortBy (fun a b => Nat.leb (fst a) (fst b)) (Engine.compositionOf atoms) in
  JS.join ""
    (map (fun entry =>
            let symbol := Shared.orElse elementSymbols (fst entry)
                            ("E" ++ JS.toString (fst entry)) in
            if (snd entry =? 1)%nat then symbol
            else symbol ++ Engine.subscriptOf (snd entry)) sortedElements).

Module MoleculeInfo.
Record t : Type := mk { name : string; geometry : string; bondLength : Q }.
End MoleculeInfo.

Definition countProtons (protons : nat) (atoms : list Atom.t) : nat :=
  Engine.countOf protons (Engine.compositionOf atoms).

Definition identifyMoleculeType (atoms : list Atom.t) : MoleculeInfo.t :=
  let hCount := countProtons 1 atoms in
  let cCount := countProtons 6 atoms in
  let nCount := countProtons 7 atoms in
  let oCount := countProtons 8 atoms in
  let n := List.length atoms in
  if (oCount =? 1)%nat && (hCount =? 2)%nat && (n =? 3)%nat then
    MoleculeInfo.mk "Water (H₂O)" "bent" 2.0
  else if (cCount =? 1)%nat && (oCount =? 2)%nat && (n =? 3)%nat then
    MoleculeInfo.mk "Carbon Dioxide (CO₂)" "linear" 2.2
  else if (cCount =? 1)%nat && (hCount =? 4)%nat && (n =? 5)%nat then
    MoleculeInfo.mk "Methane (CH₄)" "tetrahedral" 1.8
  else if (nCount =? 1)%nat && (hCount =? 3)%nat && (n =? 4)%nat then
    MoleculeInfo.mk "Ammonia (NH₃)" "trigonal_pyramidal" 1.6
  else if (hCount =? 2)%nat && (n =? 2)%nat then
    MoleculeInfo.mk "Hydrogen Gas (H₂)" "linear" 1.2
  else if (oCount =? 2)%nat && (n =? 2)%nat then
    MoleculeInfo.mk "Oxygen Gas (O₂)" "linear" 1.5
  else if (nCount =? 2)%nat && (n =? 2)%nat then
    MoleculeInfo.mk "Nitrogen Gas (N₂)" "linear" 1.6
  else
    MoleculeInfo.mk ("Compound (" ++ generateMolecularFormula atoms ++ ")")
      "complex" 2.0.

(** [calculateMolecularGeometry], reduced to the ids that receive a position.
    [None] is a TypeError: no central atom in an empty list, or
    [otherAtoms[1].id] with fewer than two other atoms.  An empty list is the
    [null] result. *)
Definition positionedIds (atoms : list Atom.t) (geometry : string)
    : option (list nat) :=
  let aroundCentral (place : Atom.t -> list Atom.t -> option (list nat)) :=
    match findBestCentralAtom atoms with
    | None => None
    | Some centralAtom =>
        place centralAtom
          (filter (fun a => negb (Atom.id a =? Atom.id centralAtom)%nat) atoms)
    end in
  let firstTwo centralAtom otherAtoms :=
    match otherAtoms with
    | o0 :: o1 :: _ => Some [Atom.id centralAtom; Atom.id o0; Atom.id o1]
    | _ => None
    end in
  let all centralAtom otherAtoms :=
    Some (Atom.id centralAtom :: map Atom.id otherAtoms) in
  if String.eqb geometry "linear" then
    match atoms with
    | [a; b] => Some [Atom.id a; Atom.id b]
    | [_; _; _] => aroundCentral firstTwo
    | _ => Some []
    end
  else if String.eqb geometry "bent" then aroundCentral firstTwo
  else if String.eqb geometry "tetrahedral" then
    aroundCentral (fun centralAtom otherAtoms =>
                     Some (Atom.id centralAtom :: map Atom.id (firstn 4 otherAtoms)))
  else if String.eqb geometry "trigonal_pyramidal" then aroundCentral all
  else
    match atoms with
    | [a; b] => Some [Atom.id a; Atom.id b]
    | _ => aroundCentral all
    end.

Definition createMolecule (moleculeId : string) (moleculeInfo : MoleculeInfo.t)
    (ids : list nat) (s : State) : JS.outcome (State * option Molecule.t) :=
  match positionedIds (resolve s ids) (MoleculeInfo.geometry moleculeInfo) with
  | None => JS.Throws (s, None)
  | Some [] => JS.Returns (s, None)
  | Some positions =>
      match Shared.placeAtoms positions ids (store s) with
      | JS.Throws store1 => JS.Throws (set_store store1 s, None)
      | JS.Returns store1 =>
          let s1 := set_store store1 s in
          let s2 := set_bonds (Shared.removeInternalBonds ids (bonds s1)) s1 in
          JS.Returns
            (s2, Some (Molecule.mk moleculeId (MoleculeInfo.name moleculeInfo) ids))
      end
  end.

Definition identifyAtom (acc : JS.outcome (State * list nat)) (atom : nat)
    : JS.outcome (State * list nat) :=
  match acc with
  | JS.Throws _ => acc
  | JS.Returns (s, checkedAtoms) =>
      if Shared.has atom checkedAtoms || isMember s atom then acc
      else
        let '(checkedAtoms, connectedComponent) :=
          Shared.traverse (Shared.traverseFuel (bonds s)) (store s) (bonds s)
            [atom] (atom :: checkedAtoms) [] in
        if (2 <=? List.length connectedComponent)%nat then
          let moleculeId := Shared.moleculeIdOf connectedComponent in
          if existsb (fun m => String.eqb (Molecule.id m) moleculeId) (molecules s)
          then JS.Returns (s, checkedAtoms)
          else
            let moleculeInfo := identifyMoleculeType (resolve s connectedComponent) in
            match createMolecule moleculeId moleculeInfo connectedComponent s with
            | JS.Throws (s', _) => JS.Throws (s', checkedAtoms)
            | JS.Returns (s', None) => JS.Returns (s', checkedAtoms)
            | JS.Returns (s', Some molecule) =>
                let s1 := set_molecules (molecules s' ++ [molecule]) s' in
                let name := MoleculeInfo.name moleculeInfo in
                let s2 :=
                  if existsb (String.eqb name) (discoveredMolecules s1) then s1
                  else showNotification (Discovered name) success
                         (set_discoveredMolecules
                            (discoveredMolecules s1 ++ [name]) s1) in
                JS.Returns (s2, checkedAtoms)
            end
        else JS.Returns (s, checkedAtoms)
  end.

Definition identifyMolecules (s : State) : JS.outcome State :=
  match fold_left identifyAtom (atoms s) (JS.Returns (s, [])) with
  | JS.Throws (s', _) => JS.Throws s'
  | JS.Returns (s', _) =>
      JS.Returns (set_moleculeNames (map Molecule.name (molecules s')) s')
  end.

(** *** Bonds *)

Definition createBond (atomA atomB : nat) (suppressIdentify : bool) (s : State)
    : JS.outcome State :=
  if Shared.bondExists (bonds s) atomA atomB then JS.Returns s
  else
    let bondId := Shared.bondIdOf atomA atomB in
    let s1 := set_bonds (bonds s ++ [Bond.mk bondId atomA atomB]) s in
    if suppressIdentify then JS.Returns s1 else identifyMolecules s1.

Definition countAtomBonds (s : State) (atom : nat) : nat :=
  List.length (Shared.connectedBonds (bonds s) atom).

Definition engineCanFormBond (s : State) (atomA atomB : nat) (systemEnergy : Q)
    : bool :=
  match Shared.getAtom (store s) atomA, Shared.getAtom (store s) atomB with
  | Some a, Some b => Engine.canFormBond a b systemEnergy
  | _, _ => false
  end.

Definition shouldFormBond (s : State) (atomA atomB : nat) (systemEnergy : Q)
    : bool :=
  if negb (engineCanFormBond s atomA atomB systemEnergy) then false
  else
    let bondsA := countAtomBonds s atomA in
    let bondsB := countAtomBonds s atomB in
    let maxA := Shared.orElse maxBonds (protonsOf s atomA) 4%nat in
    let maxB := Shared.orElse maxBonds (protonsOf s atomB) 4%nat in
    (bondsA <? maxA)%nat && (bondsB <? maxB)%nat.

(** [createManualBond], called once two atoms are selected; the
    identification it schedules 100 ms later is [identifyMolecules]. *)
Definition createManualBond (s : State) : JS.outcome State :=
  match selectedAtomsForBonding s with
  | atomA :: atomB :: _ =>
      let bondExists :=
        existsb (fun b => ((Bond.atomA b =? atomA)%nat && (Bond.atomB b =? atomB)%nat)
                          || ((Bond.atomA b =? atomB)%nat && (Bond.atomB b =? atomA)%nat))
          (bonds s) in
      if bondExists then
        JS.Returns (set_selectedAtomsForBonding []
                      (showNotification AlreadyBonded warning s))
      else
        let bondsA := countAtomBonds s atomA in
        let bondsB := countAtomBonds s atomB in
        let maxA := Shared.orElse maxBonds (protonsOf s atomA) 4%nat in
        let maxB := Shared.orElse maxBonds (protonsOf s atomB) 4%nat in
        if (maxA <=? bondsA)%nat || (maxB <=? bondsB)%nat then
          JS.Returns (set_selectedAtomsForBonding []
                        (showNotification MaxBondsReached warning s))
        else
          match createBond atomA atomB false s with
          | JS.Throws s' => JS.Throws s'
          | JS.Returns s' =>
              JS.Returns (showNotification (BondCreated atomA atomB) success
                            (set_selectedAtomsForBonding [] s'))
          end
  | _ => JS.Throws s
  end.

(** The operations of this component that write [transientHeatEnergy]. *)
Inductive EnergyOp : Type :=
| Add (amount : Q)     (* [addSystemEnergy(amount)] *)
| Reset                (* [resetSystemEnergy()] *)
| Decay.               (* one animation frame *)

Definition applyOp (op : EnergyOp) (s : State) : State :=
  match op with
  | Add amount => addSystemEnergy amount s
  | Reset => resetSystemEnergy s
  | Decay => decayTransientHeat s
  end.

(** The states after each operation of a sequence. *)
Fixpoint run (ops : list EnergyOp) (s : State) : list State :=
  match ops with
  | [] => []
  | op :: ops' => let s' := applyOp op s in s' :: run ops' s'
  end.

(** The amounts added are not negative. *)
Definition addsNonNegative (op : EnergyOp) : Prop :=
  match op with
  | Add amount => 0 <= amount
  | _ => True
  end.

(** *** The per-tick bond scan *)

(** [calculateSystemEnergy]: the heat plus five times the kinetic energy of
    the free atoms. *)
Definition calculateSystemEnergy (w : Simulation.World) (s : State) : Q :=
  fold_left (fun totalEnergy atom =>
               if isMember s atom then totalEnergy
               else totalEnergy + Simulation.atomKineticEnergy w atom * 5)
    (atoms s) (transientHeatEnergy s).

(** The body of the double loop of [checkAndCreateBonds]; the attraction of
    the [else if] branch goes to the physics bodies, and the identification
    the bond schedules 100 ms later is [identifyMolecules]. *)
Definition scanPair (w : Simulation.World) (now : Z) (systemEnergy : Q)
    (s : State) (pair : nat * nat) : State :=
  let '(atomA, atomB) := pair in
  if isMember s atomA || isMember s atomB then s
  else if Shared.bondExists (bonds s) atomA atomB then s
  else
    let cooldownKey := Simulation.cooldownKeyOf atomA atomB in
    let lastAttempt :=
      match Shared.lookupKey cooldownKey (bondingCooldowns s) with
      | Some t => t
      | None => 0%Z
      end in
    if (now - lastAttempt <? 2000)%Z then s
    else
      let distance := Simulation.distanceTo w atomA atomB in
      if Shared.lt distance 4.0 && shouldFormBond s atomA atomB systemEnergy then
        JS.stateOf
          (createBond atomA atomB true
             (set_bondingCooldowns
                (Shared.setKey cooldownKey now (bondingCooldowns s)) s))
      else s.

Definition bondCheckInterval : Z := 100.

Definition checkAndCreateBonds (w : Simulation.World) (now : Z) (s : State)
    : State :=
  if reactionInProgress s || isPaused s then s
  else if negb (ReactionsConfig.autoReactions (currentModeConfig s)) then s
  else if (now - lastBondCheck s <? bondCheckInterval)%Z then s
  else
    let s1 := set_lastBondCheck now s in
    let systemEnergy := calculateSystemEnergy w s1 in
    fold_left (scanPair w now systemEnergy) (Engine.pairs (atoms s1)) s1.

(** No atom has more bond records than its max-bonds ([maxBonds[protons] ||
    4]). *)
Definition valenceRespected (s : State) : Prop :=
  forall atom,
    (countAtomBonds s atom
     <= Shared.orElse maxBonds (protonsOf s atom) 4)%nat.

(** *** Deleting *)

Definition setMember (i : nat) (m : bool) (s : State) : State :=
  set_store (Shared.setMember i m (store s)) s.

(** [breakMolecule]: positions and velocities go to the physics bodies. *)
Definition breakMolecule (molecule : Molecule.t) (s : State) : State :=
  let s1 :=
    set_molecules
      (filter (fun m => negb (String.eqb (Molecule.id m) (Molecule.id molecule)))
         (molecules s)) s in
  let s2 :=
    fold_left (fun st a => setMember a false st) (Molecule.atoms molecule) s1 in
  set_moleculeNames (map Molecule.name (molecules s2)) s2.

Definition deleteBond (bondId : string) (suppressIdentify : bool) (s : State)
    : JS.outcome State :=
  let s1 := set_bonds (Shared.removeBond bondId (bonds s)) s in
  if suppressIdentify then JS.Returns s1 else identifyMolecules s1.

(** [deleteAtom(atomToDelete)].  The atom object stays in the store; the
    selection shown in the panel is not part of the state. *)
Definition deleteAtom (atomToDelete : nat) (s : State) : JS.outcome State :=
  let s1 :=
    match find (fun m => Shared.has atomToDelete (Molecule.atoms m)) (molecules s) with
    | Some moleculeContainingAtom => breakMolecule moleculeContainingAtom s
    | None => s
    end in
  let s2 :=
    set_atoms (filter (fun a => negb (a =? atomToDelete)%nat) (atoms s1)) s1 in
  let bondsToRemove := Shared.connectedBonds (bonds s2) atomToDelete in
  let s3 :=
    fold_left (fun st b => JS.stateOf (deleteBond (Bond.id b) true st))
      bondsToRemove s2 in
  let s4 :=
    set_selectedAtomsForBonding
      (filter (fun a => negb (a =? atomToDelete)%nat) (selectedAtomsForBonding s3))
      s3 in
  identifyMolecules s4.

End ModesSimulation.

(** ** Concrete scenes *)

Module Examples.
Import Simulation.

Definition hydrogen : Atom.t := Atom.mk 0 1 0 1 false.
Definition hydrogen' : Atom.t := Atom.mk 1 1 0 1 false.
Definition oxygen : Atom.t := Atom.mk 2 8 8 8 false.

(** All bodies at rest and within one unit of each other. *)
Definition closeWorld : World :=
  mkWorld (fun _ _ => 1) (fun _ => 0) (fun _ => 0).

Definition addHydrogen : State -> State := createAtom 1 0 1.
Definition addOxygen : State -> State := createAtom 8 8 8.

(** Three free hydrogen atoms (ids 0, 1, 2) and 5 units of heat. *)
Definition threeHydrogens : State :=
  set_transientHeatEnergy 5 (addHydrogen (addHydrogen (addHydrogen initial))).

(** One bond scan, then the gradual bond 0-1 completes ... *)
Definition afterScan : State := checkAndCreateBonds closeWorld 5000 threeHydrogens.
Definition afterFirstBond : JS.outcome State :=
  gradualBondCompleted closeWorld 0 1 afterScan.
(** ... and then the gradual bonds 0-2 and 1-2 started by the same scan. *)
Definition afterAllBonds : JS.outcome State :=
  JS.andThen afterFirstBond (fun s =>
  JS.andThen (gradualBondCompleted closeWorld 0 2 s)
             (gradualBondCompleted closeWorld 1 2)).

(** Two hydrogen atoms (ids 0, 1) joined by one bond. *)
Definition hydrogenPair : JS.outcome State :=
  createBond closeWorld 0 1 true (addHydrogen (addHydrogen initial)).

(** One oxygen (id 0) bonded to two hydrogens (ids 1, 2). *)
Definition waterAtoms : JS.outcome State :=
  JS.andThen (createBond closeWorld 0 1 true
                (addHydrogen (addHydrogen (addOxygen initial))))
             (createBond closeWorld 0 2 true).

(** Eleven hydrogen atoms (ids 0 to 10); atoms 2 and 10 are bonded. *)
Definition elevenHydrogens : State := Nat.iter 11 addHydrogen initial.
Definition bonded_2_10 : JS.outcome State :=
  createBond closeWorld 2 10 true elevenHydrogens.

(** The same two scenes in the mode-driven component. *)
Definition modesHydrogenPair : JS.outcome ModesSimulation.State :=
  ModesSimulation.createBond 0 1 true
    (ModesSimulation.createAtom 1 0 1
       (ModesSimulation.createAtom 1 0 1 ModesSimulation.initial)).

Definition modesWaterAtoms : JS.outcome ModesSimulation.State :=
  JS.andThen
    (ModesSimulation.createBond 0 1 true
       (ModesSimulation.createAtom 1 0 1
          (ModesSimulation.createAtom 1 0 1
             (ModesSimulation.createAtom 8 8 8 ModesSimulation.initial))))
    (ModesSimulation.createBond 0 2 true).

(** Three hydrogens of the mode-driven component, atoms 0 and 1 bonded, and
    atoms 0 and 2 selected for a manual bond. *)
Definition modesBondedPair : ModesSimulation.State :=
  JS.stateOf
    (ModesSimulation.createBond 0 1 true
       (ModesSimulation.createAtom 1 0 1
          (ModesSimulation.createAtom 1 0 1
             (ModesSimulation.createAtom 1 0 1 ModesSimulation.initial)))).
Definition modesSelection : ModesSimulation.State :=
  ModesSimulation.set_selectedAtomsForBonding [0; 2]%nat modesBondedPair.

(** Three free hydrogens of the mode-driven component and 20 units of heat. *)
Definition modesThreeHydrogens : ModesSimulation.State :=
  ModesSimulation.addSystemEnergy 20
    (ModesSimulation.createAtom 1 0 1
       (ModesSimulation.createAtom 1 0 1
          (ModesSimulation.createAtom 1 0 1 ModesSimulation.initial))).

(** An atom whose proton number is not in the catalog. *)
Definition unknownAtom : Atom.t := Atom.mk 3 99 0 0 false.

(** A state that holds the reaction lock. *)
Definition lockedState : State :=
  set_reactionInProgress true (set_transientHeatEnergy 50 threeHydrogens).

(** All bodies at rest and five units from each other: too far for the bond
    scan (3.5), near enough for a reaction (6). *)
Definition apartBodies : Reaction.Bodies :=
  Reaction.mkBodies (mkWorld (fun _ _ => 5) (fun _ => 0) (fun _ => 0))
    (fun _ _ => 5) (fun _ _ => 5).

(** The bodies as [createOptimalMolecularStructure] arranges three atoms:
    the second and the third at 1.5 from the first, on opposite sides. *)
Definition arrangedBodies : Reaction.Bodies :=
  Reaction.mkBodies
    (mkWorld (fun a b => if (a =? 0)%nat || (b =? 0)%nat then 1.5 else 3)
       (fun _ => 0) (fun _ => 0))
    (fun _ _ => 5) (fun _ _ => 5).

(** A heat pulse at intensity 10 on a scene: 30 units of heat. *)
Definition heated (s : State) : State :=
  applyGlobalHeatPulse (set_heatIntensity 10 s).

(** Two free hydrogen atoms (ids 0, 1), heated. *)
Definition hotHydrogens : State := heated (addHydrogen (addHydrogen initial)).

(** A free oxygen (id 0) and two free hydrogens (ids 1, 2), heated. *)
Definition hotWaterAtoms : State :=
  heated (addHydrogen (addHydrogen (addOxygen initial))).

(** Two free hydrogen atoms and no heat. *)
Definition coldHydrogens : State := addHydrogen (addHydrogen initial).

End Examples.

(** * Properties *)

(** ** Decimal strings and bond ids *)

Module JSProps.

Lemma to_uint_nonnil (n : nat) : Nat.to_uint n <> Nil.
Proof.
  intros H. pose proof (DecimalNat.Unsigned.of_to n) as E.
  rewrite H in E. cbn in E. subst n. discriminate H.
Qed.

Lemma toString_inj (n m : nat) : JS.toString n = JS.toString m -> n = m.
Proof.
  unfold JS.toString. intros H.
  apply DecimalNat.Unsigned.to_uint_inj.
  assert (E : NilZero.uint_of_string (NilZero.string_of_uint (Nat.to_uint n))
              = NilZero.uint_of_string (NilZero.string_of_uint (Nat.to_uint m)))
    by now rewrite H.
  rewrite !NilZero.usu in E by apply to_uint_nonnil.
  now injection E.
Qed.

Lemma noDash_string_of_uint (d : Decimal.uint) :
  JS.noDash (NilEmpty.string_of_uint d) = true.
Proof. induction d; cbn; auto. Qed.

Lemma noDash_toString (n : nat) : JS.noDash (JS.toString n) = true.
Proof.
  unfold JS.toString, NilZero.string_of_uint.
  destruct (Nat.to_uint n) eqn:E; try reflexivity;
    rewrite <- E; apply noDash_string_of_uint.
Qed.

Lemma append_dash_inj (s1 s2 t1 t2 : string) :
  JS.noDash s1 = true -> JS.noDash s2 = true ->
  s1 ++ "-" ++ t1 = s2 ++ "-" ++ t2 -> s1 = s2 /\ t1 = t2.
Proof.
  revert s2. induction s1 as [|a s1 IH]; intros [|c s2]; cbn; intros N1 N2 E.
  - injection E as E. now split.
  - injection E as Ec _. subst c. discriminate N2.
  - injection E as Ea _. subst a. discriminate N1.
  - injection E as Ea E. subst c.
    apply andb_true_iff in N1 as [_ N1]. apply andb_true_iff in N2 as [_ N2].
    destruct (IH s2 N1 N2 E) as [-> ->]. now split.
Qed.

(** The template [`${a}-${b}`] determines the two ids. *)
Lemma bondIdOf_inj (a b c d : nat) :
  Shared.bondIdOf a b = Shared.bondIdOf c d -> a = c /\ b = d.
Proof.
  unfold Shared.bondIdOf. intros E.
  apply append_dash_inj in E; try apply noDash_toString.
  destruct E as [E1 E2]. split; now apply toString_inj.
Qed.

(** *** Sorting is a function of the multiset *)

Lemma string_compare_refl (s : string) : String.compare s s = Eq.
Proof.
  induction s as [|c s IH]; cbn; [reflexivity|].
  unfold Ascii.compare. now rewrite N.compare_refl.
Qed.

Lemma string_compare_lt_trans (s1 s2 s3 : string) :
  String.compare s1 s2 = Lt -> String.compare s2 s3 = Lt ->
  String.compare s1 s3 = Lt.
Proof.
  revert s2 s3. induction s1 as [|c1 s1 IH]; intros [|c2 s2] [|c3 s3]; cbn;
    try discriminate; try reflexivity.
  unfold Ascii.compare.
  destruct (N.compare_spec (N_of_ascii c1) (N_of_ascii c2)) as [E12|L12|G12];
    destruct (N.compare_spec (N_of_ascii c2) (N_of_ascii c3)) as [E23|L23|G23];
    try discriminate; intros H12 H23.
  - rewrite E12, E23, N.compare_refl. eauto.
  - rewrite E12. apply N.compare_lt_iff in L23. now rewrite L23.
  - rewrite <- E23. apply N.compare_lt_iff in L12. now rewrite L12.
  - assert (L13 : (N_of_ascii c1 < N_of_ascii c3)%N) by lia.
    apply N.compare_lt_iff in L13. now rewrite L13.
Qed.

Lemma string_leb_trans (s1 s2 s3 : string) :
  String.leb s1 s2 = true -> String.leb s2 s3 = true -> String.leb s1 s3 = true.
Proof.
  unfold String.leb.
  destruct (String.compare s1 s2) eqn:H12; try discriminate;
    destruct (String.compare s2 s3) eqn:H23; try discriminate; intros _ _.
  - apply String.compare_eq_iff in H12, H23. subst. now rewrite string_compare_refl.
  - apply String.compare_eq_iff in H12. subst. now rewrite H23.
  - apply String.compare_eq_iff in H23. subst. now rewrite H12.
  - now rewrite (string_compare_lt_trans _ _ _ H12 H23).
Qed.

Section SortProps.
Context {A : Type} (cmp : A -> A -> bool).
Hypothesis cmp_total : forall x y, cmp x y = true \/ cmp y x = true.
Hypothesis cmp_trans :
  forall x y z, cmp x y = true -> cmp y z = true -> cmp x z = true.
Hypothesis cmp_antisym : forall x y, cmp x y = true -> cmp y x = true -> x = y.

Lemma insert_perm (x : A) (l : list A) : Permutation (x :: l) (JS.insert cmp x l).
Proof.
  induction l as [|y l IH]; cbn; [reflexivity|].
  destruct (cmp x y); [reflexivity|].
  rewrite perm_swap. now apply perm_skip.
Qed.

Lemma sortBy_perm (l : list A) : Permutation l (JS.sortBy cmp l).
Proof.
  induction l as [|x l IH]; cbn; [reflexivity|].
  rewrite <- insert_perm. now apply perm_skip.
Qed.

Lemma insert_sorted (x : A) (l : list A) :
  StronglySorted (fun a b => cmp a b = true) l ->
  StronglySorted (fun a b => cmp a b = true) (JS.insert cmp x l).
Proof.
  induction 1 as [|y l Hs IH Hy]; cbn.
  - repeat constructor.
  - destruct (cmp x y) eqn:Hxy.
    + constructor; [now constructor|]. constructor; [exact Hxy|].
      eapply Forall_impl; [|exact Hy]. intros z Hz. exact (cmp_trans _ _ _ Hxy Hz).
    + constructor; [exact IH|].
      apply (Permutation_Forall (insert_perm x l)). constructor; [|exact Hy].
      destruct (cmp_total x y) as [H|H]; [congruence|exact H].
Qed.

Lemma sortBy_sorted (l : list A) :
  StronglySorted (fun a b => cmp a b = true) (JS.sortBy cmp l).
Proof.
  induction l as [|x l IH]; cbn; [constructor|]. now apply insert_sorted.
Qed.

Lemma sorted_perm_eq (l1 l2 : list A) :
  StronglySorted (fun a b => cmp a b = true) l1 ->
  StronglySorted (fun a b => cmp a b = true) l2 ->
  Permutation l1 l2 -> l1 = l2.
Proof.
  intros H1. revert l2. induction H1 as [|x l1 Hs1 IH Hx]; intros l2 H2 P.
  - now apply Permutation_nil in P.
  - destruct H2 as [|y l2 Hs2 Hy].
    + symmetry in P. now apply Permutation_nil in P.
    + assert (x = y) as ->.
      { assert (Hin1 : In y (x :: l1))
          by (apply (Permutation_in _ (Permutation_sym P)); now left).
        assert (Hin2 : In x (y :: l2))
          by (apply (Permutation_in _ P); now left).
        destruct Hin1 as [E|Hin1]; [exact E|].
        destruct Hin2 as [E|Hin2]; [now symmetry|].
        rewrite Forall_forall in Hx, Hy.
        apply cmp_antisym; [now apply Hx | now apply Hy]. }
      f_equal. apply IH; [exact Hs2|]. now apply Permutation_cons_inv in P.
Qed.

Lemma sortBy_permutation (l1 l2 : list A) :
  Permutation l1 l2 -> JS.sortBy cmp l1 = JS.sortBy cmp l2.
Proof.
  intros P. apply sorted_perm_eq; try apply sortBy_sorted.
  rewrite <- !sortBy_perm. exact P.
Qed.
End SortProps.

(** The same when the comparator tells apart only the elements of the list. *)
Section SortOn.
Context {A : Type} (cmp : A -> A -> bool).
Hypothesis cmp_total : forall x y, cmp x y = true \/ cmp y x = true.
Hypothesis cmp_trans :
  forall x y z, cmp x y = true -> cmp y z = true -> cmp x z = true.

Lemma sorted_perm_eq_on (l1 l2 : list A) :
  (forall x y, In x l1 -> In y l1 -> cmp x y = true -> cmp y x = true -> x = y) ->
  StronglySorted (fun a b => cmp a b = true) l1 ->
  StronglySorted (fun a b => cmp a b = true) l2 ->
  Permutation l1 l2 -> l1 = l2.
Proof.
  intros Hanti H1. revert l2 Hanti.
  induction H1 as [|x l1 Hs1 IH Hx]; intros l2 Hanti H2 P.
  - now apply Permutation_nil in P.
  - destruct H2 as [|y l2 Hs2 Hy].
    + symmetry in P. now apply Permutation_nil in P.
    + assert (Hin1 : In y (x :: l1))
        by (apply (Permutation_in _ (Permutation_sym P)); now left).
      assert (Hin2 : In x (y :: l2))
        by (apply (Permutation_in _ P); now left).
      assert (x = y) as ->.
      { destruct Hin1 as [E|Hin1']; [exact E|].
        destruct Hin2 as [E|Hin2']; [now symmetry|].
        rewrite Forall_forall in Hx, Hy.
        apply Hanti; [now left | now right | now apply Hx | now apply Hy]. }
      f_equal. apply IH; [|exact Hs2|now apply Permutation_cons_inv in P].
      intros a b Ha Hb. apply Hanti; now right.
Qed.

Lemma sortBy_permutation_on (l1 l2 : list A) :
  (forall x y, In x l1 -> In y l1 -> cmp x y = true -> cmp y x = true -> x = y) ->
  Permutation l1 l2 -> JS.sortBy cmp l1 = JS.sortBy cmp l2.
Proof.
  intros Hanti P. apply sorted_perm_eq_on.
  - intros x y Hx Hy. apply Hanti.
    + exact (Permutation_in _ (Permutation_sym (sortBy_perm cmp l1)) Hx).
    + exact (Permutation_in _ (Permutation_sym (sortBy_perm cmp l1)) Hy).
  - now apply sortBy_sorted.
  - now apply sortBy_sorted.
  - rewrite <- !sortBy_perm. exact P.
Qed.
End SortOn.

(** The comparator-less sort orders ids by their text, and text identifies
    the id: the result does not depend on the order of the input. *)
Lemma sortDefault_permutation (l1 l2 : list nat) :
  Permutation l1 l2 -> JS.sortDefault l1 = JS.sortDefault l2.
Proof.
  apply sortBy_permutation.
  - intros x y. apply String.leb_total.
  - intros x y z. apply string_leb_trans.
  - intros x y Hxy Hyx. apply toString_inj. now apply String.leb_antisym.
Qed.

Lemma sortNumeric_permutation (l1 l2 : list nat) :
  Permutation l1 l2 -> JS.sortNumeric l1 = JS.sortNumeric l2.
Proof.
  apply sortBy_permutation.
  - intros x y. rewrite !Nat.leb_le. lia.
  - intros x y z. rewrite !Nat.leb_le. lia.
  - intros x y. rewrite !Nat.leb_le. lia.
Qed.

End JSProps.

(** ** The bond list *)

Module SharedProps.
Import Shared.

Lemma isPairRecord_sym (a b : nat) (bond : Bond.t) :
  isPairRecord a b bond = isPairRecord b a bond.
Proof. unfold isPairRecord. apply orb_comm. Qed.

Lemma pairRecords_sym (bonds : list Bond.t) (a b : nat) :
  pairRecords bonds a b = pairRecords bonds b a.
Proof.
  unfold pairRecords. apply filter_ext. intros bond. apply isPairRecord_sym.
Qed.

Lemma bondExists_sym (bonds : list Bond.t) (a b : nat) :
  bondExists bonds a b = bondExists bonds b a.
Proof.
  unfold bondExists. induction bonds as [|bond bonds IH]; cbn; [reflexivity|].
  now rewrite IH, isPairRecord_sym.
Qed.

Lemma bondExists_false_no_records (bonds : list Bond.t) (a b : nat) :
  bondExists bonds a b = false -> pairRecords bonds a b = [].
Proof.
  unfold bondExists, pairRecords.
  induction bonds as [|bond bonds IH]; cbn; [reflexivity|].
  destruct (isPairRecord a b bond); cbn; [discriminate | exact IH].
Qed.

Lemma bondExists_true_some_record (bonds : list Bond.t) (a b : nat) :
  bondExists bonds a b = true -> (1 <= List.length (pairRecords bonds a b))%nat.
Proof.
  unfold bondExists, pairRecords.
  induction bonds as [|bond bonds IH]; cbn; [discriminate|].
  destruct (isPairRecord a b bond); cbn; [lia | exact IH].
Qed.

Lemma pairUnique_nil : pairUnique [].
Proof. intros a b. cbn. lia. Qed.

Lemma filter_filter_length {A : Type} (f g : A -> bool) (l : list A) :
  (List.length (filter g (filter f l)) <= List.length (filter g l))%nat.
Proof.
  induction l as [|x l IH]; cbn; [lia|].
  destruct (f x); cbn; destruct (g x); cbn; lia.
Qed.

(** Deleting records keeps the invariant. *)
Lemma pairUnique_filter (f : Bond.t -> bool) (bonds : list Bond.t) :
  pairUnique bonds -> pairUnique (filter f bonds).
Proof.
  intros H a b. specialize (H a b). unfold pairRecords in *.
  eapply Nat.le_trans; [apply filter_filter_length | exact H].
Qed.

(** Adding the record of a pair that has none keeps the invariant. *)
Lemma pairUnique_add (bonds : list Bond.t) (a b : nat) :
  pairUnique bonds -> bondExists bonds a b = false ->
  pairUnique (bonds ++ [Bond.mk (bondIdOf a b) a b]).
Proof.
  intros H Hnone c d. unfold pairRecords. rewrite filter_app, length_app. cbn.
  specialize (H c d). unfold pairRecords in H.
  destruct (isPairRecord c d (Bond.mk (bondIdOf a b) a b)) eqn:E; cbn; [|lia].
  unfold isPairRecord in E. cbn in E.
  apply orb_true_iff in E as [E | E]; apply String.eqb_eq in E;
    apply JSProps.bondIdOf_inj in E as [-> ->].
  - apply bondExists_false_no_records in Hnone. unfold pairRecords in Hnone.
    rewrite Hnone. cbn. lia.
  - rewrite bondExists_sym in Hnone.
    apply bondExists_false_no_records in Hnone. unfold pairRecords in Hnone.
    rewrite Hnone. cbn. lia.
Qed.

Lemma shrinks_refl (l : list Bond.t) : shrinks l l.
Proof.
  exists (fun _ => true). induction l as [|x l IH]; cbn; congruence.
Qed.

Lemma shrinks_trans (l1 l2 l3 : list Bond.t) :
  shrinks l1 l2 -> shrinks l2 l3 -> shrinks l1 l3.
Proof.
  intros [f ->] [g ->]. exists (fun x => f x && g x).
  induction l1 as [|x l IH]; cbn; [reflexivity|].
  destruct (f x); cbn; [destruct (g x); cbn|]; congruence.
Qed.

Lemma shrinks_removeBond (bondId : string) (l : list Bond.t) :
  shrinks l (removeBond bondId l).
Proof. now eexists. Qed.

Lemma shrinks_removeAll (doomed l : list Bond.t) :
  shrinks l (fold_left (fun bs b => removeBond (Bond.id b) bs) doomed l).
Proof.
  revert l. induction doomed as [|b doomed IH]; intros l; cbn.
  - apply shrinks_refl.
  - eapply shrinks_trans; [apply shrinks_removeBond | apply IH].
Qed.

Lemma shrinks_removeInternalBonds (ids : list nat) (l : list Bond.t) :
  shrinks l (removeInternalBonds ids l).
Proof. unfold removeInternalBonds. apply shrinks_removeAll. Qed.

Lemma pairUnique_shrinks (l l' : list Bond.t) :
  shrinks l l' -> pairUnique l -> pairUnique l'.
Proof. intros [f ->]. apply pairUnique_filter. Qed.

(** *** Maps keyed by strings *)

Lemma lookupKey_setKey_same {V : Type} (k : string) (v : V) (m : list (string * V)) :
  lookupKey k (setKey k v m) = Some v.
Proof.
  induction m as [|[k' v'] m IH]; cbn.
  - now rewrite String.eqb_refl.
  - destruct (String.eqb k k') eqn:E; cbn; rewrite E; [reflexivity | exact IH].
Qed.

Lemma lookupKey_setKey_other {V : Type} (k k' : string) (v : V)
    (m : list (string * V)) :
  k <> k' -> lookupKey k' (setKey k v m) = lookupKey k' m.
Proof.
  intros Hne. induction m as [|[k0 v0] m IH]; cbn.
  - assert (E : String.eqb k' k = false) by (apply String.eqb_neq; congruence).
    now rewrite E.
  - destruct (String.eqb k k0) eqn:E; cbn.
    + apply String.eqb_eq in E. subst k0.
      assert (E' : String.eqb k' k = false) by (apply String.eqb_neq; congruence).
      now rewrite E'.
    + destruct (String.eqb k' k0); [reflexivity | exact IH].
Qed.

Lemma lookupKey_deleteKey_same {V : Type} (k : string) (m : list (string * V)) :
  lookupKey k (deleteKey k m) = None.
Proof.
  unfold deleteKey. induction m as [|[k' v'] m IH]; cbn; [reflexivity|].
  destruct (String.eqb k k') eqn:E; cbn; [exact IH|]. now rewrite E.
Qed.

Lemma lookupKey_deleteKey_other {V : Type} (k k' : string) (m : list (string * V)) :
  k <> k' -> lookupKey k' (deleteKey k m) = lookupKey k' m.
Proof.
  intros Hne. unfold deleteKey. induction m as [|[k0 v0] m IH]; cbn; [reflexivity|].
  destruct (String.eqb k k0) eqn:E; cbn.
  - apply String.eqb_eq in E. subst k0.
    assert (E' : String.eqb k' k = false) by (apply String.eqb_neq; congruence).
    now rewrite E'.
  - destruct (String.eqb k' k0); [reflexivity | exact IH].
Qed.

(** *** The traversal ends before its fuel does *)

Lemma unchecked_le (bonds : list Bond.t) (checkedAtoms : list nat) :
  (unchecked bonds checkedAtoms <= 2 * List.length bonds)%nat.
Proof.
  unfold unchecked. eapply Nat.le_trans; [apply filter_length_le|].
  unfold endpoints. induction bonds as [|b bonds IH]; cbn in *; lia.
Qed.

Lemma has_cons (e n : nat) (checkedAtoms : list nat) :
  has e (n :: checkedAtoms) = (e =? n)%nat || has e checkedAtoms.
Proof. reflexivity. Qed.

Lemma filter_check_le (n : nat) (checkedAtoms l : list nat) :
  (List.length (filter (fun e => negb (has e (n :: checkedAtoms))) l)
   <= List.length (filter (fun e => negb (has e checkedAtoms)) l))%nat.
Proof.
  induction l as [|e l IH]; [apply Nat.le_refl|].
  cbn [filter]. rewrite has_cons.
  destruct (e =? n)%nat, (has e checkedAtoms); cbn [orb negb List.length]; lia.
Qed.

Lemma filter_check_lt (n : nat) (checkedAtoms l : list nat) :
  In n l -> has n checkedAtoms = false ->
  (S (List.length (filter (fun e => negb (has e (n :: checkedAtoms))) l))
   <= List.length (filter (fun e => negb (has e checkedAtoms)) l))%nat.
Proof.
  intros Hin Hn. induction l as [|e l IH]; [destruct Hin|].
  cbn [filter]. rewrite has_cons. destruct Hin as [-> | Hin].
  - rewrite Nat.eqb_refl, Hn. cbn [orb negb List.length].
    pose proof (filter_check_le n checkedAtoms l). lia.
  - specialize (IH Hin).
    destruct (e =? n)%nat, (has e checkedAtoms); cbn [orb negb List.length]; lia.
Qed.

Lemma visitBond_measure (store : list Atom.t) (bonds : list Bond.t)
    (current : nat) (bond : Bond.t) (checkedAtoms toVisit : list nat) :
  In bond bonds ->
  (List.length (snd (visitBond store current (checkedAtoms, toVisit) bond))
   + unchecked bonds (fst (visitBond store current (checkedAtoms, toVisit) bond))
   <= List.length toVisit + unchecked bonds checkedAtoms)%nat.
Proof.
  intros Hin. unfold visitBond.
  set (neighbor := if (Bond.atomA bond =? current)%nat
                   then Bond.atomB bond else Bond.atomA bond).
  destruct (negb (isMember store neighbor)); cbn [andb]; [|cbn; lia].
  destruct (has neighbor checkedAtoms) eqn:Hn; cbn [negb fst snd]; [lia|].
  assert (Hend : In neighbor (endpoints bonds)).
  { unfold endpoints. apply in_flat_map. exists bond. split; [exact Hin|].
    subst neighbor. destruct (Bond.atomA bond =? current)%nat; cbn; auto. }
  pose proof (filter_check_lt neighbor checkedAtoms (endpoints bonds) Hend Hn).
  unfold unchecked. cbn [List.length]. lia.
Qed.

Lemma visitBonds_measure (store : list Atom.t) (bonds bs : list Bond.t)
    (current : nat) (acc : list nat * list nat) :
  (forall bond, In bond bs -> In bond bonds) ->
  (List.length (snd (fold_left (visitBond store current) bs acc))
   + unchecked bonds (fst (fold_left (visitBond store current) bs acc))
   <= List.length (snd acc) + unchecked bonds (fst acc))%nat.
Proof.
  revert acc. induction bs as [|bond bs IH]; intros acc Hsub; cbn; [lia|].
  eapply Nat.le_trans; [apply IH; intros; apply Hsub; now right|].
  destruct acc as [checkedAtoms toVisit].
  apply visitBond_measure. apply Hsub. now left.
Qed.

(** With fuel for the measure, more fuel changes nothing: the loop has ended
    with an empty stack. *)
Lemma traverse_fuel_enough (store : list Atom.t) (bonds : list Bond.t)
    (fuel extra : nat) (toVisit checkedAtoms connectedComponent : list nat) :
  (List.length toVisit + unchecked bonds checkedAtoms <= fuel)%nat ->
  traverse (fuel + extra) store bonds toVisit checkedAtoms connectedComponent
  = traverse fuel store bonds toVisit checkedAtoms connectedComponent.
Proof.
  revert toVisit checkedAtoms connectedComponent.
  induction fuel as [|fuel IH]; intros toVisit checkedAtoms component H.
  - destruct toVisit; [|cbn in H; lia]. destruct extra; reflexivity.
  - cbn [Nat.add traverse]. destruct toVisit as [|current rest]; [reflexivity|].
    pose proof (visitBonds_measure store bonds (connectedBonds bonds current)
                  current (checkedAtoms, rest)) as M.
    destruct (fold_left (visitBond store current) (connectedBonds bonds current)
                (checkedAtoms, rest)) as [checkedAtoms' toVisit'].
    cbn [fst snd] in M. apply IH.
    assert (forall bond, In bond (connectedBonds bonds current) -> In bond bonds)
      by (intros bond Hb; unfold connectedBonds in Hb;
          now apply filter_In in Hb).
    specialize (M H0). cbn [List.length] in H. lia.
Qed.

(** X6.  The fuel that [identifyMolecules] gives the component search is
    enough: the search ends with an empty stack, more fuel changes nothing. *)
Theorem traverseFuel_enough (store : list Atom.t) (bonds : list Bond.t)
    (atom extra : nat) (checkedAtoms : list nat) :
  traverse (traverseFuel bonds + extra) store bonds [atom] (atom :: checkedAtoms) []
  = traverse (traverseFuel bonds) store bonds [atom] (atom :: checkedAtoms) [].
Proof.
  apply traverse_fuel_enough. unfold traverseFuel. cbn [List.length].
  pose proof (unchecked_le bonds (atom :: checkedAtoms)). lia.
Qed.

(** *** The molecule id is a function of the atom set *)

(** X7.  The molecule id does not depend on the order in which the search
    lists the atoms of the component. *)
Theorem moleculeIdOf_permutation (component component' : list nat) :
  Permutation component component' ->
  moleculeIdOf component = moleculeIdOf component'.
Proof.
  intros P. unfold moleculeIdOf.
  now rewrite (JSProps.sortDefault_permutation _ _ P).
Qed.

Lemma moleculeIdOf_permutation_witness :
  Permutation [2; 10]%nat [10; 2]%nat
  /\ moleculeIdOf [2; 10]%nat = moleculeIdOf [10; 2]%nat.
Proof.
  assert (P : Permutation [2; 10]%nat [10; 2]%nat) by apply perm_swap.
  split; [exact P|].
  exact (moleculeIdOf_permutation [2; 10]%nat [10; 2]%nat P).
Defined.

End SharedProps.

(** ** The chemistry engine *)

Module EngineProps.
Import Engine.
Import Examples.

Lemma getCurrentBondCount_zero (atom : Atom.t) : getCurrentBondCount atom = 0%nat.
Proof. reflexivity. Qed.

(** An atom whose element is not in the catalog bonds with nothing,
    whatever the energy. *)
Theorem canFormBond_unknown_element (atomA atomB : Atom.t) (systemEnergy : Q) :
  get (Atom.protons atomA) = None \/ get (Atom.protons atomB) = None ->
  canFormBond atomA atomB systemEnergy = false.
Proof.
  unfold canFormBond. intros [H | H]; rewrite H.
  - reflexivity.
  - now destruct (get (Atom.protons atomA)).
Qed.

Lemma canFormBond_unknown_element_witness :
  (get (Atom.protons unknownAtom) = None \/ get (Atom.protons hydrogen) = None)
  /\ canFormBond unknownAtom hydrogen 1000 = false.
Proof.
  assert (H : get (Atom.protons unknownAtom) = None
              \/ get (Atom.protons hydrogen) = None) by (left; reflexivity).
  split; [exact H|].
  exact (canFormBond_unknown_element unknownAtom hydrogen 1000 H).
Defined.

(** *** Facts of the catalog *)

Lemma lookup_In {V : Type} (k : nat) (m : list (nat * V)) (v : V) :
  lookup k m = Some v -> In (k, v) m.
Proof.
  induction m as [|[k' v'] m IH]; cbn; [discriminate|].
  destruct (k =? k')%nat eqn:E.
  - apply Nat.eqb_eq in E. intros [= ->]. left. now subst.
  - intros H. right. now apply IH.
Qed.



(** A test that holds of every pair of entries of the catalog holds of every
    two elements the catalog returns. *)
Lemma catalog_pairs (test : ChemicalElement -> ChemicalElement -> bool) :
  forallb (fun entryA =>
             forallb (fun entryB => test (snd entryA) (snd entryB))
               CHEMICAL_ELEMENTS) CHEMICAL_ELEMENTS = true ->
  forall protonsA elementA protonsB elementB,
    get protonsA = Some elementA -> get protonsB = Some elementB ->
    test elementA elementB = true.
Proof.
  intros H protonsA elementA protonsB elementB HA HB.
  apply lookup_In in HA, HB. rewrite forallb_forall in H.
  specialize (H _ HA). rewrite forallb_forall in H. exact (H _ HB).
Qed.

(** *** The activation energy, as the doubles give it *)

Lemma calculateActivationEnergy_known
    (atomA atomB : Atom.t) (elementA elementB : ChemicalElement) :
  get (Atom.protons atomA) = Some elementA ->
  get (Atom.protons atomB) = Some elementB ->
  calculateActivationEnergy atomA atomB
  = JS.Finite (doubleActivationEnergyOf elementA elementB).
Proof.
  intros HA HB. unfold calculateActivationEnergy, doubleActivationEnergyOf.
  rewrite HA, HB. cbv zeta. reflexivity.
Qed.

Lemma double_one : JS.double 1 == 1.
Proof. vm_compute. reflexivity. Qed.

Lemma doubleActivationEnergyOf_floor (elementA elementB : ChemicalElement) :
  1 <= doubleActivationEnergyOf elementA elementB.
Proof.
  unfold doubleActivationEnergyOf, JS.max.
  eapply Qle_trans; [|apply Q.le_max_r]. rewrite double_one. apply Qle_refl.
Qed.

Lemma doubleActivationEnergyOf_symmetric
    (protonsA protonsB : nat) (elementA elementB : ChemicalElement) :
  get protonsA = Some elementA -> get protonsB = Some elementB ->
  doubleActivationEnergyOf elementA elementB
  == doubleActivationEnergyOf elementB elementA.
Proof.
  intros HA HB. apply Qeq_bool_iff.
  refine (catalog_pairs
            (fun a b => Qeq_bool (doubleActivationEnergyOf a b)
                          (doubleActivationEnergyOf b a))
            _ protonsA elementA protonsB elementB HA HB).
  vm_compute. reflexivity.
Qed.

(** No two elements that can bond need more than 1.74: the pair of
    fluorine atoms needs the double nearest to 1.74, which lies below it. *)
Lemma doubleActivationEnergyOf_at_most
    (protonsA protonsB : nat) (elementA elementB : ChemicalElement) :
  get protonsA = Some elementA -> get protonsB = Some elementB ->
  maxBonds elementA <> 0%nat -> maxBonds elementB <> 0%nat ->
  doubleActivationEnergyOf elementA elementB <= 1.74.
Proof.
  intros HA HB MA MB.
  assert (H : (maxBonds elementA =? 0)%nat || (maxBonds elementB =? 0)%nat
              || Qle_bool (doubleActivationEnergyOf elementA elementB) 1.74
              = true).
  { refine (catalog_pairs
              (fun a b => (maxBonds a =? 0)%nat || (maxBonds b =? 0)%nat
                          || Qle_bool (doubleActivationEnergyOf a b) 1.74)
              _ protonsA elementA protonsB elementB HA HB).
    vm_compute. reflexivity. }
  apply Nat.eqb_neq in MA, MB. rewrite MA, MB, !orb_false_l in H.
  apply Qle_bool_iff. exact H.
Qed.

(** For two elements of the catalog [canFormBond] holds exactly when neither
    has zero max-bonds and the system energy reaches the activation energy:
    the bond-count test between the two never fails, since
    [getCurrentBondCount] is the constant 0. *)
Lemma canFormBond_known
    (atomA atomB : Atom.t) (elementA elementB : ChemicalElement)
    (systemEnergy : Q) :
  get (Atom.protons atomA) = Some elementA ->
  get (Atom.protons atomB) = Some elementB ->
  (canFormBond atomA atomB systemEnergy = true <->
   maxBonds elementA <> 0%nat /\ maxBonds elementB <> 0%nat
   /\ doubleActivationEnergyOf elementA elementB <= systemEnergy).
Proof.
  intros HA HB. unfold canFormBond.
  rewrite (calculateActivationEnergy_known _ _ _ _ HA HB), HA, HB.
  cbn [JS.geb]. unfold getCurrentBondCount.
  destruct (Nat.eqb_spec (maxBonds elementA) 0) as [EA | EA];
    destruct (Nat.eqb_spec (maxBonds elementB) 0) as [EB | EB]; cbn [orb];
    try (split; [discriminate | intros (? & ? & _); contradiction]).
  destruct (Nat.leb_spec (maxBonds elementA) 0) as [LA | LA]; [lia|].
  destruct (Nat.leb_spec (maxBonds elementB) 0) as [LB | LB]; [lia|].
  cbn [orb]. rewrite Qle_bool_iff. intuition.
Qed.

(** The doubles differ from the exact expression: for two nitrogen atoms
    14.5 x 1 x 0.1 is 1.45 exactly and 1.4500000000000002 in doubles, so a
    system energy of 1.45 is refused. *)
Lemma nitrogen_pair_rounds_up :
  exists nitrogen,
    get 7 = Some nitrogen
    /\ activationEnergyOf nitrogen nitrogen == 1.45
    /\ doubleActivationEnergyOf nitrogen nitrogen
       = 1632554864921805 # 1125899906842624
    /\ canFormBond (Atom.mk 0 7 7 7 false) (Atom.mk 1 7 7 7 false) 1.45 = false
    /\ canFormBond (Atom.mk 0 7 7 7 false) (Atom.mk 1 7 7 7 false)
         (JS.double 1.46) = true.
Proof.
  eexists. split; [reflexivity|]. repeat split; vm_compute; reflexivity.
Qed.

(** C10.  [canFormBond] is monotone in the system energy. *)
Theorem canFormBond_monotone (atomA atomB : Atom.t) (E E' : Q) :
  E <= E' ->
  canFormBond atomA atomB E = true ->
  canFormBond atomA atomB E' = true.
Proof.
  intros HE. unfold canFormBond.
  destruct (get (Atom.protons atomA)) as [elementA|]; [|discriminate].
  destruct (get (Atom.protons atomB)) as [elementB|]; [|discriminate].
  destruct ((maxBonds elementA =? 0)%nat || (maxBonds elementB =? 0)%nat);
    [discriminate|].
  destruct ((maxBonds elementA <=? getCurrentBondCount atomA)%nat
            || (maxBonds elementB <=? getCurrentBondCount atomB)%nat);
    [discriminate|].
  destruct (calculateActivationEnergy atomA atomB) as [activationEnergy|];
    cbn [JS.geb]; [|discriminate].
  rewrite !Qle_bool_iff. intros H. now apply Qle_trans with E.
Qed.

Lemma canFormBond_monotone_witness :
  5 <= 8 /\ canFormBond hydrogen oxygen 5 = true
  /\ canFormBond hydrogen oxygen 8 = true.
Proof.
  assert (H58 : 5 <= 8) by (unfold Qle; simpl; lia).
  assert (H5 : canFormBond hydrogen oxygen 5 = true) by reflexivity.
  split; [exact H58|]. split; [exact H5|].
  exact (canFormBond_monotone hydrogen oxygen 5 8 H58 H5).
Defined.

Lemma vseprLookup_cases (totalPairs lonePairs : Q) :
  vseprLookup totalPairs lonePairs =
    let eqn (x n : Q) := Qeq_bool x n in
    if eqn totalPairs 2 then "linear"
    else if eqn totalPairs 3 then
      (if eqn lonePairs 0 then "trigonal_planar" else "bent")
    else if eqn totalPairs 4 then
      (if eqn lonePairs 0 then "tetrahedral"
       else if eqn lonePairs 1 then "trigonal_pyramidal"
       else if eqn lonePairs 2 then "bent"
       else "complex")
    else if eqn totalPairs 5 then
      (if eqn lonePairs 0 then "trigonal_bipyramidal"
       else if eqn lonePairs 1 then "seesaw"
       else if eqn lonePairs 2 then "T_shaped"
       else if eqn lonePairs 3 then "linear"
       else "complex")
    else if eqn totalPairs 6 then
      (if eqn lonePairs 0 then "octahedral"
       else if eqn lonePairs 1 then "square_pyramidal"
       else if eqn lonePairs 2 then "square_planar"
       else "complex")
    else "complex".
Proof.
  unfold vseprLookup, vseprTable. cbv zeta. cbn [vseprFind].
  repeat (match goal with
          | |- context [Qeq_bool totalPairs ?n] =>
              destruct (Qeq_bool totalPairs n); cbn [vseprRow]
          end);
    reflexivity.
Qed.

(** C8, as the code has it.  With a central atom of the catalog,
    [determineGeometry] answers [atomic] for a single atom and [linear] for two
    atoms without counting pairs; for any other number of atoms it computes
    lonePairs = max(0, (valenceElectrons - 2 x bondsAtCenter) / 2) and
    totalPairs = bondsAtCenter + lonePairs and returns the entry of the VSEPR
    table for (totalPairs, lonePairs), [complex] when there is none. *)
Theorem determineGeometry_vsepr
    (atoms : list Atom.t) (bonds : list BondingPair.t)
    (centralAtom : Atom.t) (element : ChemicalElement) :
  get (Atom.protons centralAtom) = Some element ->
  determineGeometry atoms bonds (Some centralAtom)
  = Some (if (List.length atoms =? 1)%nat then "atomic"
          else if (List.length atoms =? 2)%nat then "linear"
          else
            let lonePairs :=
              lonePairsOf element (bondsAtCenter bonds centralAtom) in
            let totalPairs := bondsAtCenter bonds centralAtom + lonePairs in
            vseprLookup totalPairs lonePairs).
Proof.
  intros Hel. unfold determineGeometry.
  destruct (List.length atoms =? 1)%nat; [reflexivity|].
  destruct (List.length atoms =? 2)%nat; [reflexivity|].
  rewrite Hel. cbv zeta. rewrite vseprLookup_cases. reflexivity.
Qed.

Lemma determineGeometry_vsepr_witness :
  exists element,
    get (Atom.protons oxygen) = Some element
    /\ determineGeometry [oxygen; hydrogen; hydrogen'] [] (Some oxygen)
       = Some (if (List.length [oxygen; hydrogen; hydrogen'] =? 1)%nat then "atomic"
               else if (List.length [oxygen; hydrogen; hydrogen'] =? 2)%nat
               then "linear"
               else
                 let lonePairs := lonePairsOf element (bondsAtCenter [] oxygen) in
                 let totalPairs := bondsAtCenter [] oxygen + lonePairs in
                 vseprLookup totalPairs lonePairs).
Proof.
  eexists. split; [reflexivity|].
  apply (determineGeometry_vsepr [oxygen; hydrogen; hydrogen'] [] oxygen).
  reflexivity.
Defined.

(** C8 as stated fails on two atoms: for the hydrogen molecule (one bond at
    the central hydrogen, no lone pair, so one electron pair) the table has no
    entry, which the claim maps to [complex]; [determineGeometry] answers
    [linear]. *)
Lemma determineGeometry_diatomic_skips_table :
  exists element,
    get (Atom.protons hydrogen) = Some element
    /\ determineGeometry [hydrogen; hydrogen'] (possibleBonds [hydrogen; hydrogen'])
         (Some hydrogen) = Some "linear"
    /\ bondsAtCenter (possibleBonds [hydrogen; hydrogen']) hydrogen == 1
    /\ lonePairsOf element (bondsAtCenter (possibleBonds [hydrogen; hydrogen']) hydrogen)
       == 0
    /\ vseprLookup
         (bondsAtCenter (possibleBonds [hydrogen; hydrogen']) hydrogen
          + lonePairsOf element
              (bondsAtCenter (possibleBonds [hydrogen; hydrogen']) hydrogen))
         (lonePairsOf element
            (bondsAtCenter (possibleBonds [hydrogen; hydrogen']) hydrogen))
       = "complex".
Proof.
  eexists. split; [reflexivity|]. repeat split; reflexivity.
Qed.

(** *** Order of the pair and the least energy *)

(** X1.  The bond test does not depend on the order in which the two atoms are
    given: the activation energy averages the ionization energies and takes
    the absolute electronegativity difference. *)
Theorem canFormBond_symmetric (atomA atomB : Atom.t) (systemEnergy : Q) :
  canFormBond atomA atomB systemEnergy = canFormBond atomB atomA systemEnergy.
Proof.
  unfold canFormBond, getCurrentBondCount.
  destruct (get (Atom.protons atomA)) as [elementA|] eqn:HA,
           (get (Atom.protons atomB)) as [elementB|] eqn:HB; try reflexivity.
  rewrite (calculateActivationEnergy_known _ _ _ _ HA HB),
          (calculateActivationEnergy_known _ _ _ _ HB HA).
  rewrite (orb_comm (maxBonds elementA =? 0)%nat).
  destruct (_ || _); [reflexivity|].
  rewrite (orb_comm (maxBonds elementA <=? 0)%nat).
  destruct (_ || _); [reflexivity|].
  cbn [JS.geb]. apply eq_true_iff_eq. rewrite !Qle_bool_iff.
  now rewrite (doubleActivationEnergyOf_symmetric _ _ _ _ HA HB).
Qed.

(** X2.  The activation energy is floored at 1: below one unit of system energy no
    pair passes the bond test. *)
Theorem canFormBond_below_unit_energy
    (atomA atomB : Atom.t) (systemEnergy : Q) :
  systemEnergy < 1 -> canFormBond atomA atomB systemEnergy = false.
Proof.
  intros H. unfold canFormBond.
  destruct (get (Atom.protons atomA)) as [elementA|] eqn:HA,
           (get (Atom.protons atomB)) as [elementB|] eqn:HB; try reflexivity.
  rewrite (calculateActivationEnergy_known _ _ _ _ HA HB).
  destruct (_ || _); [reflexivity|].
  destruct (_ || _); [reflexivity|].
  cbn [JS.geb]. apply not_true_is_false. rewrite Qle_bool_iff. intros Hle.
  pose proof (doubleActivationEnergyOf_floor elementA elementB). lra.
Qed.

(** X3.  With at least 1.74 units of system energy the energy test always
    passes: the bond test holds exactly when both elements are in the catalog
    and neither has zero max-bonds. *)
Theorem canFormBond_with_ample_energy
    (atomA atomB : Atom.t) (systemEnergy : Q) :
  1.74 <= systemEnergy ->
  (canFormBond atomA atomB systemEnergy = true <->
   exists elementA elementB,
     get (Atom.protons atomA) = Some elementA
     /\ get (Atom.protons atomB) = Some elementB
     /\ maxBonds elementA <> 0%nat /\ maxBonds elementB <> 0%nat).
Proof.
  intros HE. split.
  - unfold canFormBond.
    destruct (get (Atom.protons atomA)) as [elementA|]; [|discriminate].
    destruct (get (Atom.protons atomB)) as [elementB|]; [|discriminate].
    destruct (maxBonds elementA =? 0)%nat eqn:EA; [discriminate|].
    destruct (maxBonds elementB =? 0)%nat eqn:EB; [discriminate|].
    intros _. exists elementA, elementB.
    apply Nat.eqb_neq in EA, EB. auto.
  - intros (elementA & elementB & HA & HB & MA & MB).
    apply (canFormBond_known _ _ _ _ _ HA HB).
    split; [exact MA|]. split; [exact MB|].
    apply Qle_trans with 1.74; [|exact HE].
    exact (doubleActivationEnergyOf_at_most _ _ _ _ HA HB MA MB).
Qed.

Lemma canFormBond_with_ample_energy_witness :
  1.74 <= 15
  /\ (canFormBond hydrogen oxygen 15 = true <->
      exists elementA elementB,
        get (Atom.protons hydrogen) = Some elementA
        /\ get (Atom.protons oxygen) = Some elementB
        /\ maxBonds elementA <> 0%nat /\ maxBonds elementB <> 0%nat).
Proof.
  assert (H : 1.74 <= 15) by discriminate.
  split; [exact H|].
  exact (canFormBond_with_ample_energy hydrogen oxygen 15 H).
Defined.

(** *** The central atom *)

Lemma betterCentral_cases (best current : Atom.t) :
  betterCentral best current = best \/ betterCentral best current = current.
Proof.
  unfold betterCentral.
  destruct (get (Atom.protons current)), (get (Atom.protons best)); auto.
  destruct (Qle_bool _ _); auto.
Qed.

Lemma fold_betterCentral_in (rest : list Atom.t) (first : Atom.t) :
  In (fold_left betterCentral rest first) (first :: rest).
Proof.
  revert first. induction rest as [|a rest IH]; intros first; cbn; [auto|].
  destruct (IH (betterCentral first a)) as [H | H].
  - rewrite <- H. destruct (betterCentral_cases first a) as [-> | ->]; auto.
  - auto.
Qed.

Lemma betterCentral_score (best current : Atom.t)
    (bestElement currentElement : ChemicalElement) :
  get (Atom.protons best) = Some bestElement ->
  get (Atom.protons current) = Some currentElement ->
  exists element,
    get (Atom.protons (betterCentral best current)) = Some element
    /\ centralScore bestElement <= centralScore element
    /\ centralScore currentElement <= centralScore element.
Proof.
  intros HB HC. unfold betterCentral. rewrite HB, HC.
  fold (centralScore currentElement). fold (centralScore bestElement).
  destruct (Qle_bool (centralScore currentElement) (centralScore bestElement))
    eqn:E.
  - apply Qle_bool_iff in E. exists bestElement. split; [exact HB|].
    split; [apply Qle_refl | exact E].
  - exists currentElement. split; [exact HC|]. split; [|apply Qle_refl].
    destruct (Qlt_le_dec (centralScore bestElement) (centralScore currentElement))
      as [L | L]; [now apply Qlt_le_weak|].
    apply Qle_bool_iff in L. congruence.
Qed.

Lemma fold_betterCentral_score (rest : list Atom.t) (first : Atom.t)
    (firstElement : ChemicalElement) :
  get (Atom.protons first) = Some firstElement ->
  Forall (fun a => get (Atom.protons a) <> None) rest ->
  exists element,
    get (Atom.protons (fold_left betterCentral rest first)) = Some element
    /\ centralScore firstElement <= centralScore element
    /\ forall a e, In a rest -> get (Atom.protons a) = Some e ->
                   centralScore e <= centralScore element.
Proof.
  revert first firstElement.
  induction rest as [|a rest IH]; intros first firstElement HF Hall;
    cbn [fold_left].
  - exists firstElement. split; [exact HF|]. split; [apply Qle_refl|].
    intros ? ? [].
  - inversion Hall as [|? ? Ha Hrest]; subst.
    destruct (get (Atom.protons a)) as [e|] eqn:Ea; [|congruence].
    destruct (betterCentral_score first a firstElement e HF Ea)
      as (e1 & H1 & L1 & L2).
    destruct (IH _ e1 H1 Hrest) as (element & HE & L3 & L4).
    exists element. split; [exact HE|]. split; [now apply Qle_trans with (centralScore e1)|].
    intros a' e' [<- | Hin] He'.
    + assert (e' = e) as -> by congruence.
      now apply Qle_trans with (centralScore e1).
    + exact (L4 a' e' Hin He').
Qed.

(** X5.  [findOptimalCentralAtom] fails only on the empty list, returns one of
    the atoms it is given, and, when every atom's element is in the catalog,
    no atom has a higher score (max-bonds minus electronegativity) than the
    one it returns. *)
Theorem findOptimalCentralAtom_optimal (atoms : list Atom.t) :
  (findOptimalCentralAtom atoms = None <-> atoms = [])
  /\ forall centralAtom,
       findOptimalCentralAtom atoms = Some centralAtom ->
       In centralAtom atoms
       /\ (Forall (fun a => get (Atom.protons a) <> None) atoms ->
           exists element,
             get (Atom.protons centralAtom) = Some element
             /\ forall a e, In a atoms -> get (Atom.protons a) = Some e ->
                            centralScore e <= centralScore element).
Proof.
  destruct atoms as [|first rest]; unfold findOptimalCentralAtom.
  - split; [tauto|]. discriminate.
  - split; [split; discriminate|].
    intros centralAtom [= <-]. split; [apply fold_betterCentral_in|].
    intros Hall. inversion Hall as [|? ? Hf Hrest]; subst.
    destruct (get (Atom.protons first)) as [firstElement|] eqn:Ef; [|congruence].
    destruct (fold_betterCentral_score rest first firstElement Ef Hrest)
      as (element & HE & L1 & L2).
    exists element. split; [exact HE|].
    intros a e [<- | Hin] He.
    + assert (e = firstElement) as -> by congruence. exact L1.
    + exact (L2 a e Hin He).
Qed.

(** *** The greedy bond selection *)












(** *** The geometry tag *)

(** X11.  [determineGeometry] fails only when it is given no atoms and no
    central atom, and every string it returns is one of the fourteen tags. *)
Theorem determineGeometry_total
    (atoms : list Atom.t) (bonds : list BondingPair.t)
    (centralAtom : option Atom.t) :
  (determineGeometry atoms bonds centralAtom = None
   <-> atoms = [] /\ centralAtom = None)
  /\ forall tag,
       determineGeometry atoms bonds centralAtom = Some tag ->
       In tag GEOMETRY_TAGS.
Proof.
  unfold determineGeometry.
  destruct (List.length atoms =? 1)%nat eqn:E1.
  { apply Nat.eqb_eq in E1. split.
    - split; [discriminate|]. intros [-> _]. discriminate.
    - intros tag [= <-]. cbn. auto. }
  destruct (List.length atoms =? 2)%nat eqn:E2.
  { apply Nat.eqb_eq in E2. split.
    - split; [discriminate|]. intros [-> _]. discriminate.
    - intros tag [= <-]. cbn. auto. }
  assert (HC : match centralAtom with
               | Some c => Some c
               | None => findOptimalCentralAtom atoms
               end = None <-> atoms = [] /\ centralAtom = None).
  { destruct centralAtom as [c|].
    - split; [discriminate | intros [_ H]; discriminate].
    - destruct atoms; cbn; split; try discriminate; try tauto.
      intros [H _]. discriminate. }
  destruct (match centralAtom with
            | Some c => Some c
            | None => findOptimalCentralAtom atoms
            end) as [c|].
  - split.
    + split; [|intros H; apply HC in H; discriminate].
      destruct (get (Atom.protons c)); discriminate.
    + intros tag. destruct (get (Atom.protons c)) as [element|].
      * repeat match goal with
               | |- context [Qeq_bool ?a ?b] => destruct (Qeq_bool a b)
               end;
          intros [= <-]; cbn; tauto.
      * intros [= <-]. cbn. tauto.
  - split; [|discriminate]. split; [intros _; now apply HC | reflexivity].
Qed.

Lemma canFormBond_below_unit_energy_witness :
  0.5 < 1 /\ canFormBond hydrogen hydrogen' 0.5 = false.
Proof.
  assert (H : 0.5 < 1) by reflexivity.
  split; [exact H|].
  exact (canFormBond_below_unit_energy hydrogen hydrogen' 0.5 H).
Defined.

End EngineProps.

(** ** Names depend on the composition only *)

Module CompositionProps.
Import Engine.
Import Examples.

Lemma lookup_setCount_same (k n : nat) (m : list (nat * nat)) :
  lookup k (setCount k n m) = Some n.
Proof.
  induction m as [|[k' v] m IH]; cbn.
  - now rewrite Nat.eqb_refl.
  - destruct (k =? k')%nat eqn:E; cbn; rewrite E; [reflexivity | exact IH].
Qed.

Lemma lookup_setCount_other (k k' n : nat) (m : list (nat * nat)) :
  k <> k' -> lookup k' (setCount k n m) = lookup k' m.
Proof.
  intros Hne. induction m as [|[k0 v] m IH]; cbn.
  - assert (E : (k' =? k)%nat = false) by (apply Nat.eqb_neq; congruence).
    now rewrite E.
  - destruct (k =? k0)%nat eqn:E; cbn.
    + apply Nat.eqb_eq in E. subst k0.
      assert (E' : (k' =? k)%nat = false) by (apply Nat.eqb_neq; congruence).
      now rewrite E'.
    + destruct (k' =? k0)%nat; [reflexivity | exact IH].
Qed.

Lemma key_of_setCount (k n k' : nat) (m : list (nat * nat)) :
  In k' (map fst (setCount k n m)) -> k' = k \/ In k' (map fst m).
Proof.
  induction m as [|[k0 v] m IH]; cbn.
  - intros [<- | []]. now left.
  - destruct (k =? k0)%nat; cbn; [tauto|].
    intros [<- | H]; [tauto|]. destruct (IH H); tauto.
Qed.

Lemma keys_setCount (k n : nat) (m : list (nat * nat)) :
  NoDup (map fst m) -> NoDup (map fst (setCount k n m)).
Proof.
  induction m as [|[k' v] m IH]; cbn; intros Hnd.
  - repeat constructor. intros [].
  - inversion Hnd as [|? ? Hn Hm]; subst.
    destruct (k =? k')%nat eqn:E; cbn; [exact Hnd|].
    constructor; [|now apply IH].
    intros Hin. apply key_of_setCount in Hin as [-> | Hin]; [|now apply Hn].
    now rewrite Nat.eqb_refl in E.
Qed.

Lemma keys_compositionOf (atoms : list Atom.t) :
  NoDup (map fst (compositionOf atoms)).
Proof.
  unfold compositionOf.
  assert (H : forall m, NoDup (map fst m) ->
              NoDup (map fst (fold_left (fun m atom => bump (Atom.protons atom) m)
                                atoms m))).
  { induction atoms as [|a atoms IH]; intros m Hm; cbn; [exact Hm|].
    apply IH. now apply keys_setCount. }
  apply H. constructor.
Qed.

Lemma lookup_bump (k protons : nat) (m : list (nat * nat)) :
  lookup k (bump protons m)
  = if (k =? protons)%nat then Some (countOf protons m + 1)%nat else lookup k m.
Proof.
  unfold bump. destruct (k =? protons)%nat eqn:E.
  - apply Nat.eqb_eq in E. subst. apply lookup_setCount_same.
  - apply lookup_setCount_other. apply Nat.eqb_neq in E. congruence.
Qed.

(** The entry of an element in the composition is the number of its atoms. *)
Lemma lookup_fold_bump (k : nat) (atoms : list Atom.t) (m : list (nat * nat)) :
  lookup k (fold_left (fun m atom => bump (Atom.protons atom) m) atoms m)
  = match count_occ Nat.eq_dec (map Atom.protons atoms) k with
    | O => lookup k m
    | S c => Some (countOf k m + S c)%nat
    end.
Proof.
  revert m. induction atoms as [|a atoms IH]; intros m; cbn [fold_left map];
    [reflexivity|].
  rewrite IH. cbn [count_occ]. unfold countOf. rewrite !lookup_bump.
  destruct (Nat.eq_dec (Atom.protons a) k) as [E | E].
  - subst k. rewrite Nat.eqb_refl.
    destruct (count_occ _ _ _); [reflexivity|]. f_equal. unfold countOf. lia.
  - assert (E' : (k =? Atom.protons a)%nat = false)
      by (apply Nat.eqb_neq; congruence).
    now rewrite E'.
Qed.

Lemma countOf_compositionOf (atoms : list Atom.t) (k : nat) :
  countOf k (compositionOf atoms)
  = count_occ Nat.eq_dec (map Atom.protons atoms) k.
Proof.
  unfold countOf at 1, compositionOf. rewrite lookup_fold_bump.
  now destruct (count_occ Nat.eq_dec (map Atom.protons atoms) k).
Qed.

Lemma lookup_compositionOf_permutation (atoms atoms' : list Atom.t) (k : nat) :
  Permutation atoms atoms' ->
  lookup k (compositionOf atoms) = lookup k (compositionOf atoms').
Proof.
  intros P. unfold compositionOf. rewrite !lookup_fold_bump.
  assert (E : count_occ Nat.eq_dec (map Atom.protons atoms) k
              = count_occ Nat.eq_dec (map Atom.protons atoms') k).
  { apply Permutation_count_occ. now apply Permutation_map. }
  now rewrite E.
Qed.

Lemma In_lookup {V : Type} (k : nat) (v : V) (m : list (nat * V)) :
  NoDup (map fst m) -> In (k, v) m -> lookup k m = Some v.
Proof.
  induction m as [|[k' v'] m IH]; cbn; [tauto|].
  intros Hnd Hin. inversion Hnd as [|? ? Hn Hm]; subst.
  destruct Hin as [[= -> ->] | Hin].
  - now rewrite Nat.eqb_refl.
  - destruct (k =? k')%nat eqn:E; [|now apply IH].
    apply Nat.eqb_eq in E. subst k'. exfalso. apply Hn.
    apply in_map_iff. now exists (k, v).
Qed.

(** Two maps with the same entries list them in some order. *)
Lemma same_lookup_permutation {V : Type} (m1 m2 : list (nat * V)) :
  NoDup (map fst m1) -> NoDup (map fst m2) ->
  (forall k, lookup k m1 = lookup k m2) -> Permutation m1 m2.
Proof.
  intros H1 H2 Heq. apply NoDup_Permutation.
  - now apply NoDup_map_inv in H1.
  - now apply NoDup_map_inv in H2.
  - intros [k v]. split; intros Hin.
    + apply EngineProps.lookup_In. rewrite <- Heq. now apply In_lookup.
    + apply EngineProps.lookup_In. rewrite Heq. now apply In_lookup.
Qed.

Lemma compositionOf_permutation (atoms atoms' : list Atom.t) :
  Permutation atoms atoms' ->
  Permutation (compositionOf atoms) (compositionOf atoms').
Proof.
  intros P. apply same_lookup_permutation; try apply keys_compositionOf.
  intros k. now apply lookup_compositionOf_permutation.
Qed.

Lemma countOf_compositionOf_permutation (atoms atoms' : list Atom.t) (k : nat) :
  Permutation atoms atoms' ->
  countOf k (compositionOf atoms) = countOf k (compositionOf atoms').
Proof.
  intros P. unfold countOf. now rewrite (lookup_compositionOf_permutation _ _ k P).
Qed.

(** The entries sorted by atomic number: one order for one composition. *)
Lemma sorted_composition_permutation (atoms atoms' : list Atom.t) :
  Permutation atoms atoms' ->
  JS.sortBy (fun a b : nat * nat => Nat.leb (fst a) (fst b)) (compositionOf atoms)
  = JS.sortBy (fun a b : nat * nat => Nat.leb (fst a) (fst b)) (compositionOf atoms').
Proof.
  intros P. apply JSProps.sortBy_permutation_on.
  - intros x y. rewrite !Nat.leb_le. lia.
  - intros x y z. rewrite !Nat.leb_le. lia.
  - intros [k v] [k' v'] Hx Hy. cbn [fst]. rewrite !Nat.leb_le. intros L1 L2.
    assert (k = k') as <- by lia.
    pose proof (In_lookup _ _ _ (keys_compositionOf atoms) Hx).
    pose proof (In_lookup _ _ _ (keys_compositionOf atoms) Hy).
    congruence.
  - now apply compositionOf_permutation.
Qed.

(** *** The systematic name *)

Lemma no_shared_electronegativity :
  forallb (fun x => forallb (fun y => negb (sharesElectronegativity x y))
                      CHEMICAL_ELEMENTS) CHEMICAL_ELEMENTS = true.
Proof. vm_compute. reflexivity. Qed.

Lemma electronegativity_identifies (protons protons' : nat)
    (element element' : ChemicalElement) :
  get protons = Some element -> get protons' = Some element' ->
  maxBonds element <> 0%nat -> maxBonds element' <> 0%nat ->
  electronegativity element == electronegativity element' ->
  protons = protons'.
Proof.
  intros H H' M M' E.
  apply EngineProps.lookup_In in H, H'.
  pose proof no_shared_electronegativity as C.
  rewrite forallb_forall in C. specialize (C _ H).
  rewrite forallb_forall in C. specialize (C _ H').
  unfold sharesElectronegativity in C. cbn [fst snd] in C.
  apply Nat.eqb_neq in M, M'. apply Qeq_bool_iff in E.
  rewrite M, M', E in C. cbn in C.
  destruct (protons =? protons')%nat eqn:EP; [|discriminate].
  now apply Nat.eqb_eq in EP.
Qed.

Lemma key_of_compositionOf (atoms : list Atom.t) (k n : nat) :
  In (k, n) (compositionOf atoms) ->
  exists atom, In atom atoms /\ Atom.protons atom = k.
Proof.
  intros Hin. apply (In_lookup _ _ _ (keys_compositionOf atoms)) in Hin.
  unfold compositionOf in Hin. rewrite lookup_fold_bump in Hin.
  destruct (count_occ Nat.eq_dec (map Atom.protons atoms) k) eqn:E;
    [discriminate|].
  assert (Hk : In k (map Atom.protons atoms)).
  { apply (count_occ_In Nat.eq_dec). lia. }
  apply in_map_iff in Hk as (atom & <- & Ha). now exists atom.
Qed.

(** X12.  The systematic name of a group of atoms depends only on how many
    atoms of each element it holds, as long as no atom is a noble gas (the
    elements of zero max-bonds, which the catalog gives one and the same
    electronegativity). *)
Theorem generateSystematicName_permutation (atoms atoms' : list Atom.t) :
  Forall (fun atom => forall element,
            get (Atom.protons atom) = Some element -> maxBonds element <> 0%nat)
    atoms ->
  Permutation atoms atoms' ->
  generateSystematicName atoms = generateSystematicName atoms'.
Proof.
  intros Hbond P. unfold generateSystematicName.
  set (known := fun entry : nat * nat =>
                  match get (fst entry) with
                  | Some element => [(element, snd entry)]
                  | None => []
                  end).
  assert (E : JS.sortBy (fun a b : ChemicalElement * nat =>
                           Qle_bool (electronegativity (fst a))
                                    (electronegativity (fst b)))
                (flat_map known (compositionOf atoms))
              = JS.sortBy (fun a b : ChemicalElement * nat =>
                             Qle_bool (electronegativity (fst a))
                                      (electronegativity (fst b)))
                  (flat_map known (compositionOf atoms'))).
  { apply JSProps.sortBy_permutation_on.
    - intros x y. rewrite !Qle_bool_iff.
      destruct (Qlt_le_dec (electronegativity (fst x)) (electronegativity (fst y)));
        [left; now apply Qlt_le_weak | now right].
    - intros x y z. rewrite !Qle_bool_iff. apply Qle_trans.
    - intros [e1 c1] [e2 c2] H1 H2. cbn [fst]. rewrite !Qle_bool_iff.
      intros L1 L2.
      apply in_flat_map in H1 as ([p1 n1] & Hp1 & Hk1).
      apply in_flat_map in H2 as ([p2 n2] & Hp2 & Hk2).
      subst known. cbn [fst snd] in Hk1, Hk2.
      destruct (get p1) as [e1'|] eqn:G1; [|destruct Hk1].
      destruct (get p2) as [e2'|] eqn:G2; [|destruct Hk2].
      destruct Hk1 as [[= -> ->] | []]. destruct Hk2 as [[= -> ->] | []].
      destruct (key_of_compositionOf _ _ _ Hp1) as (a1 & Ha1 & Pa1).
      destruct (key_of_compositionOf _ _ _ Hp2) as (a2 & Ha2 & Pa2).
      rewrite Forall_forall in Hbond.
      assert (M1 : maxBonds e1 <> 0%nat)
        by (apply (Hbond a1 Ha1); now rewrite Pa1).
      assert (M2 : maxBonds e2 <> 0%nat)
        by (apply (Hbond a2 Ha2); now rewrite Pa2).
      assert (p1 = p2) as <-.
      { apply (electronegativity_identifies p1 p2 e1 e2 G1 G2 M1 M2).
        now apply Qle_antisym. }
      pose proof (In_lookup _ _ _ (keys_compositionOf atoms) Hp1).
      pose proof (In_lookup _ _ _ (keys_compositionOf atoms) Hp2).
      congruence.
    - apply Permutation_flat_map. now apply compositionOf_permutation. }
  now rewrite E.
Qed.

Lemma generateSystematicName_permutation_witness :
  Forall (fun atom => forall element,
            get (Atom.protons atom) = Some element -> maxBonds element <> 0%nat)
    [hydrogen; oxygen; hydrogen']
  /\ Permutation [hydrogen; oxygen; hydrogen'] [oxygen; hydrogen'; hydrogen]
  /\ generateSystematicName [hydrogen; oxygen; hydrogen']
     = generateSystematicName [oxygen; hydrogen'; hydrogen].
Proof.
  assert (H : Forall (fun atom => forall element,
                        get (Atom.protons atom) = Some element ->
                        maxBonds element <> 0%nat)
                [hydrogen; oxygen; hydrogen']).
  { repeat constructor; intros element [= <-]; discriminate. }
  assert (P : Permutation [hydrogen; oxygen; hydrogen']
                          [oxygen; hydrogen'; hydrogen]).
  { apply perm_trans with [oxygen; hydrogen; hydrogen'].
    - apply perm_swap.
    - apply perm_skip, perm_swap. }
  split; [exact H|]. split; [exact P|].
  exact (generateSystematicName_permutation _ _ H P).
Defined.

(** X27.  In the mode-driven component the classification of a group of atoms
    (name, geometry and bond length) depends only on how many atoms of each
    element it holds, not on their order. *)
Theorem modes_identifyMoleculeType_permutation (atoms atoms' : list Atom.t) :
  Permutation atoms atoms' ->
  ModesSimulation.identifyMoleculeType atoms
  = ModesSimulation.identifyMoleculeType atoms'.
Proof.
  intros P. unfold ModesSimulation.identifyMoleculeType,
    ModesSimulation.countProtons, ModesSimulation.generateMolecularFormula.
  rewrite !(countOf_compositionOf_permutation atoms atoms' _ P).
  rewrite (Permutation_length P).
  now rewrite (sorted_composition_permutation atoms atoms' P).
Qed.

Lemma modes_identifyMoleculeType_permutation_witness :
  Permutation [hydrogen; oxygen; hydrogen'] [oxygen; hydrogen'; hydrogen]
  /\ ModesSimulation.identifyMoleculeType [hydrogen; oxygen; hydrogen']
     = ModesSimulation.identifyMoleculeType [oxygen; hydrogen'; hydrogen].
Proof.
  assert (P : Permutation [hydrogen; oxygen; hydrogen']
                          [oxygen; hydrogen'; hydrogen]).
  { apply perm_trans with [oxygen; hydrogen; hydrogen'].
    - apply perm_swap.
    - apply perm_skip, perm_swap. }
  split; [exact P|].
  exact (modes_identifyMoleculeType_permutation _ _ P).
Defined.

(** *** Stable groups *)

Lemma isChemicallyStable_size (atoms : list Atom.t) :
  Simulation.isChemicallyStable atoms = true ->
  (2 <= List.length atoms <= 6)%nat.
Proof.
  unfold Simulation.isChemicallyStable.
  destruct (List.length atoms =? 2)%nat eqn:L2;
    [apply Nat.eqb_eq in L2; intros _; lia|].
  destruct (List.length atoms =? 3)%nat eqn:L3;
    [apply Nat.eqb_eq in L3; intros _; lia|].
  destruct (List.length atoms =? 4)%nat eqn:L4;
    [apply Nat.eqb_eq in L4; intros _; lia|].
  destruct (List.length atoms =? 5)%nat eqn:L5;
    [apply Nat.eqb_eq in L5; intros _; lia|].
  rewrite !andb_false_r.
  destruct (2 <=? List.length atoms)%nat eqn:E2; cbn [andb]; [|discriminate].
  destruct (List.length atoms <=? 6)%nat eqn:E6; [|discriminate].
  apply Nat.leb_le in E2, E6. intros _. lia.
Qed.

Lemma total_valence_permutation (atoms atoms' : list Atom.t) (total total' : Q) :
  Permutation atoms atoms' -> total == total' ->
  fold_left (fun total atom =>
               total + Shared.orElse Simulation.valenceElectrons (Atom.protons atom) 4)
    atoms total
  == fold_left (fun total atom =>
                  total + Shared.orElse Simulation.valenceElectrons (Atom.protons atom) 4)
       atoms' total'.
Proof.
  intros P. revert total total'.
  induction P as [|x l l' P IH|x y l|l1 l2 l3 P1 IH1 P2 IH2];
    intros total total' E; cbn [fold_left].
  - exact E.
  - apply IH. now rewrite E.
  - assert (IHl : forall t t', t == t' ->
              fold_left (fun total atom =>
                           total + Shared.orElse Simulation.valenceElectrons
                                     (Atom.protons atom) 4) l t
              == fold_left (fun total atom =>
                              total + Shared.orElse Simulation.valenceElectrons
                                        (Atom.protons atom) 4) l t').
    { induction l as [|a l IHl]; intros t t' Et; cbn [fold_left]; [exact Et|].
      apply IHl. now rewrite Et. }
    apply IHl. rewrite E. ring.
  - rewrite (IH1 total total' E). apply IH2. reflexivity.
Qed.

Lemma followsValenceRules_permutation (atoms atoms' : list Atom.t) :
  Permutation atoms atoms' ->
  Simulation.followsValenceRules atoms = Simulation.followsValenceRules atoms'.
Proof.
  intros P. unfold Simulation.followsValenceRules.
  rewrite (Permutation_length P).
  assert (E : Qfloor (fold_left
                        (fun total atom =>
                           total + Shared.orElse Simulation.valenceElectrons
                                     (Atom.protons atom) 4) atoms 0 / 2)
              = Qfloor (fold_left
                          (fun total atom =>
                             total + Shared.orElse Simulation.valenceElectrons
                                       (Atom.protons atom) 4) atoms' 0 / 2)).
  { apply Qfloor_comp.
    now rewrite (total_valence_permutation atoms atoms' 0 0 P (Qeq_refl 0)). }
  now rewrite E.
Qed.

(** X13.  Whether a group of atoms counts as chemically stable depends only on
    how many atoms of each element it holds, and only groups of two to six
    atoms do. *)
Theorem isChemicallyStable_composition (atoms atoms' : list Atom.t) :
  Permutation atoms atoms' ->
  Simulation.isChemicallyStable atoms = Simulation.isChemicallyStable atoms'
  /\ (Simulation.isChemicallyStable atoms = true ->
      (2 <= List.length atoms <= 6)%nat).
Proof.
  intros P. split; [|apply isChemicallyStable_size].
  unfold Simulation.isChemicallyStable, Simulation.countProtons.
  rewrite !(countOf_compositionOf_permutation atoms atoms' _ P).
  rewrite (Permutation_length P).
  now rewrite (followsValenceRules_permutation atoms atoms' P).
Qed.

Lemma isChemicallyStable_composition_witness :
  Permutation [hydrogen; oxygen; hydrogen'] [oxygen; hydrogen'; hydrogen]
  /\ Simulation.isChemicallyStable [hydrogen; oxygen; hydrogen']
     = Simulation.isChemicallyStable [oxygen; hydrogen'; hydrogen].
Proof.
  assert (P : Permutation [hydrogen; oxygen; hydrogen']
                          [oxygen; hydrogen'; hydrogen]).
  { apply perm_trans with [oxygen; hydrogen; hydrogen'].
    - apply perm_swap.
    - apply perm_skip, perm_swap. }
  split; [exact P|].
  exact (proj1 (isChemicallyStable_composition _ _ P)).
Defined.

(** X14.  A group of two atoms is chemically stable exactly when it is one of
    H₂, O₂, N₂, CO, NO and HF: for two atoms the valence rule of the fallback
    admits nothing else. *)
Theorem isChemicallyStable_pairs (atomA atomB : Atom.t) :
  Simulation.isChemicallyStable [atomA; atomB] = true
  <-> In (Nat.min (Atom.protons atomA) (Atom.protons atomB),
          Nat.max (Atom.protons atomA) (Atom.protons atomB))
         Simulation.STABLE_PAIRS.
Proof.
  destruct atomA as [ia pa na ea ma], atomB as [ib pb nb eb mb].
  unfold Simulation.isChemicallyStable, Simulation.countProtons,
    Simulation.followsValenceRules, Simulation.STABLE_PAIRS.
  rewrite !countOf_compositionOf.
  cbn [map fold_left Atom.protons List.length].
  do 10 (try destruct pa as [|pa]);
    do 10 (try destruct pb as [|pb]);
    vm_compute;
    (split; [try discriminate; intros _;
                    repeat (first [left; reflexivity | right])
            | intros H; try reflexivity;
              repeat (destruct H as [H | H]; [discriminate H|]); destruct H]).
Qed.

(** X15.  A complex reaction is never found possible with 16 units of system
    energy or less, nor for fewer than two or more than six atoms. *)
Theorem canFormComplexMolecule_needs_energy
    (entityAtoms : list Atom.t) (entityMolecules : list (list Atom.t))
    (systemEnergy : Q) :
  Simulation.canFormComplexMolecule entityAtoms entityMolecules systemEnergy = true ->
  16 < systemEnergy
  /\ (2 <= List.length (entityAtoms ++ List.concat entityMolecules) <= 6)%nat.
Proof.
  unfold Simulation.canFormComplexMolecule. intros H.
  apply andb_true_iff in H as [Hs Hl].
  apply isChemicallyStable_size in Hs. split; [|exact Hs].
  unfold Shared.lt in Hl. apply negb_true_iff in Hl.
  destruct (Qlt_le_dec (inject_Z (Z.of_nat (List.length (entityAtoms ++ List.concat entityMolecules))) * 8)
              systemEnergy) as [L | L].
  - eapply Qle_lt_trans; [|exact L].
    assert (H2 : inject_Z 2 <= inject_Z (Z.of_nat (List.length (entityAtoms ++ List.concat entityMolecules)))).
    { rewrite <- Zle_Qle. lia. }
    change (inject_Z 2) with 2 in H2. lra.
  - apply Qle_bool_iff in L. congruence.
Qed.

Lemma canFormComplexMolecule_needs_energy_witness :
  Simulation.canFormComplexMolecule [oxygen] [[hydrogen; hydrogen']] 30 = true
  /\ 16 < 30
  /\ (2 <= List.length ([oxygen] ++ List.concat [[hydrogen; hydrogen']]) <= 6)%nat.
Proof.
  assert (H : Simulation.canFormComplexMolecule [oxygen] [[hydrogen; hydrogen']] 30
              = true) by reflexivity.
  split; [exact H|].
  exact (canFormComplexMolecule_needs_energy [oxygen] [[hydrogen; hydrogen']] 30 H).
Defined.

End CompositionProps.

(** ** The simulation component *)

Module SimulationProps.
Import Simulation.

(** *** The energy scalar *)

Lemma applyOp_nonneg (op : EnergyOp) (s : State) :
  0 <= transientHeatEnergy s -> 0 <= transientHeatEnergy (applyOp op s).
Proof.
  intros H. destruct op; cbn.
  - eapply Qle_trans; [exact H | apply Q.le_max_l].
  - unfold decayTransientHeat.
    destruct (Qle_bool (transientHeatEnergy s) 0); [exact H|]. cbn.
    destruct (Qle_bool 0.01 (transientHeatEnergy s * 0.96)) eqn:E.
    + apply Qle_bool_iff in E. lra.
    + apply Qle_refl.
  - apply Q.le_max_l.
  - apply Q.le_max_l.
  - nra.
Qed.

(** C5.  Starting from a non-negative value, [transientHeatEnergy] is
    non-negative after every operation of any sequence of heat pulses, frame
    decays and consumptions. *)
Theorem transientHeatEnergy_never_negative (ops : list EnergyOp) (s : State) :
  0 <= transientHeatEnergy s ->
  Forall (fun s' => 0 <= transientHeatEnergy s') (run ops s).
Proof.
  revert s. induction ops as [|op ops IH]; intros s H; cbn.
  - constructor.
  - constructor.
    + now apply applyOp_nonneg.
    + apply IH. now apply applyOp_nonneg.
Qed.

Lemma transientHeatEnergy_never_negative_witness :
  0 <= transientHeatEnergy initial
  /\ Forall (fun s' => 0 <= transientHeatEnergy s')
       (run [Pulse 5; Pulse 5; Decay; Deduct 12; ConsumeActivation 0 1; Scale; Decay]
          initial).
Proof.
  assert (H : 0 <= transientHeatEnergy initial) by apply Qle_refl.
  split; [exact H|].
  exact (transientHeatEnergy_never_negative _ initial H).
Defined.

(** The frame decay never raises the energy. *)
Theorem decay_decreases (s : State) :
  0 <= transientHeatEnergy s ->
  transientHeatEnergy (decayTransientHeat s) <= transientHeatEnergy s.
Proof.
  intros H. unfold decayTransientHeat.
  destruct (Qle_bool (transientHeatEnergy s) 0); [apply Qle_refl|].
  destruct (Qle_bool 0.01 (transientHeatEnergy s * 0.96)); cbn.
  - nra.
  - exact H.
Qed.

Lemma decay_decreases_witness :
  0 <= transientHeatEnergy Examples.threeHydrogens
  /\ transientHeatEnergy (decayTransientHeat Examples.threeHydrogens)
     <= transientHeatEnergy Examples.threeHydrogens.
Proof.
  assert (H : 0 <= transientHeatEnergy Examples.threeHydrogens)
    by (vm_compute; discriminate).
  split; [exact H|].
  exact (decay_decreases Examples.threeHydrogens H).
Defined.

End SimulationProps.


(** ** The bond scan *)

Module ScanProps.
Import Simulation.

Lemma withPending_id (s : State) :
  withPending (bondingCooldowns s) (lastBondCheck s) (bondingTransitions s) s = s.
Proof. now destruct s. Qed.

Lemma lt_spec (x y : Q) : Shared.lt x y = true <-> x < y.
Proof.
  unfold Shared.lt. rewrite negb_true_iff. split.
  - intros H. destruct (Qlt_le_dec x y) as [L | L]; [exact L|].
    apply Qle_bool_iff in L. congruence.
  - intros H. apply not_true_is_false. rewrite Qle_bool_iff.
    intros L. exact (Qlt_not_le _ _ H L).
Qed.

(** One pair: only cooldowns and transitions change, and a transition is
    added only for an eligible pair, under the key of the pair. *)
Lemma scanPair_pending (w : World) (now : Z) (systemEnergy : Q) (s : State)
    (cooldowns : list (string * Z)) (lastCheck : Z)
    (transitions : list (string * (nat * nat))) (pair : nat * nat) :
  exists cooldowns' transitions',
    scanPair w now systemEnergy (withPending cooldowns lastCheck transitions s) pair
    = withPending cooldowns' lastCheck transitions' s
    /\ forall key atomA atomB,
         Shared.lookupKey key transitions' = Some (atomA, atomB) ->
         Shared.lookupKey key transitions = Some (atomA, atomB)
         \/ (key = Shared.bondIdOf atomA atomB /\ pair = (atomA, atomB)
             /\ eligible w s atomA atomB systemEnergy).
Proof.
  destruct pair as [a b]. unfold scanPair.
  change (isMember (withPending cooldowns lastCheck transitions s))
    with (isMember s).
  change (bondExists (withPending cooldowns lastCheck transitions s))
    with (bondExists s).
  change (bondingCooldowns (withPending cooldowns lastCheck transitions s))
    with cooldowns.
  change (shouldFormBond w (withPending cooldowns lastCheck transitions s))
    with (shouldFormBond w s).
  destruct (isMember s a) eqn:Ma; cbn [orb];
    [exists cooldowns, transitions; split; [reflexivity | auto]|].
  destruct (isMember s b) eqn:Mb;
    [exists cooldowns, transitions; split; [reflexivity | auto]|].
  destruct (bondExists s a b) eqn:Eb;
    [exists cooldowns, transitions; split; [reflexivity | auto]|].
  destruct (_ <? 1000)%Z;
    [exists cooldowns, transitions; split; [reflexivity | auto]|].
  destruct (Shared.lt (distanceTo w a b) 3.5) eqn:Ed;
    [|exists cooldowns, transitions; split; [reflexivity | auto]].
  destruct (shouldFormBond w s a b systemEnergy) eqn:Es;
    [|exists cooldowns, transitions; split; [reflexivity | auto]].
  unfold initiateGradualBonding.
  change (bondingTransitions (set_bondingCooldowns ?c
            (withPending cooldowns lastCheck transitions s)))
    with transitions.
  destruct (Shared.lookupKey (Shared.bondIdOf a b) transitions) eqn:Et.
  - eexists _, transitions. split; [reflexivity | auto].
  - eexists _, _. split; [reflexivity|].
    intros key atomA atomB Hk.
    destruct (String.eqb (Shared.bondIdOf a b) key) eqn:Ek.
    + apply String.eqb_eq in Ek. subst key.
      rewrite SharedProps.lookupKey_setKey_same in Hk. injection Hk as <- <-.
      right. split; [reflexivity|]. split; [reflexivity|].
      unfold eligible. apply lt_spec in Ed. auto.
    + apply String.eqb_neq in Ek.
      rewrite SharedProps.lookupKey_setKey_other in Hk by exact Ek. now left.
Qed.

Lemma scan_pending (w : World) (now : Z) (systemEnergy : Q) (s : State)
    (todo : list (nat * nat)) (cooldowns : list (string * Z)) (lastCheck : Z)
    (transitions : list (string * (nat * nat))) :
  exists cooldowns' transitions',
    fold_left (scanPair w now systemEnergy) todo
      (withPending cooldowns lastCheck transitions s)
    = withPending cooldowns' lastCheck transitions' s
    /\ forall key atomA atomB,
         Shared.lookupKey key transitions' = Some (atomA, atomB) ->
         Shared.lookupKey key transitions = Some (atomA, atomB)
         \/ (key = Shared.bondIdOf atomA atomB /\ In (atomA, atomB) todo
             /\ eligible w s atomA atomB systemEnergy).
Proof.
  revert cooldowns transitions.
  induction todo as [|pair todo IH]; intros cooldowns transitions;
    cbn [fold_left].
  - exists cooldowns, transitions. split; [reflexivity | auto].
  - destruct (scanPair_pending w now systemEnergy s cooldowns lastCheck
                transitions pair) as (c1 & t1 & -> & H1).
    destruct (IH c1 t1) as (c2 & t2 & -> & H2).
    exists c2, t2. split; [reflexivity|].
    intros key atomA atomB Hk.
    destruct (H2 key atomA atomB Hk) as [Hk1 | (-> & Hin & He)].
    + destruct (H1 key atomA atomB Hk1) as [Hk0 | (-> & -> & He)];
        [now left|].
      right. split; [reflexivity|]. split; [now left | exact He].
    + right. split; [reflexivity|]. split; [now right | exact He].
Qed.

(** The whole scan, when it runs. *)
Lemma checkAndCreateBonds_pending (w : World) (now : Z) (s : State) :
  reactionInProgress s = false -> (100 <= now - lastBondCheck s)%Z ->
  exists cooldowns transitions,
    checkAndCreateBonds w now s = withPending cooldowns now transitions s
    /\ forall key atomA atomB,
         Shared.lookupKey key transitions = Some (atomA, atomB) ->
         Shared.lookupKey key (bondingTransitions s) = Some (atomA, atomB)
         \/ (key = Shared.bondIdOf atomA atomB
             /\ In (atomA, atomB) (Engine.pairs (atoms s))
             /\ eligible w s atomA atomB (calculateSystemEnergy w s)).
Proof.
  intros Hlock Htime. unfold checkAndCreateBonds, bondCheckInterval.
  rewrite Hlock.
  assert (E : (now - lastBondCheck s <? 100)%Z = false) by (apply Z.ltb_ge; lia).
  rewrite E.
  exact (scan_pending w now (calculateSystemEnergy w s) s (Engine.pairs (atoms s))
           (bondingCooldowns s) now (bondingTransitions s)).
Qed.

(** X17.  The bond scan creates and deletes nothing and uses no energy: atoms,
    bonds, molecules, the heat energy and the reaction lock are as before;
    only cooldowns, the time of the last scan and the pending gradual bonds
    change. *)
Theorem checkAndCreateBonds_only_registers (w : World) (now : Z) (s : State) :
  store (checkAndCreateBonds w now s) = store s
  /\ atoms (checkAndCreateBonds w now s) = atoms s
  /\ bonds (checkAndCreateBonds w now s) = bonds s
  /\ molecules (checkAndCreateBonds w now s) = molecules s
  /\ transientHeatEnergy (checkAndCreateBonds w now s) = transientHeatEnergy s
  /\ reactionInProgress (checkAndCreateBonds w now s) = reactionInProgress s.
Proof.
  destruct (reactionInProgress s) eqn:Hlock.
  { unfold checkAndCreateBonds. rewrite Hlock. auto 10. }
  destruct (Z_lt_le_dec (now - lastBondCheck s) 100) as [L | L].
  { unfold checkAndCreateBonds, bondCheckInterval. rewrite Hlock.
    apply Z.ltb_lt in L. rewrite L. auto 10. }
  destruct (checkAndCreateBonds_pending w now s Hlock L) as (c & t & -> & _).
  cbn. auto 10.
Qed.

(** X18.  A pending gradual bond that the scan adds is for a pair of free atoms
    of the atom list with no bond record, closer than 3.5, that passes
    [shouldFormBond] at the energy of the system; it is filed under the bond
    id of the pair. *)
Theorem checkAndCreateBonds_starts_only_eligible
    (w : World) (now : Z) (s : State) (key : string) (atomA atomB : nat) :
  Shared.lookupKey key (bondingTransitions (checkAndCreateBonds w now s))
  = Some (atomA, atomB) ->
  Shared.lookupKey key (bondingTransitions s) = Some (atomA, atomB)
  \/ (key = Shared.bondIdOf atomA atomB
      /\ In (atomA, atomB) (Engine.pairs (atoms s))
      /\ eligible w s atomA atomB (calculateSystemEnergy w s)).
Proof.
  destruct (reactionInProgress s) eqn:Hlock.
  { unfold checkAndCreateBonds. rewrite Hlock. auto. }
  destruct (Z_lt_le_dec (now - lastBondCheck s) 100) as [L | L].
  { unfold checkAndCreateBonds, bondCheckInterval. rewrite Hlock.
    apply Z.ltb_lt in L. rewrite L. auto. }
  destruct (checkAndCreateBonds_pending w now s Hlock L) as (c & t & -> & H).
  exact (H key atomA atomB).
Qed.

Lemma checkAndCreateBonds_starts_only_eligible_witness :
  Shared.lookupKey "0-2"
    (bondingTransitions
       (checkAndCreateBonds Examples.closeWorld 5000 Examples.threeHydrogens))
  = Some (0, 2)%nat
  /\ (Shared.lookupKey "0-2" (bondingTransitions Examples.threeHydrogens)
      = Some (0, 2)%nat
      \/ ("0-2" = Shared.bondIdOf 0 2
          /\ In (0, 2)%nat (Engine.pairs (atoms Examples.threeHydrogens))
          /\ eligible Examples.closeWorld Examples.threeHydrogens 0 2
               (calculateSystemEnergy Examples.closeWorld
                  Examples.threeHydrogens))).
Proof.
  assert (H : Shared.lookupKey "0-2"
                (bondingTransitions
                   (checkAndCreateBonds Examples.closeWorld 5000
                      Examples.threeHydrogens))
              = Some (0, 2)%nat) by reflexivity.
  split; [exact H|].
  exact (checkAndCreateBonds_starts_only_eligible Examples.closeWorld 5000
           Examples.threeHydrogens "0-2" 0 2 H).
Defined.

(** X19.  The scan is throttled: after a scan that ran at time [now], a scan
    less than 100 ms later returns the state unchanged. *)
Theorem checkAndCreateBonds_throttled
    (w w' : World) (now now' : Z) (s : State) :
  reactionInProgress s = false -> (100 <= now - lastBondCheck s)%Z ->
  (now' < now + 100)%Z ->
  checkAndCreateBonds w' now' (checkAndCreateBonds w now s)
  = checkAndCreateBonds w now s.
Proof.
  intros Hlock Htime Hsoon.
  destruct (checkAndCreateBonds_pending w now s Hlock Htime) as (c & t & -> & _).
  unfold checkAndCreateBonds at 1. cbn [reactionInProgress lastBondCheck withPending].
  rewrite Hlock. unfold bondCheckInterval.
  assert (E : (now' - now <? 100)%Z = true) by (apply Z.ltb_lt; lia).
  now rewrite E.
Qed.

Lemma checkAndCreateBonds_throttled_witness :
  reactionInProgress Examples.threeHydrogens = false
  /\ (100 <= 5000 - lastBondCheck Examples.threeHydrogens)%Z
  /\ (5050 < 5000 + 100)%Z
  /\ checkAndCreateBonds Examples.closeWorld 5050
       (checkAndCreateBonds Examples.closeWorld 5000 Examples.threeHydrogens)
     = checkAndCreateBonds Examples.closeWorld 5000 Examples.threeHydrogens.
Proof.
  assert (H1 : reactionInProgress Examples.threeHydrogens = false) by reflexivity.
  assert (H2 : (100 <= 5000 - lastBondCheck Examples.threeHydrogens)%Z)
    by (vm_compute; discriminate).
  assert (H3 : (5050 < 5000 + 100)%Z) by reflexivity.
  split; [exact H1|]. split; [exact H2|]. split; [exact H3|].
  exact (checkAndCreateBonds_throttled Examples.closeWorld Examples.closeWorld
           5000 5050 Examples.threeHydrogens H1 H2 H3).
Defined.

(** *** When a gradual bond completes *)

Lemma bondExists_added (bonds : list Bond.t) (atomA atomB : nat) :
  Shared.bondExists
    (bonds ++ [Bond.mk (Shared.bondIdOf atomA atomB) atomA atomB]) atomA atomB
  = true.
Proof.
  unfold Shared.bondExists. rewrite existsb_app. apply orb_true_iff. right.
  cbn. unfold Shared.isPairRecord. cbn. now rewrite String.eqb_refl.
Qed.

(** X20.  The completion of a gradual bond never fails and tests neither energy
    nor valence: afterwards the pair has a bond record and no pending
    transition, and atoms, molecules and the heat energy are untouched. *)
Theorem gradualBondCompleted_bonds (w : World) (atomA atomB : nat) (s : State) :
  exists s',
    gradualBondCompleted w atomA atomB s = JS.Returns s'
    /\ bondExists s' atomA atomB = true
    /\ Shared.lookupKey (Shared.bondIdOf atomA atomB) (bondingTransitions s') = None
    /\ store s' = store s /\ molecules s' = molecules s
    /\ transientHeatEnergy s' = transientHeatEnergy s.
Proof.
  unfold gradualBondCompleted, createBond.
  set (s0 := set_bondingTransitions _ s).
  destruct (bondExists s0 atomA atomB) eqn:E.
  - exists s0. split; [reflexivity|]. split; [exact E|].
    split; [apply SharedProps.lookupKey_deleteKey_same|]. auto.
  - cbn [negb andb]. eexists. split; [reflexivity|].
    split; [apply bondExists_added|].
    split; [apply SharedProps.lookupKey_deleteKey_same|]. auto.
Qed.

(** *** The energy a bond request needs *)

(** The value depends on the two proton numbers only, and the tables stop
    at fluorine. *)
Lemma getMinimumActivationEnergy_bounds (s : State) (atomA atomB : nat) :
  1 <= getMinimumActivationEnergy s atomA atomB <= 10.
Proof.
  unfold getMinimumActivationEnergy.
  generalize (protonsOf s atomA) (protonsOf s atomB). intros protonsA protonsB.
  do 10 (try destruct protonsA as [|protonsA]);
    do 10 (try destruct protonsB as [|protonsB]);
    vm_compute; split; discriminate.
Qed.

(** X21.  The energy test of a bond request with identification: for a pair
    with no bond record the request is always refused when the system energy
    is below 1 and never refused for energy when it is at least 10. *)
Theorem createBond_energy_edges (w : World) (atomA atomB : nat) (s : State) :
  bondExists s atomA atomB = false ->
  (calculateSystemEnergy w s < 1 ->
   createBond w atomA atomB false s = JS.Returns s)
  /\ (10 <= calculateSystemEnergy w s ->
      createBond w atomA atomB false s
      = identifyMolecules
          (set_bonds (bonds s ++ [Bond.mk (Shared.bondIdOf atomA atomB) atomA atomB])
             s)).
Proof.
  intros HE. unfold createBond, canFormBondWithEnergy. rewrite HE. cbn [negb andb].
  destruct (getMinimumActivationEnergy_bounds s atomA atomB) as [L U].
  split; intros H.
  - assert (E : Qle_bool (getMinimumActivationEnergy s atomA atomB)
                  (calculateSystemEnergy w s) = false).
    { apply not_true_is_false. rewrite Qle_bool_iff. intros L'. lra. }
    now rewrite E.
  - assert (E : Qle_bool (getMinimumActivationEnergy s atomA atomB)
                  (calculateSystemEnergy w s) = true).
    { apply Qle_bool_iff. lra. }
    now rewrite E.
Qed.

Lemma createBond_energy_edges_witness :
  (bondExists Examples.coldHydrogens 0 1 = false
   /\ calculateSystemEnergy Examples.closeWorld Examples.coldHydrogens < 1
   /\ createBond Examples.closeWorld 0 1 false Examples.coldHydrogens
      = JS.Returns Examples.coldHydrogens)
  /\ (bondExists Examples.hotHydrogens 0 1 = false
      /\ 10 <= calculateSystemEnergy Examples.closeWorld Examples.hotHydrogens
      /\ createBond Examples.closeWorld 0 1 false Examples.hotHydrogens
         = identifyMolecules
             (set_bonds (bonds Examples.hotHydrogens
                         ++ [Bond.mk (Shared.bondIdOf 0 1) 0 1])
                Examples.hotHydrogens)).
Proof.
  assert (Hc : bondExists Examples.coldHydrogens 0 1 = false) by reflexivity.
  assert (Ec : calculateSystemEnergy Examples.closeWorld Examples.coldHydrogens < 1)
    by (vm_compute; reflexivity).
  assert (Hh : bondExists Examples.hotHydrogens 0 1 = false) by reflexivity.
  assert (Eh : 10 <= calculateSystemEnergy Examples.closeWorld Examples.hotHydrogens)
    by (vm_compute; discriminate).
  split.
  - split; [exact Hc|]. split; [exact Ec|].
    exact (proj1 (createBond_energy_edges Examples.closeWorld 0 1
                    Examples.coldHydrogens Hc) Ec).
  - split; [exact Hh|]. split; [exact Eh|].
    exact (proj2 (createBond_energy_edges Examples.closeWorld 0 1
                    Examples.hotHydrogens Hh) Eh).
Defined.

(** *** New atoms *)

Lemma getAtom_app_new (store : list Atom.t) (newAtom : Atom.t) (i : nat) :
  Shared.getAtom (store ++ [newAtom]) i
  = match Shared.getAtom store i with
    | Some a => Some a
    | None => if (Atom.id newAtom =? i)%nat then Some newAtom else None
    end.
Proof.
  unfold Shared.getAtom. induction store as [|a store IH]; cbn; [reflexivity|].
  destruct (Atom.id a =? i)%nat; [reflexivity | exact IH].
Qed.

Lemma getAtom_below (s : State) (i : nat) (a : Atom.t) :
  idsBelow s -> getAtom s i = Some a -> (i < nextId s)%nat.
Proof.
  unfold idsBelow, getAtom, Shared.getAtom. intros Hall Hf.
  apply find_some in Hf as [Hin E]. apply Nat.eqb_eq in E. subst i.
  rewrite Forall_forall in Hall. now apply Hall.
Qed.

(** X16.  [createAtom] gives the new atom an id no atom object has: the new
    atom is found under its id, every other id finds what it found before,
    and ids stay below [nextId] and pairwise distinct. *)
Theorem createAtom_fresh (protons neutrons electrons : nat) (s : State) :
  idsBelow s ->
  getAtom (createAtom protons neutrons electrons s) (nextId s)
  = Some (Atom.mk (nextId s) protons neutrons electrons false)
  /\ (forall i, i <> nextId s ->
       getAtom (createAtom protons neutrons electrons s) i = getAtom s i)
  /\ idsBelow (createAtom protons neutrons electrons s)
  /\ (NoDup (map Atom.id (store s)) ->
      NoDup (map Atom.id (store (createAtom protons neutrons electrons s)))).
Proof.
  intros Hb. unfold getAtom, createAtom. cbn [store set_atoms set_store set_nextId].
  split; [|split; [|split]].
  - rewrite getAtom_app_new.
    destruct (Shared.getAtom (store s) (nextId s)) as [a|] eqn:E.
    + apply (getAtom_below s _ _ Hb) in E. lia.
    + cbn. now rewrite Nat.eqb_refl.
  - intros i Hi. rewrite getAtom_app_new.
    destruct (Shared.getAtom (store s) i); [reflexivity|]. cbn.
    assert (E : (nextId s =? i)%nat = false) by (apply Nat.eqb_neq; congruence).
    now rewrite E.
  - unfold idsBelow in *. cbn [store nextId].
    apply Forall_app. split.
    + eapply Forall_impl; [|exact Hb]. cbn. intros a Ha. lia.
    + constructor; [cbn; lia | constructor].
  - intros Hnd. rewrite map_app. cbn [map Atom.id].
    apply (Permutation_NoDup (l := nextId s :: map Atom.id (store s))).
    + apply Permutation_cons_append.
    + constructor; [|exact Hnd]. intros Hin.
      apply in_map_iff in Hin as (a & Ea & Ha).
      unfold idsBelow in Hb. rewrite Forall_forall in Hb.
      specialize (Hb a Ha). lia.
Qed.

Lemma createAtom_fresh_witness :
  idsBelow Examples.threeHydrogens
  /\ getAtom (createAtom 8 8 8 Examples.threeHydrogens)
       (nextId Examples.threeHydrogens)
     = Some (Atom.mk (nextId Examples.threeHydrogens) 8 8 8 false).
Proof.
  assert (H : idsBelow Examples.threeHydrogens).
  { unfold idsBelow. cbn. repeat constructor. }
  split; [exact H|].
  exact (proj1 (createAtom_fresh 8 8 8 Examples.threeHydrogens H)).
Defined.

End ScanProps.

(** ** Bonds and molecules of the simulation component *)

Module BondProps.
Import Simulation.
Import SharedProps.

Lemma bonds_setMember (i : nat) (m : bool) (s : State) :
  bonds (setMember i m s) = bonds s.
Proof. reflexivity. Qed.

Lemma bonds_release (ids : list nat) (s : State) :
  bonds (fold_left (fun st a => setMember a false st) ids s) = bonds s.
Proof.
  revert s. induction ids as [|a ids IH]; intros s; cbn; [reflexivity|].
  now rewrite IH.
Qed.

Lemma createAdvancedMolecule_shrinks
    (moleculeId name geometry : string) (ids : list nat) (s : State) :
  Shared.shrinks (bonds s)
    (bonds (fst (JS.stateOf (createAdvancedMolecule moleculeId name geometry ids s)))).
Proof.
  unfold createAdvancedMolecule.
  destruct (Engine.positionedIds (resolve s ids) geometry) as [[|p positions]|];
    cbn; try apply shrinks_refl.
  destruct (Shared.placeAtoms (p :: positions) ids (store s)); cbn.
  - apply shrinks_removeInternalBonds.
  - apply shrinks_refl.
Qed.

(** Identification only ever deletes bond records. *)
Lemma identifyAtom_shrinks (acc : JS.outcome (State * list nat)) (atom : nat) :
  Shared.shrinks (bonds (fst (JS.stateOf acc)))
    (bonds (fst (JS.stateOf (identifyAtom acc atom)))).
Proof.
  unfold identifyAtom.
  destruct acc as [[s checked] | [s checked]]; cbn [JS.stateOf fst];
    [|apply shrinks_refl].
  destruct (Shared.has atom checked || isMember s atom);
    [apply shrinks_refl|].
  destruct (Shared.traverse _ _ _ _ _ _) as [checked' component].
  destruct (2 <=? List.length component)%nat.
  2:{ cbn. rewrite bonds_release. apply shrinks_refl. }
  destruct (Engine.determineGeometry _ _ _) as [geometry|];
    [|apply shrinks_refl].
  set (s1 := if existsb _ (discoveredMolecules s) then s else _).
  assert (E1 : bonds s1 = bonds s) by (subst s1; now destruct (existsb _ _)).
  destruct (existsb _ (molecules s1)).
  { cbn. rewrite E1. apply shrinks_refl. }
  pose proof (createAdvancedMolecule_shrinks
                (Shared.moleculeIdOf component)
                (Engine.generateSystematicName (resolve s component))
                geometry component s1) as H.
  rewrite E1 in H.
  destruct (createAdvancedMolecule _ _ _ _ s1) as [[s' [m|]] | [s' m]];
    cbn in *; exact H.
Qed.

Lemma identifyAtoms_shrinks (l : list nat) (acc : JS.outcome (State * list nat)) :
  Shared.shrinks (bonds (fst (JS.stateOf acc)))
    (bonds (fst (JS.stateOf (fold_left identifyAtom l acc)))).
Proof.
  revert acc. induction l as [|atom l IH]; intros acc; cbn.
  - apply shrinks_refl.
  - eapply shrinks_trans; [apply identifyAtom_shrinks | apply IH].
Qed.

Lemma identifyMolecules_shrinks (s : State) :
  Shared.shrinks (bonds s) (bonds (JS.stateOf (identifyMolecules s))).
Proof.
  unfold identifyMolecules.
  pose proof (identifyAtoms_shrinks (atoms s) (JS.Returns (s, []))) as H.
  cbn [JS.stateOf fst] in H.
  destruct (fold_left identifyAtom (atoms s) _) as [[s' c] | [s' c]]; exact H.
Qed.

(** X4.  Every way [createBond] ends keeps at most one record per unordered
    pair. *)
Theorem createBond_pairUnique
    (w : World) (atomA atomB : nat) (suppressIdentify : bool) (s : State) :
  Shared.pairUnique (bonds s) ->
  Shared.pairUnique (bonds (JS.stateOf (createBond w atomA atomB suppressIdentify s))).
Proof.
  intros H. unfold createBond, bondExists.
  destruct (Shared.bondExists (bonds s) atomA atomB) eqn:E; [exact H|].
  destruct (negb suppressIdentify && _); [exact H|].
  pose proof (pairUnique_add (bonds s) atomA atomB H E) as H1.
  destruct suppressIdentify; [exact H1|].
  eapply pairUnique_shrinks; [apply identifyMolecules_shrinks | exact H1].
Qed.

Lemma createBond_pairUnique_witness :
  Shared.pairUnique (bonds Examples.threeHydrogens)
  /\ Shared.pairUnique
       (bonds (JS.stateOf (createBond Examples.closeWorld 0 1 false
                             Examples.threeHydrogens))).
Proof.
  assert (H : Shared.pairUnique (bonds Examples.threeHydrogens))
    by exact pairUnique_nil.
  split; [exact H|].
  exact (createBond_pairUnique Examples.closeWorld 0 1 false
           Examples.threeHydrogens H).
Defined.

Lemma initial_pairUnique : Shared.pairUnique (bonds initial).
Proof. apply pairUnique_nil. Qed.

(** C4.  In a state with at most one record per unordered pair, a bond request
    for a pair that has a record, in either orientation and with or without
    identification, returns the state unchanged; the pair still has exactly
    one record. *)
Theorem createBond_existing_pair_is_noop
    (w : World) (atomA atomB : nat) (suppressIdentify : bool) (s : State) :
  Shared.pairUnique (bonds s) ->
  bondExists s atomA atomB = true ->
  createBond w atomA atomB suppressIdentify s = JS.Returns s
  /\ createBond w atomB atomA suppressIdentify s = JS.Returns s
  /\ List.length (Shared.pairRecords (bonds s) atomA atomB) = 1%nat.
Proof.
  intros HU HE. unfold createBond.
  assert (HE' : bondExists s atomB atomA = true).
  { unfold bondExists in *. now rewrite bondExists_sym. }
  rewrite HE, HE'. repeat split.
  specialize (HU atomA atomB).
  apply bondExists_true_some_record in HE. lia.
Qed.

Lemma createBond_existing_pair_is_noop_witness :
  Shared.pairUnique (bonds (JS.stateOf Examples.hydrogenPair))
  /\ bondExists (JS.stateOf Examples.hydrogenPair) 0 1 = true
  /\ createBond Examples.closeWorld 0 1 false (JS.stateOf Examples.hydrogenPair)
     = JS.Returns (JS.stateOf Examples.hydrogenPair)
  /\ createBond Examples.closeWorld 1 0 false (JS.stateOf Examples.hydrogenPair)
     = JS.Returns (JS.stateOf Examples.hydrogenPair)
  /\ List.length (Shared.pairRecords (bonds (JS.stateOf Examples.hydrogenPair)) 0 1)
     = 1%nat.
Proof.
  assert (HU : Shared.pairUnique (bonds (JS.stateOf Examples.hydrogenPair)))
    by exact (pairUnique_add [] 0 1 pairUnique_nil eq_refl).
  assert (HE : bondExists (JS.stateOf Examples.hydrogenPair) 0 1 = true)
    by reflexivity.
  split; [exact HU|]. split; [exact HE|].
  exact (createBond_existing_pair_is_noop Examples.closeWorld 0 1 false
           (JS.stateOf Examples.hydrogenPair) HU HE).
Defined.

(** A first request with identification suppressed, then the same request
    in the other orientation: one record. *)
Theorem createBond_twice_one_record (w : World) (atomA atomB : nat) (s : State) :
  bondExists s atomA atomB = false ->
  exists s1,
    createBond w atomA atomB true s = JS.Returns s1
    /\ createBond w atomB atomA true s1 = JS.Returns s1
    /\ List.length (Shared.pairRecords (bonds s1) atomA atomB) = 1%nat.
Proof.
  intros HE. unfold createBond. rewrite HE. cbn [negb andb].
  eexists. split; [reflexivity|].
  assert (HR : Shared.pairRecords
                 (bonds s ++ [Bond.mk (Shared.bondIdOf atomA atomB) atomA atomB])
                 atomA atomB
               = [Bond.mk (Shared.bondIdOf atomA atomB) atomA atomB]).
  { unfold Shared.pairRecords. rewrite filter_app.
    apply bondExists_false_no_records in HE. unfold Shared.pairRecords in HE.
    rewrite HE. cbn. unfold Shared.isPairRecord. cbn.
    now rewrite String.eqb_refl. }
  split.
  - unfold bondExists. cbn [bonds set_bonds].
    rewrite bondExists_sym. unfold Shared.bondExists.
    assert (HX : existsb (Shared.isPairRecord atomA atomB)
                   (bonds s ++ [Bond.mk (Shared.bondIdOf atomA atomB) atomA atomB])
                 = true).
    { rewrite existsb_app. cbn. unfold Shared.isPairRecord at 2. cbn.
      rewrite String.eqb_refl. cbn. apply orb_true_r. }
    now rewrite HX.
  - cbn [bonds set_bonds]. now rewrite HR.
Qed.

(** *** Molecule ids stay distinct *)

Lemma molecules_release (ids : list nat) (s : State) :
  molecules (fold_left (fun st a => setMember a false st) ids s) = molecules s.
Proof.
  revert s. induction ids as [|a ids IH]; intros s; cbn; [reflexivity|].
  now rewrite IH.
Qed.

Lemma createAdvancedMolecule_molecules
    (moleculeId name geometry : string) (ids : list nat) (s : State) :
  molecules (fst (JS.stateOf (createAdvancedMolecule moleculeId name geometry ids s)))
  = molecules s
  /\ forall molecule,
       snd (JS.stateOf (createAdvancedMolecule moleculeId name geometry ids s))
       = Some molecule ->
       Molecule.id molecule = moleculeId.
Proof.
  unfold createAdvancedMolecule.
  destruct (Engine.positionedIds (resolve s ids) geometry) as [[|p positions]|];
    cbn; try (split; [reflexivity | discriminate]).
  destruct (Shared.placeAtoms (p :: positions) ids (store s)); cbn;
    (split; [reflexivity|]); [|discriminate].
  now intros molecule [= <-].
Qed.

Lemma not_listed (moleculeId : string) (l : list Molecule.t) :
  existsb (fun m => String.eqb (Molecule.id m) moleculeId) l = false ->
  ~ In moleculeId (map Molecule.id l).
Proof.
  intros H Hin. apply in_map_iff in Hin as (m & <- & Hm).
  assert (existsb (fun m' => String.eqb (Molecule.id m') (Molecule.id m)) l = true)
    by (apply existsb_exists; exists m; split; [exact Hm | apply String.eqb_refl]).
  congruence.
Qed.

Lemma NoDup_push (x : string) (l : list string) :
  NoDup l -> ~ In x l -> NoDup (l ++ [x]).
Proof.
  intros Hl Hx. apply (Permutation_NoDup (l := x :: l)).
  - apply Permutation_cons_append.
  - now constructor.
Qed.

Lemma identifyAtom_unique_ids (acc : JS.outcome (State * list nat)) (atom : nat) :
  NoDup (map Molecule.id (molecules (fst (JS.stateOf acc)))) ->
  NoDup (map Molecule.id (molecules (fst (JS.stateOf (identifyAtom acc atom))))).
Proof.
  unfold identifyAtom.
  destruct acc as [[s checked] | [s checked]]; cbn [JS.stateOf fst];
    [|trivial].
  intros H.
  destruct (Shared.has atom checked || isMember s atom); [exact H|].
  destruct (Shared.traverse _ _ _ _ _ _) as [checked' component].
  destruct (2 <=? List.length component)%nat.
  2:{ cbn. now rewrite molecules_release. }
  destruct (Engine.determineGeometry _ _ _) as [geometry|]; [|exact H].
  set (s1 := if existsb _ (discoveredMolecules s) then s else _).
  assert (E1 : molecules s1 = molecules s) by (subst s1; now destruct (existsb _ _)).
  destruct (existsb _ (molecules s1)) eqn:Hnew.
  { cbn. now rewrite E1. }
  apply not_listed in Hnew.
  destruct (createAdvancedMolecule_molecules
              (Shared.moleculeIdOf component)
              (Engine.generateSystematicName (resolve s component))
              geometry component s1) as [Hm Hid].
  rewrite E1 in Hm, Hnew.
  destruct (createAdvancedMolecule _ _ _ _ s1) as [[s' [m|]] | [s' m]];
    cbn [JS.stateOf fst snd] in *; try (now rewrite Hm).
  cbn. rewrite Hm, map_app. cbn. rewrite (Hid m eq_refl).
  now apply NoDup_push.
Qed.

Lemma identifyAtoms_unique_ids (l : list nat) (acc : JS.outcome (State * list nat)) :
  NoDup (map Molecule.id (molecules (fst (JS.stateOf acc)))) ->
  NoDup (map Molecule.id (molecules (fst (JS.stateOf (fold_left identifyAtom l acc))))).
Proof.
  revert acc. induction l as [|atom l IH]; intros acc H; cbn; [exact H|].
  apply IH. now apply identifyAtom_unique_ids.
Qed.

(** X8.  However identification ends, no two molecule records share an id. *)
Theorem identifyMolecules_unique_ids (s : State) :
  NoDup (map Molecule.id (molecules s)) ->
  NoDup (map Molecule.id (molecules (JS.stateOf (identifyMolecules s)))).
Proof.
  intros H. unfold identifyMolecules.
  pose proof (identifyAtoms_unique_ids (atoms s) (JS.Returns (s, [])) H) as H'.
  destruct (fold_left identifyAtom (atoms s) _) as [[s' c] | [s' c]]; exact H'.
Qed.

Lemma identifyMolecules_unique_ids_witness :
  NoDup (map Molecule.id
           (molecules (JS.stateOf (JS.andThen Examples.bonded_2_10 identifyMolecules))))
  /\ NoDup (map Molecule.id
              (molecules
                 (JS.stateOf
                    (identifyMolecules
                       (JS.stateOf
                          (JS.andThen Examples.bonded_2_10 identifyMolecules)))))).
Proof.
  assert (H : NoDup (map Molecule.id
                       (molecules (JS.stateOf
                          (JS.andThen Examples.bonded_2_10 identifyMolecules))))).
  { change (NoDup ["10-2"]). constructor; [intros []|constructor]. }
  split; [exact H|].
  exact (identifyMolecules_unique_ids
           (JS.stateOf (JS.andThen Examples.bonded_2_10 identifyMolecules)) H).
Defined.

(** *** What identification leaves alone *)

Lemma frame_release (ids : list nat) (s : State) :
  atoms (fold_left (fun st a => setMember a false st) ids s) = atoms s
  /\ transientHeatEnergy (fold_left (fun st a => setMember a false st) ids s)
     = transientHeatEnergy s.
Proof.
  revert s. induction ids as [|a ids IH]; intros s; cbn; [auto|].
  destruct (IH (setMember a false s)) as [H1 H2]. now rewrite H1, H2.
Qed.

Lemma createAdvancedMolecule_frame
    (moleculeId name geometry : string) (ids : list nat) (s : State) :
  atoms (fst (JS.stateOf (createAdvancedMolecule moleculeId name geometry ids s)))
  = atoms s
  /\ transientHeatEnergy
       (fst (JS.stateOf (createAdvancedMolecule moleculeId name geometry ids s)))
     = transientHeatEnergy s
  /\ forall molecule,
       snd (JS.stateOf (createAdvancedMolecule moleculeId name geometry ids s))
       = Some molecule ->
       molecule = Molecule.mk moleculeId name ids.
Proof.
  unfold createAdvancedMolecule.
  destruct (Engine.positionedIds (resolve s ids) geometry) as [[|p positions]|];
    cbn; try (repeat split; discriminate).
  destruct (Shared.placeAtoms (p :: positions) ids (store s)); cbn;
    repeat split; try discriminate.
  now intros molecule [= <-].
Qed.

Lemma identifyAtom_grows (acc : JS.outcome (State * list nat)) (atom : nat) :
  atoms (fst (JS.stateOf (identifyAtom acc atom))) = atoms (fst (JS.stateOf acc))
  /\ transientHeatEnergy (fst (JS.stateOf (identifyAtom acc atom)))
     = transientHeatEnergy (fst (JS.stateOf acc))
  /\ exists added : list Molecule.t,
       molecules (fst (JS.stateOf (identifyAtom acc atom)))
       = (molecules (fst (JS.stateOf acc)) ++ added)%list
       /\ Forall identified added.
Proof.
  unfold identifyAtom.
  destruct acc as [[s checked] | [s checked]]; cbn [JS.stateOf fst];
    [|split; [reflexivity|]; split; [reflexivity|];
      exists []; now rewrite app_nil_r].
  destruct (Shared.has atom checked || isMember s atom);
    [split; [reflexivity|]; split; [reflexivity|];
     exists []; now rewrite app_nil_r|].
  destruct (Shared.traverse _ _ _ _ _ _) as [checked' component].
  destruct (2 <=? List.length component)%nat eqn:Hlen.
  2:{ cbn [JS.stateOf fst]. destruct (frame_release component s) as [H1 H2].
      rewrite H1, H2, molecules_release.
      split; [reflexivity|]. split; [reflexivity|].
      exists []. now rewrite app_nil_r. }
  apply Nat.leb_le in Hlen.
  destruct (Engine.determineGeometry _ _ _) as [geometry|];
    [|split; [reflexivity|]; split; [reflexivity|];
      exists []; now rewrite app_nil_r].
  set (s1 := if existsb _ (discoveredMolecules s) then s else _).
  assert (E1 : molecules s1 = molecules s /\ atoms s1 = atoms s
               /\ transientHeatEnergy s1 = transientHeatEnergy s)
    by (subst s1; now destruct (existsb _ _)).
  destruct E1 as (Em & Ea & Et).
  destruct (existsb _ (molecules s1)).
  { cbn [JS.stateOf fst]. rewrite Em, Ea, Et.
    split; [reflexivity|]. split; [reflexivity|].
    exists []. now rewrite app_nil_r. }
  destruct (createAdvancedMolecule_molecules
              (Shared.moleculeIdOf component)
              (Engine.generateSystematicName (resolve s component))
              geometry component s1) as [Hm _].
  destruct (createAdvancedMolecule_frame
              (Shared.moleculeIdOf component)
              (Engine.generateSystematicName (resolve s component))
              geometry component s1) as (Ha & Ht & Hmk).
  rewrite Em in Hm. rewrite Ea in Ha. rewrite Et in Ht.
  destruct (createAdvancedMolecule _ _ _ _ s1) as [[s' [m|]] | [s' m]];
    cbn [JS.stateOf fst snd] in *.
  - split; [exact Ha|]. split; [exact Ht|].
    exists [m]. cbn. rewrite Hm. split; [reflexivity|].
    constructor; [|constructor]. rewrite (Hmk m eq_refl).
    split; [exact Hlen | reflexivity].
  - split; [exact Ha|]. split; [exact Ht|].
    exists []. now rewrite app_nil_r.
  - split; [exact Ha|]. split; [exact Ht|].
    exists []. now rewrite app_nil_r.
Qed.

Lemma identifyAtoms_grow (l : list nat) (acc : JS.outcome (State * list nat)) :
  atoms (fst (JS.stateOf (fold_left identifyAtom l acc)))
  = atoms (fst (JS.stateOf acc))
  /\ transientHeatEnergy (fst (JS.stateOf (fold_left identifyAtom l acc)))
     = transientHeatEnergy (fst (JS.stateOf acc))
  /\ exists added : list Molecule.t,
       molecules (fst (JS.stateOf (fold_left identifyAtom l acc)))
       = (molecules (fst (JS.stateOf acc)) ++ added)%list
       /\ Forall identified added.
Proof.
  revert acc. induction l as [|atom l IH]; intros acc; cbn [fold_left].
  - split; [reflexivity|]. split; [reflexivity|].
    exists []. now rewrite app_nil_r.
  - destruct (IH (identifyAtom acc atom)) as (Ha & Ht & added2 & Hm2 & Hf2).
    destruct (identifyAtom_grows acc atom) as (Ha1 & Ht1 & added1 & Hm1 & Hf1).
    split; [congruence|]. split; [congruence|].
    exists (added1 ++ added2)%list. split.
    + rewrite Hm2, Hm1. now rewrite app_assoc.
    + now apply Forall_app.
Qed.

Lemma identifyMolecules_grows (s : State) :
  atoms (JS.stateOf (identifyMolecules s)) = atoms s
  /\ transientHeatEnergy (JS.stateOf (identifyMolecules s)) = transientHeatEnergy s
  /\ exists added : list Molecule.t,
       molecules (JS.stateOf (identifyMolecules s)) = (molecules s ++ added)%list
       /\ Forall identified added.
Proof.
  unfold identifyMolecules.
  pose proof (identifyAtoms_grow (atoms s) (JS.Returns (s, []))) as H.
  cbn [JS.stateOf fst] in H.
  destruct (fold_left identifyAtom (atoms s) _) as [[s' c] | [s' c]]; exact H.
Qed.

(** X22.  However identification ends, it never removes or changes a molecule
    record, an atom of the atom list or the heat energy: the molecule list
    grows at its end, and every molecule added has at least two atoms and
    the id of its atom set. *)
Theorem identifyMolecules_only_adds (s : State) :
  atoms (JS.stateOf (identifyMolecules s)) = atoms s
  /\ transientHeatEnergy (JS.stateOf (identifyMolecules s)) = transientHeatEnergy s
  /\ exists added : list Molecule.t,
       molecules (JS.stateOf (identifyMolecules s)) = (molecules s ++ added)%list
       /\ Forall identified added.
Proof.
  unfold identifyMolecules.
  pose proof (identifyAtoms_grow (atoms s) (JS.Returns (s, []))) as H.
  cbn [JS.stateOf fst] in H.
  destruct (fold_left identifyAtom (atoms s) _) as [[s' c] | [s' c]]; exact H.
Qed.

(** *** When a molecule can be built *)

Lemma has_In (x : nat) (l : list nat) : Shared.has x l = true <-> In x l.
Proof.
  unfold Shared.has. rewrite existsb_exists. split.
  - intros (y & Hy & E). apply Nat.eqb_eq in E. now subst.
  - intros H. exists x. split; [exact H | apply Nat.eqb_refl].
Qed.

Lemma getAtom_id (store : list Atom.t) (i : nat) (a : Atom.t) :
  Shared.getAtom store i = Some a -> Atom.id a = i.
Proof.
  unfold Shared.getAtom. intros H. apply find_some in H as [_ H].
  now apply Nat.eqb_eq in H.
Qed.

Lemma resolve_ids (store : list Atom.t) (ids : list nat) :
  (forall i, In i ids -> Shared.getAtom store i <> None) ->
  map Atom.id (Shared.resolve store ids) = ids.
Proof.
  unfold Shared.resolve. induction ids as [|i ids IH]; intros H; cbn [flat_map];
    [reflexivity|].
  destruct (Shared.getAtom store i) as [a|] eqn:E.
  - cbn. rewrite (getAtom_id _ _ _ E). f_equal. apply IH.
    intros j Hj. apply H. now right.
  - exfalso. apply (H i); [now left | exact E].
Qed.

Lemma filter_drops {A : Type} (f : A -> bool) (l : list A) (c : A) :
  In c l -> f c = false -> (List.length (filter f l) < List.length l)%nat.
Proof.
  induction l as [|x l IH]; cbn; [tauto|].
  intros [<- | Hin] Hc.
  - rewrite Hc. pose proof (filter_length_le f l). lia.
  - specialize (IH Hin Hc). destruct (f x); cbn; lia.
Qed.

(** Every atom gets a position, except that the tetrahedral and the trigonal
    pyramidal layouts place four atoms around the central one. *)
Lemma positionedIds_covers (atoms : list Atom.t) (geometry : string) :
  atoms <> [] ->
  (geometry = "tetrahedral" \/ geometry = "trigonal_pyramidal" ->
   (List.length atoms <= 5)%nat) ->
  exists positions,
    Engine.positionedIds atoms geometry = Some positions
    /\ positions <> []
    /\ forall a, In a atoms -> Shared.has (Atom.id a) positions = true.
Proof.
  intros Hne Hsize. unfold Engine.positionedIds.
  destruct atoms as [|a [|b [|c rest]]]; [contradiction| | |].
  - eexists. split; [reflexivity|]. split; [discriminate|].
    intros x [<- | []]. apply has_In. now left.
  - eexists. split; [reflexivity|]. split; [discriminate|].
    intros x [<- | [<- | []]]; apply has_In; cbn; auto.
  - set (atoms := a :: b :: c :: rest) in *.
    destruct (Engine.findOptimalCentralAtom atoms) as [central|] eqn:Ec;
      [|discriminate].
    assert (Hin : In central atoms).
    { unfold Engine.findOptimalCentralAtom in Ec. subst atoms.
      injection Ec as <-.
      exact (EngineProps.fold_betterCentral_in (b :: c :: rest) a). }
    eexists. split; [reflexivity|]. split; [discriminate|].
    intros x Hx. apply has_In.
    destruct (Atom.id x =? Atom.id central)%nat eqn:Ex.
    { apply Nat.eqb_eq in Ex. rewrite Ex. now left. }
    right. apply in_map.
    assert (Hother : In x (filter (fun y => negb (Atom.id y =? Atom.id central)%nat)
                             atoms))
      by (apply filter_In; split; [exact Hx | now rewrite Ex]).
    destruct (String.eqb geometry "tetrahedral"
              || String.eqb geometry "trigonal_pyramidal") eqn:Eg;
      [|exact Hother].
    rewrite firstn_all2; [exact Hother|].
    assert (Hg : geometry = "tetrahedral" \/ geometry = "trigonal_pyramidal").
    { apply orb_true_iff in Eg as [Eg | Eg]; apply String.eqb_eq in Eg; auto. }
    specialize (Hsize Hg).
    pose proof (filter_drops (fun y => negb (Atom.id y =? Atom.id central)%nat)
                  atoms central Hin) as Hd.
    cbv beta in Hd. rewrite Nat.eqb_refl in Hd. specialize (Hd eq_refl). lia.
Qed.

Lemma isMember_setMember (store : list Atom.t) (i : nat) (m : bool) (a : nat) :
  Shared.isMember (Shared.setMember i m store) a
  = if (a =? i)%nat
    then match Shared.getAtom store a with Some _ => m | None => false end
    else Shared.isMember store a.
Proof.
  unfold Shared.isMember, Shared.getAtom, Shared.setMember.
  induction store as [|x store IH]; cbn.
  - now destruct (a =? i)%nat.
  - destruct (Atom.id x =? i)%nat eqn:Ei; cbn.
    + destruct (Atom.id x =? a)%nat eqn:Ea; cbn.
      * apply Nat.eqb_eq in Ei, Ea.
        assert (E : (a =? i)%nat = true) by (apply Nat.eqb_eq; congruence).
        now rewrite E.
      * exact IH.
    + destruct (Atom.id x =? a)%nat eqn:Ea; cbn; [|exact IH].
      apply Nat.eqb_eq in Ea. apply Nat.eqb_neq in Ei.
      assert (E : (a =? i)%nat = false) by (apply Nat.eqb_neq; congruence).
      now rewrite E.
Qed.

Lemma getAtom_setMember_found (store : list Atom.t) (i : nat) (m : bool) (j : nat) :
  Shared.getAtom store j <> None ->
  Shared.getAtom (Shared.setMember i m store) j <> None.
Proof.
  unfold Shared.getAtom, Shared.setMember.
  induction store as [|x store IH]; cbn; [tauto|].
  destruct (Atom.id x =? i)%nat; cbn; destruct (Atom.id x =? j)%nat;
    try discriminate; exact IH.
Qed.

Lemma placeAtoms_members (positions ids : list nat) (store store' : list Atom.t) :
  Shared.placeAtoms positions ids store = JS.Returns store' ->
  (forall j, Shared.isMember store j = true -> Shared.isMember store' j = true)
  /\ (forall i, In i ids -> Shared.getAtom store i <> None ->
                Shared.isMember store' i = true).
Proof.
  revert store. induction ids as [|i ids IH]; intros store; cbn.
  - intros [= <-]. split; [auto | intros ? []].
  - destruct (Shared.has i positions); [|discriminate].
    intros H. destruct (IH _ H) as [Hmono Hids].
    assert (Hstep : forall j, Shared.isMember store j = true ->
                              Shared.isMember (Shared.setMember i true store) j = true).
    { intros j Hj. rewrite isMember_setMember.
      destruct (j =? i)%nat; [|exact Hj].
      unfold Shared.isMember in Hj.
      destruct (Shared.getAtom store j); [reflexivity | discriminate]. }
    split.
    + intros j Hj. apply Hmono. now apply Hstep.
    + intros j [<- | Hj] Hfound.
      * apply Hmono. rewrite isMember_setMember, Nat.eqb_refl.
        destruct (Shared.getAtom store i); [reflexivity | contradiction].
      * apply Hids; [exact Hj|]. now apply getAtom_setMember_found.
Qed.

Lemma placeAtoms_returns (positions ids : list nat) (store : list Atom.t) :
  (forall i, In i ids -> Shared.has i positions = true) ->
  exists store', Shared.placeAtoms positions ids store = JS.Returns store'.
Proof.
  revert store. induction ids as [|i ids IH]; intros store H; cbn.
  - now exists store.
  - rewrite (H i (or_introl eq_refl)). apply IH. intros j Hj. apply H. now right.
Qed.

(** X23.  [createAdvancedMolecule] builds the molecule, with the id and the
    name it is given and the atoms in the order of the component, whenever
    the component is not empty, its atoms exist, and the geometry is not
    tetrahedral or trigonal pyramidal with more than five atoms (the two
    layouts that place only four atoms around the central one). *)
Theorem createAdvancedMolecule_returns
    (moleculeId name geometry : string) (ids : list nat) (s : State) :
  ids <> [] ->
  (forall i, In i ids -> getAtom s i <> None) ->
  (geometry = "tetrahedral" \/ geometry = "trigonal_pyramidal" ->
   (List.length ids <= 5)%nat) ->
  exists s',
    createAdvancedMolecule moleculeId name geometry ids s
    = JS.Returns (s', Some (Molecule.mk moleculeId name ids))
    /\ forall i, In i ids -> isMember s' i = true.
Proof.
  intros Hne Hall Hsize. unfold createAdvancedMolecule.
  pose proof (resolve_ids (store s) ids Hall) as Hids.
  assert (Hlen : List.length (resolve s ids) = List.length ids)
    by (unfold resolve; rewrite <- Hids at 2; now rewrite length_map).
  destruct (positionedIds_covers (resolve s ids) geometry) as (positions & Hp & Hn & Hc).
  { intros E. apply Hne. unfold resolve in E. rewrite E in Hids. now rewrite <- Hids. }
  { now rewrite Hlen. }
  rewrite Hp. destruct positions as [|p positions]; [contradiction|].
  assert (Hcover : forall i, In i ids -> Shared.has i (p :: positions) = true).
  { intros i Hi. unfold resolve in Hc. rewrite <- Hids in Hi.
    apply in_map_iff in Hi as (a & <- & Ha). now apply Hc. }
  destruct (placeAtoms_returns (p :: positions) ids (store s) Hcover)
    as (store' & Eplace).
  rewrite Eplace. eexists. split; [reflexivity|].
  intros i Hi. unfold isMember. cbn [store set_bonds set_store].
  destruct (placeAtoms_members _ _ _ _ Eplace) as [_ Hm].
  apply Hm; [exact Hi | now apply Hall].
Qed.

Lemma createAdvancedMolecule_returns_witness :
  exists s',
    createAdvancedMolecule "0-1-2" "trihydrogen (H3)" "tetrahedral" [0; 1; 2]%nat
      Examples.threeHydrogens
    = JS.Returns (s', Some (Molecule.mk "0-1-2" "trihydrogen (H3)" [0; 1; 2]%nat))
    /\ forall i, In i [0; 1; 2]%nat -> isMember s' i = true.
Proof.
  refine (createAdvancedMolecule_returns _ _ "tetrahedral" [0; 1; 2]%nat
            Examples.threeHydrogens _ _ _).
  - discriminate.
  - intros i [<- | [<- | [<- | []]]]; vm_compute; discriminate.
  - intros _. cbn. lia.
Defined.

(** *** Deleting bonds and atoms *)

Lemma set_bonds_same (s : State) : set_bonds (bonds s) s = s.
Proof. now destruct s. Qed.

Lemma removeBond_fresh (bondId : string) (bonds : list Bond.t) :
  existsb (fun b => String.eqb (Bond.id b) bondId) bonds = false ->
  Shared.removeBond bondId bonds = bonds.
Proof.
  unfold Shared.removeBond. induction bonds as [|b bonds IH]; cbn; [reflexivity|].
  destruct (String.eqb (Bond.id b) bondId); cbn; [discriminate|].
  intros H. now rewrite IH.
Qed.

Lemma no_record_no_id (bonds : list Bond.t) (atomA atomB : nat) :
  Shared.bondExists bonds atomA atomB = false ->
  existsb (fun b => String.eqb (Bond.id b) (Shared.bondIdOf atomA atomB)) bonds
  = false.
Proof.
  unfold Shared.bondExists, Shared.isPairRecord.
  induction bonds as [|b bonds IH]; cbn; [reflexivity|].
  intros H. apply orb_false_iff in H as [H1 H2].
  apply orb_false_iff in H1 as [H1 _]. rewrite H1. now apply IH.
Qed.

(** X24.  Creating a bond and deleting it again, both without identification,
    gives back the state: for a pair with no bond record, [deleteBond] undoes
    [createBond]. *)
Theorem deleteBond_undoes_createBond (w : World) (atomA atomB : nat) (s : State) :
  bondExists s atomA atomB = false ->
  JS.andThen (createBond w atomA atomB true s)
    (deleteBond (Shared.bondIdOf atomA atomB) true)
  = JS.Returns s.
Proof.
  intros HE. unfold createBond. rewrite HE. cbn [negb andb JS.andThen].
  unfold deleteBond. cbn [bonds set_bonds]. f_equal.
  unfold Shared.removeBond. rewrite filter_app. cbn.
  rewrite String.eqb_refl. cbn. rewrite app_nil_r.
  fold (Shared.removeBond (Shared.bondIdOf atomA atomB) (bonds s)).
  rewrite removeBond_fresh by (now apply no_record_no_id).
  now destruct s.
Qed.

Lemma deleteBond_undoes_createBond_witness :
  bondExists Examples.threeHydrogens 0 1 = false
  /\ JS.andThen (createBond Examples.closeWorld 0 1 true Examples.threeHydrogens)
       (deleteBond (Shared.bondIdOf 0 1) true)
     = JS.Returns Examples.threeHydrogens.
Proof.
  assert (H : bondExists Examples.threeHydrogens 0 1 = false) by reflexivity.
  split; [exact H|].
  exact (deleteBond_undoes_createBond Examples.closeWorld 0 1
           Examples.threeHydrogens H).
Defined.

Lemma shrinks_In (l l' : list Bond.t) (b : Bond.t) :
  Shared.shrinks l l' -> In b l' -> In b l.
Proof. intros [f ->] H. now apply filter_In in H. Qed.

Lemma removeBond_not_In (bondId : string) (bonds : list Bond.t) (b : Bond.t) :
  In b (Shared.removeBond bondId bonds) -> Bond.id b <> bondId.
Proof.
  unfold Shared.removeBond. intros H. apply filter_In in H as [_ H].
  apply negb_true_iff in H. now apply String.eqb_neq in H.
Qed.

Lemma deleteBond_identify (bondId : string) (s s' : State) :
  deleteBond bondId false s = JS.Returns s' ->
  atoms s' = atoms s /\ Shared.shrinks (bonds s) (bonds s')
  /\ forall b, In b (bonds s') -> Bond.id b <> bondId.
Proof.
  unfold deleteBond. cbn [negb]. intros H.
  set (s1 := set_bonds _ s) in H.
  destruct (identifyMolecules_grows s1) as (Ha & _).
  pose proof (identifyMolecules_shrinks s1) as Hs.
  rewrite H in Ha, Hs. cbn [JS.stateOf] in Ha, Hs.
  split; [exact Ha|]. split.
  - eapply shrinks_trans; [apply shrinks_removeBond | exact Hs].
  - intros b Hb. apply (removeBond_not_In bondId (bonds s)).
    exact (shrinks_In _ _ _ Hs Hb).
Qed.

Lemma deleteBonds_fold (bondsToRemove : list Bond.t) (acc : JS.outcome State)
    (s' : State) :
  fold_left (fun acc b => JS.andThen acc (deleteBond (Bond.id b) false))
    bondsToRemove acc = JS.Returns s' ->
  exists s, acc = JS.Returns s
    /\ atoms s' = atoms s /\ Shared.shrinks (bonds s) (bonds s')
    /\ forall doomed b, In doomed bondsToRemove -> In b (bonds s') ->
                        Bond.id b <> Bond.id doomed.
Proof.
  revert acc. induction bondsToRemove as [|d rest IH]; intros acc; cbn [fold_left].
  - intros ->. exists s'. split; [reflexivity|]. split; [reflexivity|].
    split; [apply shrinks_refl | intros ? ? []].
  - intros H. destruct (IH _ H) as (s1 & H1 & Ha1 & Hs1 & Hd1).
    destruct acc as [s|s]; cbn [JS.andThen] in H1; [|discriminate].
    destruct (deleteBond_identify _ _ _ H1) as (Ha0 & Hs0 & Hd0).
    exists s. split; [reflexivity|]. split; [congruence|].
    split; [eapply shrinks_trans; eassumption|].
    intros doomed b [<- | Hin] Hb.
    + apply Hd0. exact (shrinks_In _ _ _ Hs1 Hb).
    + exact (Hd1 doomed b Hin Hb).
Qed.

Lemma deleteBonds_returns (bondsToRemove : list Bond.t) (s s' : State) :
  deleteBonds bondsToRemove s = JS.Returns s' ->
  atoms s' = atoms s /\ Shared.shrinks (bonds s) (bonds s')
  /\ forall doomed b, In doomed bondsToRemove -> In b (bonds s') ->
                      Bond.id b <> Bond.id doomed.
Proof.
  intros H. destruct (deleteBonds_fold _ _ _ H) as (s0 & [= <-] & H1). exact H1.
Qed.

(** X25.  When [deleteAtom] returns, the atom is gone from the atom list and
    no bond record ends at it. *)
Theorem deleteAtom_detaches (atomToDelete : nat) (s s' : State) :
  deleteAtom atomToDelete s = JS.Returns s' ->
  ~ In atomToDelete (atoms s')
  /\ Shared.connectedBonds (bonds s') atomToDelete = [].
Proof.
  unfold deleteAtom.
  set (afterMolecule := match find _ (molecules s) with
                        | Some m => _
                        | None => JS.Returns s
                        end).
  destruct afterMolecule as [s3|s3]; cbn [JS.andThen]; [|discriminate].
  set (s4 := set_atoms _ s3).
  destruct (deleteBonds (Shared.connectedBonds (bonds s4) atomToDelete) s4)
    as [s5|s5] eqn:E5; cbn [JS.andThen]; [|discriminate].
  intros H6.
  destruct (deleteBonds_returns _ _ _ E5) as (Ha5 & Hs5 & Hd5).
  destruct (identifyMolecules_grows s5) as (Ha6 & _).
  pose proof (identifyMolecules_shrinks s5) as Hs6.
  rewrite H6 in Ha6, Hs6. cbn [JS.stateOf] in Ha6, Hs6.
  split.
  - rewrite Ha6, Ha5. subst s4. cbn [atoms set_atoms].
    intros Hin. apply filter_In in Hin as [_ Hin].
    now rewrite Nat.eqb_refl in Hin.
  - destruct (Shared.connectedBonds (bonds s') atomToDelete) as [|b rest] eqn:Ec;
      [reflexivity|].
    assert (Hb : In b (Shared.connectedBonds (bonds s') atomToDelete))
      by (rewrite Ec; now left).
    unfold Shared.connectedBonds in Hb. apply filter_In in Hb as [Hb Ht].
    assert (Hb5 : In b (bonds s5)) by exact (shrinks_In _ _ _ Hs6 Hb).
    assert (Hb4 : In b (bonds s4)) by exact (shrinks_In _ _ _ Hs5 Hb5).
    exfalso. apply (Hd5 b b); [|exact Hb5 | reflexivity].
    unfold Shared.connectedBonds. apply filter_In. now split.
Qed.

Lemma deleteAtom_detaches_witness :
  deleteAtom 0 (JS.stateOf Examples.hydrogenPair)
  = JS.Returns (JS.stateOf (deleteAtom 0 (JS.stateOf Examples.hydrogenPair)))
  /\ ~ In 0%nat (atoms (JS.stateOf (deleteAtom 0 (JS.stateOf Examples.hydrogenPair))))
  /\ Shared.connectedBonds
       (bonds (JS.stateOf (deleteAtom 0 (JS.stateOf Examples.hydrogenPair)))) 0
     = [].
Proof.
  assert (H : deleteAtom 0 (JS.stateOf Examples.hydrogenPair)
              = JS.Returns
                  (JS.stateOf (deleteAtom 0 (JS.stateOf Examples.hydrogenPair))))
    by (vm_compute; reflexivity).
  split; [exact H|].
  exact (deleteAtom_detaches 0 _ _ H).
Defined.

(** *** Breaking a molecule *)

Lemma isMember_setMember_false (store : list Atom.t) (i a : nat) :
  Shared.isMember (Shared.setMember i false store) a
  = if (a =? i)%nat then false else Shared.isMember store a.
Proof.
  rewrite isMember_setMember. destruct (a =? i)%nat; [|reflexivity].
  now destruct (Shared.getAtom store a).
Qed.

Lemma isMember_release (ids : list nat) (s : State) (a : nat) :
  isMember (fold_left (fun st i => setMember i false st) ids s) a
  = if Shared.has a ids then false else isMember s a.
Proof.
  revert s. induction ids as [|i ids IH]; intros s; cbn [fold_left]; [reflexivity|].
  rewrite IH. unfold Shared.has. cbn [existsb].
  fold (Shared.has a ids).
  destruct (Shared.has a ids); [now rewrite orb_true_r|]. rewrite orb_false_r.
  unfold isMember, setMember. cbn [store set_store].
  apply isMember_setMember_false.
Qed.

(** X26.  [breakMolecule] frees every atom of the molecule, removes the
    molecule records with its id and no other, keeps the bond list, and
    leaves the list of molecule names in step with the molecules. *)
Theorem breakMolecule_frees (molecule : Molecule.t) (s : State) :
  (forall a, In a (Molecule.atoms molecule) ->
             isMember (breakMolecule molecule s) a = false)
  /\ (forall a, ~ In a (Molecule.atoms molecule) ->
                isMember (breakMolecule molecule s) a = isMember s a)
  /\ molecules (breakMolecule molecule s)
     = filter (fun m => negb (String.eqb (Molecule.id m) (Molecule.id molecule)))
         (molecules s)
  /\ bonds (breakMolecule molecule s) = bonds s
  /\ moleculeNames (breakMolecule molecule s)
     = map Molecule.name (molecules (breakMolecule molecule s)).
Proof.
  unfold breakMolecule.
  set (s1 := set_molecules _ s).
  assert (Hhas : forall a, Shared.has a (Molecule.atoms molecule) = true
                           <-> In a (Molecule.atoms molecule)).
  { intros a. unfold Shared.has. rewrite existsb_exists. split.
    - intros (x & Hx & E). apply Nat.eqb_eq in E. now subst.
    - intros H. exists a. split; [exact H | apply Nat.eqb_refl]. }
  split; [|split; [|split; [|split]]].
  - intros a Ha. change (isMember (set_moleculeNames ?n ?st)) with (isMember st).
    rewrite isMember_release. apply Hhas in Ha. now rewrite Ha.
  - intros a Ha. change (isMember (set_moleculeNames ?n ?st)) with (isMember st).
    rewrite isMember_release.
    destruct (Shared.has a (Molecule.atoms molecule)) eqn:E;
      [apply Hhas in E; contradiction | reflexivity].
  - cbn [molecules set_moleculeNames]. now rewrite molecules_release.
  - cbn [bonds set_moleculeNames]. now rewrite bonds_release.
  - reflexivity.
Qed.

Lemma createBond_twice_one_record_witness :
  bondExists (Examples.addHydrogen (Examples.addHydrogen initial)) 0 1 = false
  /\ exists s1,
       createBond Examples.closeWorld 0 1 true
         (Examples.addHydrogen (Examples.addHydrogen initial)) = JS.Returns s1
       /\ createBond Examples.closeWorld 1 0 true s1 = JS.Returns s1
       /\ List.length (Shared.pairRecords (bonds s1) 0 1) = 1%nat.
Proof.
  assert (H : bondExists (Examples.addHydrogen (Examples.addHydrogen initial)) 0 1
              = false) by reflexivity.
  split; [exact H|].
  exact (createBond_twice_one_record Examples.closeWorld 0 1
           (Examples.addHydrogen (Examples.addHydrogen initial)) H).
Defined.

End BondProps.

(** ** The reaction lock *)

Module ReactionProps.
Import Simulation.
Import Simulation.Reaction.
Import Examples.

(** While [reactionInProgress] is set, the bond scan and a reaction attempt
    return at once: the state is as it was and no timer is set. *)
Lemma lock_skips_scan_and_attempt (b : Bodies) (now : Z) (s : State) :
  reactionInProgress s = true ->
  checkAndCreateBonds (world b) now s = s
  /\ attemptMolecularReactions b s = JS.Returns (s, []).
Proof.
  intros Hlock. unfold checkAndCreateBonds, attemptMolecularReactions.
  now rewrite Hlock.
Qed.

(** *** Which stages take the lock *)

Lemma lock_markAll (m : bool) (ids : list nat) (s : State) :
  reactionInProgress (markAll m ids s) = reactionInProgress s
  /\ store (markAll m ids s)
     = fold_left (fun st a => Shared.setMember a m st) ids (store s).
Proof.
  unfold markAll. revert s. induction ids as [|a ids IH]; intros s; cbn [fold_left].
  - auto.
  - destruct (IH (setMember a m s)) as [H1 H2]. now rewrite H1, H2.
Qed.

Lemma lock_deductEnergy (energyConsumed : Q) (s : State) :
  reactionInProgress (deductEnergy energyConsumed s) = reactionInProgress s.
Proof. reflexivity. Qed.

Lemma lock_removeMolecules (reactants : list Molecule.t) (s : State) :
  reactionInProgress
    (fold_left (fun st molecule => removeMolecule molecule st) reactants s)
  = reactionInProgress s.
Proof.
  revert s. induction reactants as [|m reactants IH]; intros s; cbn [fold_left];
    [reflexivity|].
  now rewrite IH.
Qed.

Lemma lock_andAlso (r : State * list Timer) (k : State -> State * list Timer) :
  (forall s, reactionInProgress (fst (k s)) = reactionInProgress s) ->
  reactionInProgress (fst (andAlso r k)) = reactionInProgress (fst r).
Proof.
  intros Hk. unfold andAlso. specialize (Hk (fst r)).
  destruct (k (fst r)) as [s' timers']. exact Hk.
Qed.

Lemma lock_createMoleculeFromAtoms (moleculeAtoms : list nat) (s : State) :
  reactionInProgress (fst (createMoleculeFromAtoms moleculeAtoms s))
  = reactionInProgress s.
Proof. cbn. apply lock_markAll. Qed.

Lemma lock_formSpecificMolecule
    (atoms processedAtoms : list nat) (moleculeType : string) (s : State) :
  reactionInProgress (fst (formSpecificMolecule atoms processedAtoms moleculeType s))
  = reactionInProgress s.
Proof.
  unfold formSpecificMolecule.
  repeat match goal with
         | |- context [if ?c then _ else _] => destruct c
         | |- context [match ?l with [] => _ | _ :: _ => _ end] => destruct l
         end;
    try reflexivity; apply lock_createMoleculeFromAtoms.
Qed.

Lemma lock_times (n : nat) (k : State -> State * list Timer)
    (r : State * list Timer) :
  (forall s, reactionInProgress (fst (k s)) = reactionInProgress s) ->
  reactionInProgress (fst (Nat.iter n (fun r' => andAlso r' k) r))
  = reactionInProgress (fst r).
Proof.
  intros Hk. induction n as [|n IH]; [reflexivity|].
  rewrite Nat.iter_succ. cbv beta. now rewrite lock_andAlso.
Qed.

Lemma lock_formDiatomicMolecules (atoms processedAtoms : list nat) (s : State) :
  reactionInProgress (fst (formDiatomicMolecules atoms processedAtoms s))
  = reactionInProgress s.
Proof.
  unfold formDiatomicMolecules.
  generalize (flat_map (fun group : nat * list nat => shiftPairs (snd group))
                (fold_left (fun groups atom => addToGroup (protonsOf s atom) atom groups)
                   (filter (fun a => negb (Shared.has a processedAtoms)) atoms) [])).
  intros l.
  change (reactionInProgress s) with (reactionInProgress (fst (s, @nil Timer))).
  generalize (s, @nil Timer). induction l as [|p l IH]; intros r; cbn [fold_left];
    [reflexivity|].
  rewrite IH. destruct (_ && _); [|reflexivity].
  apply lock_andAlso. intros s'. apply lock_createMoleculeFromAtoms.
Qed.

Lemma lock_formMoleculesFromAtoms (atoms : list nat) (s : State) :
  reactionInProgress (fst (formMoleculesFromAtoms atoms s)) = reactionInProgress s.
Proof.
  unfold formMoleculesFromAtoms. cbv zeta. cbn [fst].
  rewrite lock_andAlso by (intros; apply lock_formDiatomicMolecules).
  repeat match goal with
         | |- context [if ?c then _ else _] => destruct c
         end;
    repeat (rewrite lock_times by (intros; apply lock_formSpecificMolecule));
    reflexivity.
Qed.

(** A molecule-molecule stage that changes anything holds the lock
    afterwards. *)
Lemma attemptMoleculeMoleculeReactions_locks
    (b : Bodies) (systemEnergy : Q) (s : State) :
  attemptMoleculeMoleculeReactions b systemEnergy s = (s, [])
  \/ reactionInProgress (fst (attemptMoleculeMoleculeReactions b systemEnergy s))
     = true.
Proof.
  unfold attemptMoleculeMoleculeReactions. cbv zeta.
  match goal with |- context [match ?w with Some _ => _ | None => _ end] =>
    destruct w as [o2|] end.
  - right. unfold performGenericMoleculeReaction. cbv zeta.
    rewrite lock_formMoleculesFromAtoms, lock_deductEnergy.
    rewrite (proj1 (lock_markAll _ _ _)), lock_removeMolecules. reflexivity.
  - unfold checkOtherMoleculeMoleculeReactions. cbv zeta.
    match goal with |- context [match ?w with Some _ => _ | None => _ end] =>
      destruct w as [carbon|] end.
    + right. rewrite lock_formMoleculesFromAtoms. reflexivity.
    + match goal with |- context [match ?w with Some _ => _ | None => _ end] =>
        destruct w as [nitrogen|] end.
      * right. rewrite lock_formMoleculesFromAtoms. reflexivity.
      * left. reflexivity.
Qed.

Lemma performGenericAtomMoleculeReaction_locks
    (atom : nat) (molecule : Molecule.t) (systemEnergy : Q) (s : State) :
  reactionInProgress
    (fst (performGenericAtomMoleculeReaction atom molecule systemEnergy s)) = true.
Proof.
  unfold performGenericAtomMoleculeReaction, addAtomToMolecule. cbv zeta.
  cbn [fst]. now rewrite lock_deductEnergy, (proj1 (lock_markAll _ _ _)).
Qed.

Lemma createOptimalMolecularStructure_locks
    (atoms : list nat) (systemEnergy : Q) (s : State) :
  atoms <> [] ->
  exists s' timers,
    createOptimalMolecularStructure atoms systemEnergy s = JS.Returns (s', timers)
    /\ reactionInProgress s' = true.
Proof.
  intros H. unfold createOptimalMolecularStructure.
  destruct atoms as [|a atoms]; [contradiction|].
  do 2 eexists. split; [reflexivity|].
  now rewrite (proj1 (lock_markAll _ _ _)).
Qed.

Lemma find_same {A : Type} (f g : A -> bool) (l : list A) :
  (forall x, f x = g x) -> find f l = find g l.
Proof.
  intros H. induction l as [|x l IH]; cbn; [reflexivity|].
  now rewrite H, IH.
Qed.

(** The search reads the state through the atom objects only. *)
Lemma search_store (b : Bodies) (systemEnergy : Q) (s s' : State)
    (freeAtoms : list nat) :
  store s' = store s ->
  search b systemEnergy s' freeAtoms = search b systemEnergy s freeAtoms.
Proof.
  intros Hs.
  assert (Hp : forall atomA atomB,
             pairReacts systemEnergy s' atomA atomB
             = pairReacts systemEnergy s atomA atomB).
  { intros. unfold pairReacts, getMinimumActivationEnergy, resolve, protonsOf.
    now rewrite Hs. }
  assert (Ht : forall atomA atomB atomC,
             thirdReacts b systemEnergy s' atomA atomB atomC
             = thirdReacts b systemEnergy s atomA atomB atomC).
  { intros. unfold thirdReacts, resolve. now rewrite Hs. }
  assert (Hfrom : forall atomA rest,
             searchFrom b systemEnergy s' atomA rest
             = searchFrom b systemEnergy s atomA rest).
  { intros atomA rest. induction rest as [|atomB after IH]; cbn [searchFrom];
      [reflexivity|].
    rewrite Hp, IH.
    rewrite (find_same (thirdReacts b systemEnergy s' atomA atomB)
               (thirdReacts b systemEnergy s atomA atomB)) by (intros; apply Ht).
    reflexivity. }
  induction freeAtoms as [|atomA rest IH]; cbn [search]; [reflexivity|].
  now rewrite Hfrom, IH.
Qed.

(** [createBond(atomA, atomB, true)] returns; it writes the bond list only. *)
Lemma createBond_suppressed (w : World) (atomA atomB : nat) (s : State) :
  exists recordList,
    createBond w atomA atomB true s = JS.Returns (set_bonds recordList s).
Proof.
  unfold createBond. destruct (bondExists s atomA atomB).
  - exists (bonds s). now destruct s.
  - cbn. eexists. reflexivity.
Qed.

(** What one multi-atom stage does: nothing, a pair bonded with the lock
    left as it was, or a group of three with the lock taken. *)
Lemma attemptMultiAtomCombinations_cases
    (b : Bodies) (systemEnergy : Q) (s : State) :
  (search b systemEnergy s (free s) = None
   /\ attemptMultiAtomCombinations b systemEnergy s = JS.Returns (s, []))
  \/ (exists atomA atomB recordList,
        search b systemEnergy s (free s) = Some (TwoAtoms atomA atomB)
        /\ attemptMultiAtomCombinations b systemEnergy s
           = JS.Returns (set_bonds recordList s, [(100%Z, IdentifyMolecules)]))
  \/ (exists s' timers,
        attemptMultiAtomCombinations b systemEnergy s = JS.Returns (s', timers)
        /\ reactionInProgress s' = true).
Proof.
  unfold attemptMultiAtomCombinations. cbv zeta.
  destruct (search b systemEnergy s (free s)) as [[atomA atomB | atomA atomB atomC]|].
  - right. left.
    destruct (createBond_suppressed (world b) atomA atomB s) as (recordList & E).
    exists atomA, atomB, recordList. rewrite E. auto.
  - right. right. apply createOptimalMolecularStructure_locks. discriminate.
  - left. auto.
Qed.

Lemma free_set_bonds (recordList : list Bond.t) (s : State) :
  free (set_bonds recordList s) = free s.
Proof. reflexivity. Qed.

(** An attempt returns.  Either it changes nothing, or it leaves the lock
    taken, or it is the pair branch of the multi-atom stage: then the lock
    is left free, only the bond list is written, and every timer set is the
    identification 100 ms later. *)
Lemma attemptMolecularReactions_cases (b : Bodies) (s : State) :
  reactionInProgress s = false ->
  exists s' timers,
    attemptMolecularReactions b s = JS.Returns (s', timers)
    /\ ((s' = s /\ timers = [])
        \/ reactionInProgress s' = true
        \/ (reactionInProgress s' = false
            /\ (exists recordList, s' = set_bonds recordList s)
            /\ timers <> []
            /\ Forall (fun timer => timer = (100%Z, IdentifyMolecules)) timers)).
Proof.
  intros Hfree. unfold attemptMolecularReactions. rewrite Hfree.
  destruct (Shared.lt 20 (transientHeatEnergy s)); [|eauto 6].
  cbv zeta. set (systemEnergy := calculateSystemEnergy (world b) s).
  unfold attemptComplexMolecularFormation.
  destruct (attemptMoleculeMoleculeReactions_locks b systemEnergy s) as [E1 | L1].
  2:{ destruct (attemptMoleculeMoleculeReactions b systemEnergy s) as [s1 t1].
      cbn [fst] in L1. cbn [thenStep]. rewrite L1. cbn [negb thenStep].
      rewrite L1. cbn [negb]. rewrite !app_nil_r. eauto 6. }
  rewrite E1. cbn [thenStep]. rewrite Hfree. cbn [negb].
  unfold attemptAtomMoleculeCombinations. cbv zeta.
  match goal with |- context [find ?f ?l] => destruct (find f l) as [[atom molecule]|] end.
  { pose proof (performGenericAtomMoleculeReaction_locks atom molecule
                  systemEnergy s) as L2.
    destruct (performGenericAtomMoleculeReaction atom molecule systemEnergy s)
      as [s2 t2].
    cbn [fst] in L2. cbn [thenStep app]. rewrite L2. cbn [negb].
    rewrite app_nil_r. eauto 6. }
  destruct (attemptMultiAtomCombinations_cases b systemEnergy s)
    as [[Hs E] | [(atomA & atomB & recordList & Hs & E) | (s2 & t2 & E & L)]].
  - rewrite E. cbn [thenStep app]. rewrite Hfree. cbn [negb]. rewrite E.
    eauto 6.
  - rewrite E. cbn [thenStep app].
    change (reactionInProgress (set_bonds recordList s)) with (reactionInProgress s).
    rewrite Hfree. cbn [negb].
    destruct (attemptMultiAtomCombinations_cases b systemEnergy
                (set_bonds recordList s))
      as [[Hs' E'] | [(atomA' & atomB' & recordList' & Hs' & E')
                     | (s3 & t3 & E' & L')]].
    + rewrite free_set_bonds, (search_store b systemEnergy s (set_bonds recordList s)) in Hs'
        by reflexivity.
      congruence.
    + rewrite E'. do 2 eexists. split; [reflexivity|].
      right. right. split; [exact Hfree|].
      split; [exists recordList'; now destruct s|].
      split; [discriminate|]. repeat constructor.
    + exfalso. unfold attemptMultiAtomCombinations in E'. cbv zeta in E'.
      rewrite free_set_bonds, (search_store b systemEnergy s (set_bonds recordList s)) in E'
        by reflexivity.
      rewrite Hs in E'.
      destruct (createBond_suppressed (world b) atomA atomB
                  (set_bonds recordList s)) as (recordList' & Eb).
      rewrite Eb in E'. injection E' as <- _.
      change (reactionInProgress s = true) in L'. congruence.
  - rewrite E. cbn [thenStep app]. rewrite L. cbn [negb]. rewrite app_nil_r.
    eauto 6.
Qed.

(** *** The pair branch on a concrete scene *)


(** The sibling branch for three atoms takes the lock.  On a heated oxygen
    and two hydrogens the same frame sets [reactionInProgress]; the next
    frame is refused; the first timer of the reaction bonds the oxygen to
    both hydrogens, and its last timer identifies the molecule and releases
    the lock. *)
Lemma triple_reaction_takes_lock :
  exists s1 s2 s3,
    attemptMolecularReactions apartBodies
      (checkAndCreateBonds (world apartBodies) 5000
         (decayTransientHeat hotWaterAtoms))
    = JS.Returns (s1, [(100%Z, CreateOptimalBonds [0; 1; 2]%nat)])
    /\ reactionInProgress s1 = true
    /\ attemptMolecularReactions arrangedBodies
         (checkAndCreateBonds (world arrangedBodies) 5016 (decayTransientHeat s1))
       = JS.Returns (decayTransientHeat s1, [])
    /\ fire arrangedBodies (CreateOptimalBonds [0; 1; 2]%nat) s1
       = JS.Returns (s2, [(200%Z, IdentifyAndRelease)])
    /\ map Bond.id (bonds s2) = ["0-1"; "0-2"]
    /\ reactionInProgress s2 = true
    /\ fire arrangedBodies IdentifyAndRelease s2 = JS.Returns (s3, [])
    /\ map Molecule.atoms (molecules s3) = [[0; 2; 1]%nat]
    /\ reactionInProgress s3 = false.
Proof.
  do 3 eexists. do 8 (split; [vm_compute; reflexivity|]).
  vm_compute; reflexivity.
Qed.

End ReactionProps.

(** ** Valence, names and ids on concrete scenes *)

Module ScenarioProps.
Import Simulation.
Import Examples.

(** C1 on three hydrogen atoms.  One bond scan starts the gradual bonds 0-1,
    0-2 and 1-2.  When the first completes, atom 0 holds one bond, which is the
    max-bonds of hydrogen, and the engine still accepts the pair 0-2; when all
    three have completed atom 0 holds two bonds. *)
Theorem hydrogen_bonded_beyond_max_bonds :
  exists s1 s3,
    afterFirstBond = JS.Returns s1
    /\ bondCount s1 0 = 1%nat
    /\ option_map Engine.maxBonds (Engine.get (protonsOf s1 0)) = Some 1%nat
    /\ engineCanFormBond s1 0 2 (calculateSystemEnergy closeWorld s1) = true
    /\ afterAllBonds = JS.Returns s3
    /\ bondCount s3 0 = 2%nat
    /\ option_map Engine.maxBonds (Engine.get (protonsOf s3 0)) = Some 1%nat.
Proof.
  do 2 eexists. do 6 (split; [vm_compute; reflexivity|]).
  vm_compute; reflexivity.
Qed.

(** The scan that started the three bonds. *)
Lemma scan_starts_three_bonds :
  map fst (bondingTransitions afterScan) = ["0-1"; "0-2"; "1-2"].
Proof. vm_compute. reflexivity. Qed.

(** C3 on a bonded hydrogen pair and a third hydrogen.  Atom 0 holds one
    bond record, the max-bonds of hydrogen, so its bond count is not below
    its max; [canFormBond] accepts it with atom 2 at 5 units of energy all
    the same, because the count it compares is the 0 of
    [getCurrentBondCount]. *)
Theorem canFormBond_accepts_atom_at_max_bonds :
  exists s atomA atomB element,
    JS.andThen hydrogenPair (fun s0 => JS.Returns (addHydrogen s0))
    = JS.Returns s
    /\ getAtom s 0 = Some atomA /\ getAtom s 2 = Some atomB
    /\ Engine.get (Atom.protons atomA) = Some element
    /\ bondCount s 0 = Engine.maxBonds element
    /\ Engine.getCurrentBondCount atomA = 0%nat
    /\ Engine.canFormBond atomA atomB 5 = true.
Proof.
  do 4 eexists. do 6 (split; [vm_compute; reflexivity|]).
  vm_compute; reflexivity.
Qed.

(** The mode-driven component counts the bond records before it accepts
    a pair: an endpoint at the max-bonds of its table is refused. *)
Theorem modes_shouldFormBond_checks_valence
    (s : ModesSimulation.State) (atomA atomB : nat) (systemEnergy : Q) :
  (Shared.orElse ModesSimulation.maxBonds (ModesSimulation.protonsOf s atomA) 4
   <= ModesSimulation.countAtomBonds s atomA)%nat
  \/ (Shared.orElse ModesSimulation.maxBonds (ModesSimulation.protonsOf s atomB) 4
      <= ModesSimulation.countAtomBonds s atomB)%nat ->
  ModesSimulation.shouldFormBond s atomA atomB systemEnergy = false.
Proof.
  intros H. unfold ModesSimulation.shouldFormBond.
  destruct (negb _); [reflexivity|].
  apply andb_false_iff.
  destruct H as [H | H]; [left | right]; apply Nat.ltb_ge; exact H.
Qed.

Lemma modes_shouldFormBond_checks_valence_witness :
  ((Shared.orElse ModesSimulation.maxBonds
      (ModesSimulation.protonsOf modesBondedPair 0) 4
    <= ModesSimulation.countAtomBonds modesBondedPair 0)%nat
   \/ (Shared.orElse ModesSimulation.maxBonds
         (ModesSimulation.protonsOf modesBondedPair 2) 4
       <= ModesSimulation.countAtomBonds modesBondedPair 2)%nat)
  /\ ModesSimulation.shouldFormBond modesBondedPair 0 2 50 = false.
Proof.
  assert (H : (Shared.orElse ModesSimulation.maxBonds
                 (ModesSimulation.protonsOf modesBondedPair 0) 4
               <= ModesSimulation.countAtomBonds modesBondedPair 0)%nat
              \/ (Shared.orElse ModesSimulation.maxBonds
                    (ModesSimulation.protonsOf modesBondedPair 2) 4
                  <= ModesSimulation.countAtomBonds modesBondedPair 2)%nat)
    by (left; vm_compute; lia).
  split; [exact H|].
  exact (modes_shouldFormBond_checks_valence modesBondedPair 0 2 50 H).
Defined.

(** X10.  In the mode-driven component a manual bond request for two selected
    atoms with no bond between them, one of which is at its max-bonds,
    returns with the bonds untouched, the max-bonds warning shown and the
    selection cleared. *)
Theorem modes_createManualBond_checks_valence
    (s : ModesSimulation.State) (atomA atomB : nat) (rest : list nat) :
  ModesSimulation.selectedAtomsForBonding s = atomA :: atomB :: rest ->
  existsb (fun b => ((Bond.atomA b =? atomA)%nat && (Bond.atomB b =? atomB)%nat)
                    || ((Bond.atomA b =? atomB)%nat && (Bond.atomB b =? atomA)%nat))
    (ModesSimulation.bonds s) = false ->
  (Shared.orElse ModesSimulation.maxBonds (ModesSimulation.protonsOf s atomA) 4
   <= ModesSimulation.countAtomBonds s atomA)%nat
  \/ (Shared.orElse ModesSimulation.maxBonds (ModesSimulation.protonsOf s atomB) 4
      <= ModesSimulation.countAtomBonds s atomB)%nat ->
  exists s',
    ModesSimulation.createManualBond s = JS.Returns s'
    /\ ModesSimulation.bonds s' = ModesSimulation.bonds s
    /\ ModesSimulation.notification s'
       = Some (ModesSimulation.MaxBondsReached, ModesSimulation.warning)
    /\ ModesSimulation.selectedAtomsForBonding s' = [].
Proof.
  intros Hsel Hnone Hmax. unfold ModesSimulation.createManualBond.
  rewrite Hsel, Hnone.
  assert (E : ((Shared.orElse ModesSimulation.maxBonds
                  (ModesSimulation.protonsOf s atomA) 4
                <=? ModesSimulation.countAtomBonds s atomA)%nat
               || (Shared.orElse ModesSimulation.maxBonds
                     (ModesSimulation.protonsOf s atomB) 4
                   <=? ModesSimulation.countAtomBonds s atomB)%nat) = true).
  { apply orb_true_iff.
    destruct Hmax as [H | H]; [left | right]; apply Nat.leb_le; exact H. }
  rewrite E. eexists. repeat split.
Qed.

Lemma modes_createManualBond_checks_valence_witness :
  ModesSimulation.selectedAtomsForBonding modesSelection = [0; 2]%nat
  /\ exists s',
       ModesSimulation.createManualBond modesSelection = JS.Returns s'
       /\ ModesSimulation.bonds s' = ModesSimulation.bonds modesSelection
       /\ ModesSimulation.notification s'
          = Some (ModesSimulation.MaxBondsReached, ModesSimulation.warning)
       /\ ModesSimulation.selectedAtomsForBonding s' = [].
Proof.
  assert (Hsel : ModesSimulation.selectedAtomsForBonding modesSelection
                 = [0; 2]%nat) by reflexivity.
  split; [exact Hsel|].
  refine (modes_createManualBond_checks_valence modesSelection 0 2 [] Hsel
            eq_refl _).
  left. vm_compute. lia.
Defined.

(** C2 on a hydrogen pair and on the atoms of water.  Identification names
    the molecules by the engine's generated name, [dihydrogen (H₂)] and
    [dihydrogen oxygen (H₂O)], and the geometry it computes for the water
    atoms is [complex]; the table of known compositions, which it does not
    consult, has [Hydrogen Gas (H₂)] and [Water (H₂O)] / [bent] for them. *)
Theorem identification_bypasses_known_compositions :
  exists s2 s3,
    JS.andThen hydrogenPair identifyMolecules = JS.Returns s2
    /\ map Molecule.name (molecules s2) = ["dihydrogen (H₂)"]
    /\ MoleculeInfo.name (identifyMoleculeType (resolve s2 [0; 1]%nat))
       = "Hydrogen Gas (H₂)"
    /\ JS.andThen waterAtoms identifyMolecules = JS.Returns s3
    /\ map Molecule.name (molecules s3) = ["dihydrogen oxygen (H₂O)"]
    /\ map Molecule.atoms (molecules s3) = [[0; 2; 1]%nat]
    /\ (let component := resolve s3 [0; 2; 1]%nat in
        let structure := Engine.calculateOptimalBondingStructure component in
        Engine.determineGeometry component
          (Engine.BondingStructure.bonds structure)
          (Engine.BondingStructure.centralAtom structure)) = Some "complex"
    /\ identifyMoleculeType (resolve s3 [0; 2; 1]%nat)
       = MoleculeInfo.mk "Water (H₂O)" "bent" 2.0.
Proof.
  do 2 eexists. split; [vm_compute; reflexivity|].
  split; [reflexivity|]. split; [reflexivity|].
  split; [vm_compute; reflexivity|].
  repeat split; vm_compute; reflexivity.
Qed.

(** The mode-driven component consults its table of known compositions
    first: a hydrogen pair is [Hydrogen Gas (H₂)], one oxygen with two
    hydrogens is [Water (H₂O)]. *)
Theorem modes_identification_uses_known_compositions :
  exists s2 s3,
    JS.andThen modesHydrogenPair ModesSimulation.identifyMolecules = JS.Returns s2
    /\ map Molecule.name (ModesSimulation.molecules s2) = ["Hydrogen Gas (H₂)"]
    /\ JS.andThen modesWaterAtoms ModesSimulation.identifyMolecules = JS.Returns s3
    /\ map Molecule.name (ModesSimulation.molecules s3) = ["Water (H₂O)"].
Proof.
  do 2 eexists. split; [vm_compute; reflexivity|].
  split; [reflexivity|]. split; [vm_compute; reflexivity|]. reflexivity.
Qed.

(** The reaction stage for 2 H₂ + O₂ looks for molecules whose name includes
    [Hydrogen Gas]; the names identification gives never do. *)
Lemma generated_name_is_not_a_gas_name :
  JS.includes "Hydrogen Gas" "dihydrogen (H₂)" = false
  /\ JS.includes "Hydrogen Gas" "Hydrogen Gas (H₂)" = true.
Proof. split; reflexivity. Qed.

(** C7 on atoms 2 and 10.  The id of their molecule is [10-2]: the ids are
    ordered as text.  In ascending numeric order it would be [2-10]. *)
Theorem molecule_id_orders_ids_as_text :
  exists s,
    JS.andThen bonded_2_10 identifyMolecules = JS.Returns s
    /\ map Molecule.atoms (molecules s) = [[2; 10]%nat]
    /\ map Molecule.id (molecules s) = ["10-2"]
    /\ JS.join "-" (map JS.toString (JS.sortNumeric [2; 10]%nat)) = "2-10".
Proof.
  eexists. split; [vm_compute; reflexivity|].
  repeat split; reflexivity.
Qed.

End ScenarioProps.

(** ** The mode-driven component *)

Module ModesProps.
Import ModesSimulation.
Import SharedProps.

(** *** What identification leaves alone *)

Lemma protonsOf_setMember (i : nat) (m : bool) (store : list Atom.t) (a : nat) :
  Shared.protonsOf (Shared.setMember i m store) a = Shared.protonsOf store a.
Proof.
  unfold Shared.protonsOf, Shared.getAtom, Shared.setMember.
  induction store as [|x store IH]; cbn; [reflexivity|].
  destruct (Atom.id x =? i)%nat; cbn; destruct (Atom.id x =? a)%nat; auto.
Qed.

Lemma protonsOf_placeAtoms (positions ids : list nat) (store : list Atom.t)
    (a : nat) :
  Shared.protonsOf (JS.stateOf (Shared.placeAtoms positions ids store)) a
  = Shared.protonsOf store a.
Proof.
  revert store. induction ids as [|i ids IH]; intros store; cbn; [reflexivity|].
  destruct (Shared.has i positions); cbn; [|reflexivity].
  rewrite IH. apply protonsOf_setMember.
Qed.

(** What identification may change: member flags in the store, bond records
    deleted, molecules and discoveries, the notification. *)
Lemma createMolecule_frame (moleculeId : string) (moleculeInfo : MoleculeInfo.t)
    (ids : list nat) (s : State) :
  Shared.shrinks (bonds s)
    (bonds (fst (JS.stateOf (createMolecule moleculeId moleculeInfo ids s))))
  /\ atoms (fst (JS.stateOf (createMolecule moleculeId moleculeInfo ids s)))
     = atoms s
  /\ selectedAtomsForBonding
       (fst (JS.stateOf (createMolecule moleculeId moleculeInfo ids s)))
     = selectedAtomsForBonding s
  /\ forall a,
       protonsOf (fst (JS.stateOf (createMolecule moleculeId moleculeInfo ids s))) a
       = protonsOf s a.
Proof.
  unfold createMolecule.
  destruct (positionedIds (resolve s ids) (MoleculeInfo.geometry moleculeInfo))
    as [[|p positions]|]; cbn [JS.stateOf fst];
    try (split; [apply shrinks_refl | auto]).
  pose proof (protonsOf_placeAtoms (p :: positions) ids (store s)) as Hp.
  destruct (Shared.placeAtoms (p :: positions) ids (store s)); cbn [JS.stateOf fst] in *.
  - split; [apply shrinks_removeInternalBonds|]. split; [reflexivity|].
    split; [reflexivity | exact Hp].
  - split; [apply shrinks_refl|]. split; [reflexivity|].
    split; [reflexivity | exact Hp].
Qed.

Lemma identifyAtom_frame (acc : JS.outcome (State * list nat)) (atom : nat) :
  Shared.shrinks (bonds (fst (JS.stateOf acc)))
    (bonds (fst (JS.stateOf (identifyAtom acc atom))))
  /\ atoms (fst (JS.stateOf (identifyAtom acc atom))) = atoms (fst (JS.stateOf acc))
  /\ selectedAtomsForBonding (fst (JS.stateOf (identifyAtom acc atom)))
     = selectedAtomsForBonding (fst (JS.stateOf acc))
  /\ forall a,
       protonsOf (fst (JS.stateOf (identifyAtom acc atom))) a
       = protonsOf (fst (JS.stateOf acc)) a.
Proof.
  unfold identifyAtom.
  destruct acc as [[s checked] | [s checked]]; cbn [JS.stateOf fst];
    [|split; [apply shrinks_refl | auto]].
  destruct (Shared.has atom checked || isMember s atom);
    [split; [apply shrinks_refl | auto]|].
  destruct (Shared.traverse _ _ _ _ _ _) as [checked' component].
  destruct (2 <=? List.length component)%nat;
    [|split; [apply shrinks_refl | auto]].
  destruct (existsb _ (molecules s)); [split; [apply shrinks_refl | auto]|].
  pose proof (createMolecule_frame (Shared.moleculeIdOf component)
                (identifyMoleculeType (resolve s component)) component s) as H.
  destruct (createMolecule _ _ _ s) as [[s' [m|]] | [s' m]];
    cbn [JS.stateOf fst] in *; try exact H.
  destruct (existsb _ _); exact H.
Qed.

Lemma identifyAtoms_frame (l : list nat) (acc : JS.outcome (State * list nat)) :
  Shared.shrinks (bonds (fst (JS.stateOf acc)))
    (bonds (fst (JS.stateOf (fold_left identifyAtom l acc))))
  /\ atoms (fst (JS.stateOf (fold_left identifyAtom l acc)))
     = atoms (fst (JS.stateOf acc))
  /\ selectedAtomsForBonding (fst (JS.stateOf (fold_left identifyAtom l acc)))
     = selectedAtomsForBonding (fst (JS.stateOf acc))
  /\ forall a,
       protonsOf (fst (JS.stateOf (fold_left identifyAtom l acc))) a
       = protonsOf (fst (JS.stateOf acc)) a.
Proof.
  revert acc. induction l as [|atom l IH]; intros acc; cbn [fold_left].
  - split; [apply shrinks_refl | auto].
  - destruct (IH (identifyAtom acc atom)) as (H1 & H2 & H3 & H4).
    destruct (identifyAtom_frame acc atom) as (G1 & G2 & G3 & G4).
    split; [eapply shrinks_trans; eassumption|].
    split; [congruence|]. split; [congruence|].
    intros a. now rewrite H4.
Qed.

Lemma identifyMolecules_frame (s : State) :
  Shared.shrinks (bonds s) (bonds (JS.stateOf (identifyMolecules s)))
  /\ atoms (JS.stateOf (identifyMolecules s)) = atoms s
  /\ selectedAtomsForBonding (JS.stateOf (identifyMolecules s))
     = selectedAtomsForBonding s
  /\ forall a, protonsOf (JS.stateOf (identifyMolecules s)) a = protonsOf s a.
Proof.
  unfold identifyMolecules.
  pose proof (identifyAtoms_frame (atoms s) (JS.Returns (s, []))) as H.
  cbn [JS.stateOf fst] in H.
  destruct (fold_left identifyAtom (atoms s) _) as [[s' c] | [s' c]]; exact H.
Qed.

(** *** The heat energy *)

Lemma energyDecayRate_bounds (s : State) :
  0 <= ReactionsConfig.energyDecayRate (currentModeConfig s) <= 1.
Proof.
  unfold currentModeConfig, SIMULATION_MODES. cbn [Shared.lookupKey].
  repeat (destruct (String.eqb (currentSimulationMode s) _);
          [cbn; split; discriminate|]).
  cbn. split; discriminate.
Qed.

Lemma applyOp_bounds (op : EnergyOp) (s : State) :
  addsNonNegative op ->
  0 <= transientHeatEnergy s <= 100 ->
  0 <= transientHeatEnergy (applyOp op s) <= 100.
Proof.
  intros Hop [L U]. destruct op as [amount| |]; cbn [applyOp addsNonNegative] in *.
  - cbn. split; [apply Q.min_glb; [discriminate | lra] | apply Q.le_min_l].
  - cbn. split; discriminate.
  - unfold decayTransientHeat. destruct (isPaused s); [now split|].
    destruct (Qle_bool (transientHeatEnergy s) 0); [now split|].
    destruct (energyDecayRate_bounds s) as [R0 R1].
    destruct (Qle_bool 0.1 _) eqn:E; cbn; [|split; discriminate].
    apply Qle_bool_iff in E. split; [lra|]. nra.
Qed.

(** X30.  In the mode-driven component the heat energy stays between 0 and 100
    through every sequence of additions of non-negative amounts, resets and
    frame decays, in every mode, paused or not. *)
Theorem modes_transientHeatEnergy_bounded (ops : list EnergyOp) (s : State) :
  Forall addsNonNegative ops ->
  0 <= transientHeatEnergy s <= 100 ->
  Forall (fun s' => 0 <= transientHeatEnergy s' <= 100) (run ops s).
Proof.
  intros Hops. revert s. induction Hops as [|op ops Hop Hops IH]; intros s H;
    cbn [run]; [constructor|].
  pose proof (applyOp_bounds op s Hop H) as H1.
  constructor; [exact H1 | now apply IH].
Qed.

Lemma modes_transientHeatEnergy_bounded_witness :
  Forall addsNonNegative [Add 20; Add 90; Decay; Reset; Add 5; Decay]
  /\ 0 <= transientHeatEnergy initial <= 100
  /\ Forall (fun s' => 0 <= transientHeatEnergy s' <= 100)
       (run [Add 20; Add 90; Decay; Reset; Add 5; Decay] initial).
Proof.
  assert (H1 : Forall addsNonNegative [Add 20; Add 90; Decay; Reset; Add 5; Decay])
    by (repeat constructor; cbn; discriminate).
  assert (H2 : 0 <= transientHeatEnergy initial <= 100)
    by (split; discriminate).
  split; [exact H1|]. split; [exact H2|].
  exact (modes_transientHeatEnergy_bounded _ initial H1 H2).
Defined.

(** *** Valence *)

Lemma countAtomBonds_shrinks (l l' : list Bond.t) (atom : nat) :
  Shared.shrinks l l' ->
  (List.length (Shared.connectedBonds l' atom)
   <= List.length (Shared.connectedBonds l atom))%nat.
Proof. intros [f ->]. apply filter_filter_length. Qed.

Lemma valenceRespected_frame (s s' : State) :
  valenceRespected s -> Shared.shrinks (bonds s) (bonds s') ->
  (forall a, protonsOf s' a = protonsOf s a) -> valenceRespected s'.
Proof.
  intros H Hs Hp atom. unfold countAtomBonds. rewrite Hp.
  eapply Nat.le_trans; [apply countAtomBonds_shrinks; exact Hs | apply H].
Qed.

Lemma countAtomBonds_added (l : list Bond.t) (bondId : string)
    (atomA atomB atom : nat) :
  List.length (Shared.connectedBonds (l ++ [Bond.mk bondId atomA atomB]) atom)
  = (List.length (Shared.connectedBonds l atom)
     + if (atomA =? atom)%nat || (atomB =? atom)%nat then 1 else 0)%nat.
Proof.
  unfold Shared.connectedBonds. rewrite filter_app, length_app. cbn.
  now destruct ((atomA =? atom)%nat || (atomB =? atom)%nat).
Qed.

(** A new record between two atoms that both have a free site. *)
Lemma valenceRespected_added (s : State) (atomA atomB : nat) :
  valenceRespected s ->
  (countAtomBonds s atomA < Shared.orElse maxBonds (protonsOf s atomA) 4)%nat ->
  (countAtomBonds s atomB < Shared.orElse maxBonds (protonsOf s atomB) 4)%nat ->
  valenceRespected
    (set_bonds (bonds s ++ [Bond.mk (Shared.bondIdOf atomA atomB) atomA atomB]) s).
Proof.
  intros H HA HB atom. unfold countAtomBonds in *. cbn [bonds set_bonds].
  rewrite countAtomBonds_added.
  change (protonsOf (set_bonds ?b s)) with (protonsOf s).
  specialize (H atom). unfold countAtomBonds in H.
  destruct (atomA =? atom)%nat eqn:EA; cbn [orb].
  - apply Nat.eqb_eq in EA. subst atom. lia.
  - destruct (atomB =? atom)%nat eqn:EB.
    + apply Nat.eqb_eq in EB. subst atom. lia.
    + lia.
Qed.

Lemma scanPair_valence (w : Simulation.World) (now : Z) (systemEnergy : Q)
    (s : State) (pair : nat * nat) :
  valenceRespected s -> valenceRespected (scanPair w now systemEnergy s pair).
Proof.
  intros H. destruct pair as [a b]. unfold scanPair.
  destruct (isMember s a || isMember s b); [exact H|].
  destruct (Shared.bondExists (bonds s) a b) eqn:Eb; [exact H|].
  destruct (_ <? 2000)%Z; [exact H|].
  destruct (Shared.lt _ 4.0); cbn [andb]; [|exact H].
  destruct (shouldFormBond s a b systemEnergy) eqn:Es; [|exact H].
  unfold shouldFormBond in Es.
  destruct (negb (engineCanFormBond s a b systemEnergy)); [discriminate|].
  apply andb_true_iff in Es as [EA EB]. apply Nat.ltb_lt in EA, EB.
  unfold createBond. cbn [bonds set_bondingCooldowns]. rewrite Eb.
  cbn [JS.stateOf].
  intros atom.
  exact (valenceRespected_added s a b H EA EB atom).
Qed.

Lemma scan_valence (w : Simulation.World) (now : Z) (systemEnergy : Q)
    (todo : list (nat * nat)) (s : State) :
  valenceRespected s ->
  valenceRespected (fold_left (scanPair w now systemEnergy) todo s).
Proof.
  revert s. induction todo as [|pair todo IH]; intros s H; cbn [fold_left];
    [exact H|].
  apply IH. now apply scanPair_valence.
Qed.

Lemma checkAndCreateBonds_valence (w : Simulation.World) (now : Z) (s : State) :
  valenceRespected s -> valenceRespected (checkAndCreateBonds w now s).
Proof.
  intros H. unfold checkAndCreateBonds.
  destruct (reactionInProgress s || isPaused s); [exact H|].
  destruct (negb _); [exact H|].
  destruct (_ <? _)%Z; [exact H|].
  apply scan_valence. exact H.
Qed.

Lemma createManualBond_valence (s : State) :
  valenceRespected s -> valenceRespected (JS.stateOf (createManualBond s)).
Proof.
  intros H. unfold createManualBond.
  destruct (selectedAtomsForBonding s) as [|a [|b rest]]; try exact H.
  destruct (existsb _ (bonds s)) eqn:Eb; [exact H|].
  destruct ((_ <=? countAtomBonds s a)%nat || (_ <=? countAtomBonds s b)%nat)
    eqn:Em; [exact H|].
  apply orb_false_iff in Em as [EA EB]. apply Nat.leb_gt in EA, EB.
  unfold createBond.
  destruct (Shared.bondExists (bonds s) a b).
  { cbn [JS.stateOf]. exact H. }
  cbn [negb].
  pose proof (valenceRespected_added s a b H EA EB) as H1.
  set (s1 := set_bonds _ s) in *.
  destruct (identifyMolecules_frame s1) as (Hs & _ & _ & Hp).
  pose proof (valenceRespected_frame s1 _ H1 Hs Hp) as H2.
  destruct (identifyMolecules s1) as [s'|s']; exact H2.
Qed.

(** X28.  In the mode-driven component both ways of creating a bond, the
    per-tick scan and the manual bond request, keep every atom within its
    max-bonds: if no atom has more bond records than [maxBonds[protons] || 4]
    before, none has after, however the call ends. *)
Theorem modes_bonding_respects_valence
    (w : Simulation.World) (now : Z) (s : State) :
  valenceRespected s ->
  valenceRespected (checkAndCreateBonds w now s)
  /\ valenceRespected (JS.stateOf (createManualBond s)).
Proof.
  intros H. split; [now apply checkAndCreateBonds_valence
                   | now apply createManualBond_valence].
Qed.

Lemma valenceRespected_no_bonds (s : State) :
  bonds s = [] -> valenceRespected s.
Proof.
  intros H atom. unfold countAtomBonds. rewrite H. cbn. lia.
Qed.

Lemma modes_bonding_respects_valence_witness :
  valenceRespected Examples.modesThreeHydrogens
  /\ valenceRespected
       (checkAndCreateBonds Examples.closeWorld 5000 Examples.modesThreeHydrogens)
  /\ valenceRespected (JS.stateOf (createManualBond Examples.modesThreeHydrogens)).
Proof.
  assert (H : valenceRespected Examples.modesThreeHydrogens)
    by (apply valenceRespected_no_bonds; reflexivity).
  split; [exact H|].
  exact (modes_bonding_respects_valence Examples.closeWorld 5000
           Examples.modesThreeHydrogens H).
Defined.

(** On the three hydrogens that the other component bonds three times, this
    scan makes one bond. *)
Lemma modes_scan_three_hydrogens :
  map Bond.id
    (bonds (checkAndCreateBonds Examples.closeWorld 5000
              Examples.modesThreeHydrogens))
  = ["0-1"].
Proof. vm_compute. reflexivity. Qed.

(** *** Deleting an atom *)

Lemma deleteBonds_suppressed (doomed : list Bond.t) (s : State) :
  atoms (fold_left (fun st b => JS.stateOf (deleteBond (Bond.id b) true st))
           doomed s) = atoms s
  /\ selectedAtomsForBonding
       (fold_left (fun st b => JS.stateOf (deleteBond (Bond.id b) true st))
          doomed s) = selectedAtomsForBonding s
  /\ bonds (fold_left (fun st b => JS.stateOf (deleteBond (Bond.id b) true st))
              doomed s)
     = fold_left (fun bs b => Shared.removeBond (Bond.id b) bs) doomed (bonds s).
Proof.
  revert s. induction doomed as [|d doomed IH]; intros s; cbn [fold_left];
    [auto|].
  destruct (IH (JS.stateOf (deleteBond (Bond.id d) true s))) as (H1 & H2 & H3).
  rewrite H1, H2, H3. auto.
Qed.

Lemma removeAll_not_In (doomed l : list Bond.t) (b d : Bond.t) :
  In d doomed ->
  In b (fold_left (fun bs x => Shared.removeBond (Bond.id x) bs) doomed l) ->
  Bond.id b <> Bond.id d.
Proof.
  revert l. induction doomed as [|x doomed IH]; intros l; cbn [fold_left];
    [intros []|].
  intros [<- | Hd] Hb.
  - assert (Hx : In b (Shared.removeBond (Bond.id x) l)).
    { eapply BondProps.shrinks_In; [apply shrinks_removeAll | exact Hb]. }
    now apply BondProps.removeBond_not_In in Hx.
  - exact (IH _ Hd Hb).
Qed.

(** X29.  In the mode-driven component, however [deleteAtom] ends, the atom is
    gone from the atom list and from the atoms selected for bonding, and no
    bond record ends at it. *)
Theorem modes_deleteAtom_detaches (atomToDelete : nat) (s : State) :
  ~ In atomToDelete (atoms (JS.stateOf (deleteAtom atomToDelete s)))
  /\ ~ In atomToDelete
        (selectedAtomsForBonding (JS.stateOf (deleteAtom atomToDelete s)))
  /\ Shared.connectedBonds (bonds (JS.stateOf (deleteAtom atomToDelete s)))
       atomToDelete = [].
Proof.
  unfold deleteAtom.
  set (s1 := match find _ (molecules s) with
             | Some m => breakMolecule m s
             | None => s
             end).
  set (s2 := set_atoms _ s1).
  set (doomed := Shared.connectedBonds (bonds s2) atomToDelete).
  destruct (deleteBonds_suppressed doomed s2) as (Ha3 & Hsel3 & Hb3).
  set (s3 := fold_left _ doomed s2) in *.
  set (s4 := set_selectedAtomsForBonding _ s3).
  destruct (identifyMolecules_frame s4) as (Hs & Ha & Hsel & _).
  split; [|split].
  - rewrite Ha. subst s4. cbn [atoms set_selectedAtomsForBonding].
    rewrite Ha3. subst s2. cbn [atoms set_atoms].
    intros Hin. apply filter_In in Hin as [_ Hin].
    now rewrite Nat.eqb_refl in Hin.
  - rewrite Hsel. subst s4.
    cbn [selectedAtomsForBonding set_selectedAtomsForBonding].
    intros Hin. apply filter_In in Hin as [_ Hin].
    now rewrite Nat.eqb_refl in Hin.
  - destruct (Shared.connectedBonds (bonds (JS.stateOf (identifyMolecules s4)))
                atomToDelete) as [|b rest] eqn:Ec; [reflexivity|].
    assert (Hb : In b (Shared.connectedBonds
                         (bonds (JS.stateOf (identifyMolecules s4))) atomToDelete))
      by (rewrite Ec; now left).
    unfold Shared.connectedBonds in Hb. apply filter_In in Hb as [Hb Ht].
    assert (Hb4 : In b (bonds s3)) by exact (BondProps.shrinks_In _ _ _ Hs Hb).
    rewrite Hb3 in Hb4.
    assert (Hb2 : In b (bonds s2)).
    { eapply BondProps.shrinks_In; [apply shrinks_removeAll | exact Hb4]. }
    exfalso. apply (removeAll_not_In doomed (bonds s2) b b); [|exact Hb4|reflexivity].
    subst doomed. unfold Shared.connectedBonds. apply filter_In. now split.
Qed.

End ModesProps.

(** ** Adding heat *)

Module EnergyUpdateProps.





(** [addSystemEnergy] with a non-negative amount keeps the energy of the
    mode-driven component between 0 and 100. *)
Theorem addSystemEnergy_bounds (m : ModesSimulation.State) (amount : Q) :
  0 <= amount -> 0 <= ModesSimulation.transientHeatEnergy m ->
  0 <= ModesSimulation.transientHeatEnergy (ModesSimulation.addSystemEnergy amount m)
  /\ ModesSimulation.transientHeatEnergy (ModesSimulation.addSystemEnergy amount m)
     <= 100.
Proof.
  intros Ha Ht. cbn. split; [|apply Q.le_min_l].
  apply Q.min_glb; [discriminate | lra].
Qed.

Lemma addSystemEnergy_bounds_witness :
  0 <= 20 /\ 0 <= ModesSimulation.transientHeatEnergy ModesSimulation.initial
  /\ 0 <= ModesSimulation.transientHeatEnergy
            (ModesSimulation.addSystemEnergy 20 ModesSimulation.initial)
  /\ ModesSimulation.transientHeatEnergy
       (ModesSimulation.addSystemEnergy 20 ModesSimulation.initial) <= 100.
Proof.
  assert (Ha : 0 <= 20) by discriminate.
  assert (Ht : 0 <= ModesSimulation.transientHeatEnergy ModesSimulation.initial)
    by discriminate.
  split; [exact Ha|]. split; [exact Ht|].
  exact (addSystemEnergy_bounds ModesSimulation.initial 20 Ha Ht).
Defined.

End EnergyUpdateProps.
